(** * SmartHomework: the model orchestration layer of [services/geminiService.ts]

    A shallow embedding of the response sanitizer ([cleanAndParseJSON]), the
    tiered caller ([callAI]), the homework and math pipelines
    ([analyzeHomework], [solveMathWithCode]) and the two session slots
    ([initializeChat], [sendChatMessage], [startExamSession],
    [sendExamMessage]), followed by the properties of the specification.

    Conventions.
    - A JavaScript string is a [string]; its characters are 8-bit code units.
    - A JavaScript number is an integer [Z]; IEEE doubles are not represented.
    - A call that may throw returns an [outcome]; [tryCatch] is [try/catch].
    - What is thrown is an error object, a [JsError]: the provider and the
      runtime throw [Error]s.  A thrown [null] or [undefined], on which the
      handlers of [callAI] would fail themselves, is not represented.
    - The model provider is opaque: it is a parameter acting on a world [W]. *)

From Stdlib Require Import ZArith List String Ascii Bool Lia DecimalString.
Import ListNotations.
Local Open Scope string_scope.
Local Open Scope Z_scope.
Set Warnings "-register-all".

(** ** ECMAScript string primitives used by the service *)

Module JsString.

Definition nl : string := String "010"%char "".
Definition dquote : ascii := "034"%char.

(** Position of the first occurrence of a character, if any. *)
Fixpoint find_first (c : ascii) (s : string) : option nat :=
  match s with
  | EmptyString => None
  | String a r =>
      if Ascii.eqb a c then Some O
      else match find_first c r with
           | Some i => Some (S i)
           | None => None
           end
  end.

(** Position of the last occurrence of a character, if any. *)
Fixpoint find_last (c : ascii) (s : string) : option nat :=
  match s with
  | EmptyString => None
  | String a r =>
      match find_last c r with
      | Some i => Some (S i)
      | None => if Ascii.eqb a c then Some O else None
      end
  end.

Definition pos_or_minus1 (o : option nat) : Z :=
  match o with
  | Some i => Z.of_nat i
  | None => -1
  end.

(** [s.indexOf(c)] and [s.lastIndexOf(c)] for a one-character needle. *)
Definition indexOf (c : ascii) (s : string) : Z := pos_or_minus1 (find_first c s).
Definition lastIndexOf (c : ascii) (s : string) : Z := pos_or_minus1 (find_last c s).

(** [s.substring(a, b)]: both ends are clamped to [0, length] and swapped
    when the first exceeds the second. *)
Definition clamp (len : nat) (z : Z) : nat := Nat.min (Z.to_nat z) len.

Definition substring (s : string) (a b : Z) : string :=
  let len := String.length s in
  let a' := clamp len a in
  let b' := clamp len b in
  String.substring (Nat.min a' b') (Nat.max a' b' - Nat.min a' b') s.

(** White space removed by [trim]: TAB, LF, VT, FF, CR, SP and NBSP. *)
Definition is_space (c : ascii) : bool :=
  let n := nat_of_ascii c in
  ((9 <=? n)%nat && (n <=? 13)%nat) || (n =? 32)%nat || (n =? 160)%nat.

Fixpoint trimStart (s : string) : string :=
  match s with
  | EmptyString => EmptyString
  | String a r => if is_space a then trimStart r else s
  end.

Fixpoint trimEnd (s : string) : string :=
  match s with
  | EmptyString => EmptyString
  | String a r =>
      match trimEnd r with
      | EmptyString => if is_space a then EmptyString else String a EmptyString
      | r' => String a r'
      end
  end.

Definition trim (s : string) : string := trimEnd (trimStart s).

Definition startsWith (p s : string) : bool := String.prefix p s.

Fixpoint drop (n : nat) (s : string) : string :=
  match n, s with
  | O, _ => s
  | S _, EmptyString => EmptyString
  | S n', String _ r => drop n' r
  end.

(** [s.includes(needle)]. *)
Fixpoint includes (needle s : string) : bool :=
  String.prefix needle s
  || match s with
     | EmptyString => false
     | String _ r => includes needle r
     end.

(** An optional literal at the head of a regular expression. *)
Definition skip_optional (p s : string) : string :=
  if String.prefix p s then drop (String.length p) s else s.

(** [s.replace(/^```(?:json)?\n?/, "")]. *)
Definition stripOpeningFence (s : string) : string :=
  if String.prefix "```" s
  then skip_optional nl (skip_optional "json" (drop 3 s))
  else s.

(** [s.replace(/\n?```$/, "")]: the leftmost match is the suffix
    LF-backticks when the text ends so, and else the suffix of three
    backticks. *)
Fixpoint stripClosingFence (s : string) : string :=
  if String.eqb s (nl ++ "```") || String.eqb s "```" then EmptyString
  else match s with
       | EmptyString => EmptyString
       | String a r => String a (stripClosingFence r)
       end.

(** Test inputs are written with ['] for the double quote and [~] for a
    line feed. *)
Fixpoint lit (s : string) : string :=
  match s with
  | EmptyString => EmptyString
  | String a r =>
      String (if Ascii.eqb a "'" then dquote
              else if Ascii.eqb a "~" then "010"%char else a) (lit r)
  end.

End JsString.
Import JsString.

(** ** JavaScript values and errors *)

Inductive value : Type :=
| VUndefined
| VNull
| VBool (b : bool)
| VNum (n : Z)
| VStr (s : string)
| VArr (l : list value)
| VObj (kvs : list (string * value)).

(** A thrown value: an [Error]-like object with its [message] (a string,
    the empty one when absent), its [status] when it carries one, and the
    text [JSON.stringify] gives for it. *)
Record JsError : Type := mkError {
  err_message : string;
  err_status : option Z;
  err_json : string
}.

Definition Error (msg : string) : JsError := mkError msg None "{}".
Definition TypeError (msg : string) : JsError := mkError msg None "{}".

Inductive outcome (A : Type) : Type :=
| Return (a : A)
| Throw (e : JsError).
Arguments Return {A} a.
Arguments Throw {A} e.

Definition tryCatch {A} (body : outcome A) (handler : JsError -> outcome A) : outcome A :=
  match body with
  | Return a => Return a
  | Throw e => handler e
  end.

Module Obj.

Fixpoint lookup (k : string) (kvs : list (string * value)) : option value :=
  match kvs with
  | [] => None
  | (k', v) :: r => if String.eqb k' k then Some v else lookup k r
  end.

(** Assignment of a property: an existing key keeps its place. *)
Fixpoint set (k : string) (v : value) (kvs : list (string * value)) : list (string * value) :=
  match kvs with
  | [] => [(k, v)]
  | (k', v') :: r => if String.eqb k' k then (k, v) :: r else (k', v') :: set k v r
  end.

End Obj.

(** Truthiness ([!x], [x && y], [x || y], [x ? a : b]). *)
Definition truthy (v : value) : bool :=
  match v with
  | VUndefined | VNull => false
  | VBool b => b
  | VNum n => negb (n =? 0)
  | VStr s => negb (String.eqb s "")
  | VArr _ | VObj _ => true
  end.

(** [a === b].  Objects and arrays compare by identity; every object the
    service compares comes from a distinct [JSON.parse] allocation, so two
    of them are never identical. *)
Definition strict_eq (a b : value) : bool :=
  match a, b with
  | VUndefined, VUndefined => true
  | VNull, VNull => true
  | VBool x, VBool y => Bool.eqb x y
  | VNum x, VNum y => x =? y
  | VStr x, VStr y => String.eqb x y
  | _, _ => false
  end.

(** [v.k] for the property names the service reads (none is an array
    index): a [TypeError] on [undefined] and [null]. *)
Definition get (v : value) (k : string) : outcome value :=
  match v with
  | VUndefined | VNull => Throw (TypeError "Cannot read properties of undefined or null")
  | VObj kvs => Return (match Obj.lookup k kvs with Some x => x | None => VUndefined end)
  | VArr l => Return (if String.eqb k "length" then VNum (Z.of_nat (List.length l)) else VUndefined)
  | VStr s => Return (if String.eqb k "length" then VNum (Z.of_nat (String.length s)) else VUndefined)
  | VBool _ | VNum _ => Return VUndefined
  end.

(** [v?.k]. *)
Definition get_opt (v : value) (k : string) : value :=
  match get v k with
  | Return x => x
  | Throw _ => VUndefined
  end.

(** The conversion of a value to a primitive, which a template literal
    ([ToString]) and a comparison with a number ([ToNumber]) start with.  On
    the values [JSON.parse] builds it can only fail on an object with an own
    property [toString]: that property is never a function, and the
    inherited [valueOf] gives the object back, so no method yields a
    primitive and a [TypeError] is thrown.  Every other object converts with
    [Object.prototype.toString]; an array converts with [join], which
    converts its elements. *)
Fixpoint convertible (v : value) : bool :=
  match v with
  | VArr l => forallb convertible l
  | VObj kvs =>
      match Obj.lookup "toString" kvs with
      | Some _ => false
      | None => true
      end
  | VUndefined | VNull | VBool _ | VNum _ | VStr _ => true
  end.

(** The conversion itself, as far as the service depends on it: it throws or
    it returns, and what is made of the value (a prompt, a comparison) keeps
    the value it is made from. *)
Definition ToPrimitive (v : value) : outcome value :=
  if convertible v then Return v
  else Throw (TypeError "Cannot convert object to primitive value").

(** ** A reference [JSON.parse]

    Used to evaluate the service on concrete texts; the general theorems
    hold for any parser.  It covers the JSON grammar over 8-bit characters
    with integer number literals: a literal with a fraction or an exponent
    denotes a double, which the value model does not have, and is not
    accepted; nor is an escape [\uXXXX] above [\u00FF], which names a
    character outside the 8-bit alphabet. *)

Module Json.

Definition is_ws (c : ascii) : bool :=
  let n := nat_of_ascii c in
  (n =? 32)%nat || (n =? 9)%nat || (n =? 10)%nat || (n =? 13)%nat.

Fixpoint skip_ws (s : string) : string :=
  match s with
  | EmptyString => EmptyString
  | String a r => if is_ws a then skip_ws r else s
  end.

Definition digit (c : ascii) : option Z :=
  let n := nat_of_ascii c in
  if ((48 <=? n) && (n <=? 57))%nat then Some (Z.of_nat n - 48) else None.

Definition hex (c : ascii) : option nat :=
  let n := nat_of_ascii c in
  if ((48 <=? n) && (n <=? 57))%nat then Some (n - 48)%nat
  else if ((65 <=? n) && (n <=? 70))%nat then Some (n - 55)%nat
  else if ((97 <=? n) && (n <=? 102))%nat then Some (n - 87)%nat
  else None.

Definition unescape (c : ascii) : option ascii :=
  if Ascii.eqb c dquote then Some dquote
  else if Ascii.eqb c "\" then Some "\"%char
  else if Ascii.eqb c "/" then Some "/"%char
  else if Ascii.eqb c "b" then Some "008"%char
  else if Ascii.eqb c "f" then Some "012"%char
  else if Ascii.eqb c "n" then Some "010"%char
  else if Ascii.eqb c "r" then Some "013"%char
  else if Ascii.eqb c "t" then Some "009"%char
  else None.

Definition cons_to (c : ascii) (o : option (string * string)) : option (string * string) :=
  match o with
  | Some (body, rest) => Some (String c body, rest)
  | None => None
  end.

(** The characters of a string literal after its opening quote. *)
Fixpoint lex_string (s : string) : option (string * string) :=
  match s with
  | EmptyString => None
  | String c r =>
      if Ascii.eqb c dquote then Some (EmptyString, r)
      else if Ascii.eqb c "\" then
        match r with
        | EmptyString => None
        | String e r1 =>
            if Ascii.eqb e "u" then
              match r1 with
              | String h1 (String h2 (String h3 (String h4 r2))) =>
                  match hex h1, hex h2, hex h3, hex h4 with
                  | Some O, Some O, Some a, Some b =>
                      cons_to (ascii_of_nat (16 * a + b)) (lex_string r2)
                  | _, _, _, _ => None
                  end
              | _ => None
              end
            else match unescape e with
                 | Some ch => cons_to ch (lex_string r1)
                 | None => None
                 end
        end
      else if (nat_of_ascii c <? 32)%nat then None
      else cons_to c (lex_string r)
  end.

Fixpoint lex_digits (s : string) (acc : Z) : Z * string :=
  match s with
  | EmptyString => (acc, s)
  | String c r =>
      match digit c with
      | Some d => lex_digits r (10 * acc + d)
      | None => (acc, s)
      end
  end.

Definition starts_fraction (s : string) : bool :=
  match s with
  | String c _ => Ascii.eqb c "." || Ascii.eqb c "e" || Ascii.eqb c "E"
  | EmptyString => false
  end.

(** An integer literal without sign: [0] or a digit string with no leading
    zero. *)
Definition lex_nat (s : string) : option (Z * string) :=
  match s with
  | String c r =>
      match digit c with
      | Some 0 => if starts_fraction r then None else Some (0, r)
      | Some d =>
          let '(n, rest) := lex_digits r d in
          if starts_fraction rest then None else Some (n, rest)
      | None => None
      end
  | EmptyString => None
  end.

Definition lex_number (s : string) : option (value * string) :=
  match s with
  | String c r =>
      if Ascii.eqb c "-" then
        match lex_nat r with
        | Some (n, rest) => Some (VNum (- n), rest)
        | None => None
        end
      else match lex_nat s with
           | Some (n, rest) => Some (VNum n, rest)
           | None => None
           end
  | EmptyString => None
  end.

Definition lex_scalar (s : string) : option (value * string) :=
  if String.prefix "true" s then Some (VBool true, drop 4 s)
  else if String.prefix "false" s then Some (VBool false, drop 5 s)
  else if String.prefix "null" s then Some (VNull, drop 4 s)
  else lex_number s.

Fixpoint parse_value (fuel : nat) (s : string) : option (value * string) :=
  match fuel with
  | O => None
  | S f =>
      match skip_ws s with
      | EmptyString => None
      | String c r =>
          if Ascii.eqb c "{" then
            match skip_ws r with
            | String c' r' =>
                if Ascii.eqb c' "}" then Some (VObj [], r')
                else parse_members f r []
            | EmptyString => None
            end
          else if Ascii.eqb c "[" then
            match skip_ws r with
            | String c' r' =>
                if Ascii.eqb c' "]" then Some (VArr [], r')
                else parse_elements f r []
            | EmptyString => None
            end
          else if Ascii.eqb c dquote then
            match lex_string r with
            | Some (str, rest) => Some (VStr str, rest)
            | None => None
            end
          else lex_scalar (String c r)
      end
  end

with parse_elements (fuel : nat) (s : string) (acc : list value) : option (value * string) :=
  match fuel with
  | O => None
  | S f =>
      match parse_value f s with
      | Some (v, r) =>
          match skip_ws r with
          | String c r' =>
              if Ascii.eqb c "," then parse_elements f r' (v :: acc)
              else if Ascii.eqb c "]" then Some (VArr (rev (v :: acc)), r')
              else None
          | EmptyString => None
          end
      | None => None
      end
  end

with parse_members (fuel : nat) (s : string) (acc : list (string * value)) : option (value * string) :=
  match fuel with
  | O => None
  | S f =>
      match skip_ws s with
      | String q r =>
          if Ascii.eqb q dquote then
            match lex_string r with
            | Some (k, r1) =>
                match skip_ws r1 with
                | String colon r2 =>
                    if Ascii.eqb colon ":" then
                      match parse_value f r2 with
                      | Some (v, r3) =>
                          match skip_ws r3 with
                          | String c r4 =>
                              if Ascii.eqb c "," then parse_members f r4 (Obj.set k v acc)
                              else if Ascii.eqb c "}" then Some (VObj (Obj.set k v acc), r4)
                              else None
                          | EmptyString => None
                          end
                      | None => None
                      end
                    else None
                | EmptyString => None
                end
            | None => None
            end
          else None
      | EmptyString => None
      end
  end.

(** [JSON.parse(s)]: the whole text is one value between white space; a
    [SyntaxError] otherwise. *)
Definition parse (s : string) : outcome value :=
  match parse_value (2 * String.length s + 2) s with
  | Some (v, rest) =>
      match skip_ws rest with
      | EmptyString => Return v
      | String _ _ => Throw (mkError "Unexpected token in JSON" None "{}")
      end
  | None => Throw (mkError "Unexpected token in JSON" None "{}")
  end.

End Json.

(** ** The response sanitizer *)

Section Sanitizer.

(** [JSON.parse] of the platform. *)
Variable JSON_parse : string -> outcome value.

(** The text of the second attempt: trimmed, and without its fence when it
    starts with one. *)
Definition looseText (text : string) : string :=
  let cleaned := trim text in
  if startsWith "```" cleaned
  then stripClosingFence (stripOpeningFence cleaned)
  else cleaned.

(** The first attempt: the text from the first opening brace to the last
    closing brace, when both exist. *)
Definition rigorousCandidate (text : string) : option string :=
  let firstOpen := indexOf "{" text in
  let lastClose := lastIndexOf "}" text in
  if negb (firstOpen =? -1) && negb (lastClose =? -1)
  then Some (substring text firstOpen (lastClose + 1))
  else None.

(** [cleanAndParseJSON(text)], with [None] for [undefined]; the console
    warning of the last [catch] is left out. *)
Definition cleanAndParseJSON (text : option string) : outcome value :=
  match text with
  | None => Return (VObj [])
  | Some EmptyString => Return (VObj [])
  | Some text =>
      tryCatch
        (match rigorousCandidate text with
         | Some candidate => JSON_parse candidate
         | None => Throw (Error "no object boundaries")
         end)
        (fun _ => tryCatch (JSON_parse (looseText text)) (fun _ => Return (VObj [])))
  end.

End Sanitizer.

(** ** Computations with state and exceptions

    An [async] function of the service is a function of the state it runs
    in: it ends with a value or a thrown error, and a new state.  [await]
    is sequencing. *)

Definition M (St A : Type) : Type := St -> outcome A * St.

Definition ret {St A} (a : A) : M St A := fun s => (Return a, s).
Definition throw {St A} (e : JsError) : M St A := fun s => (Throw e, s).

Definition bind {St A B} (m : M St A) (k : A -> M St B) : M St B :=
  fun s =>
    match m s with
    | (Return a, s') => k a s'
    | (Throw e, s') => (Throw e, s')
    end.

Definition tryCatchM {St A} (body : M St A) (handler : JsError -> M St A) : M St A :=
  fun s =>
    match body s with
    | (Return a, s') => (Return a, s')
    | (Throw e, s') => handler e s'
    end.

(** A computation that does not touch the state. *)
Definition lift {St A} (o : outcome A) : M St A := fun s => (o, s).

Declare Scope js_scope.
Delimit Scope js_scope with js.
Notation "x <- m ;; k" := (bind m (fun x => k))
  (at level 61, m at next level, right associativity) : js_scope.
Notation "' p <- m ;; k" := (bind m (fun p => k))
  (at level 61, p pattern, m at next level, right associativity) : js_scope.
Local Open Scope js_scope.

(** ** The tiered caller *)

Definition MODEL_SMART : string := "gemini-3-pro-preview".
Definition MODEL_FAST : string := "gemini-2.5-flash".
Definition MODEL_IMAGE_SMART : string := "gemini-3-pro-image-preview".
Definition MODEL_IMAGE_FAST : string := "gemini-2.5-flash-image".

(** [{ output, model }]. *)
Record Tiered (T : Type) : Type := mkTiered {
  output : T;
  model : string
}.
Arguments mkTiered {T} output model.
Arguments output {T} t.
Arguments model {T} t.

(** [error?.message || JSON.stringify(error)]. *)
Definition errorText (error : JsError) : string :=
  if String.eqb (err_message error) "" then err_json error else err_message error.

(** [error?.status === 429 || msg.includes('429') || msg.includes('quota')]. *)
Definition isQuota (error : JsError) : bool :=
  let msg := errorText error in
  match err_status error with
  | Some st => st =? 429
  | None => false
  end
  || includes "429" msg
  || includes "quota" msg.

(** A [string | null] model identifier used as a condition. *)
Definition configured (fallbackModel : option string) : bool :=
  match fallbackModel with
  | Some m => negb (String.eqb m "")
  | None => false
  end.

Section TieredCaller.

Context {St T : Type}.

Definition attemptCall (apiCall : string -> M St T) (model : string) : M St (Tiered T) :=
  tryCatchM
    (result <- apiCall model ;;
     ret (mkTiered result model))
    (fun error =>
       if isQuota error then throw (Error "QUOTA_EXCEEDED") else throw error).

(** [callAI(operationName, apiCall, primaryModel, fallbackModel)]; the
    operation name only labels the console warning, which is left out. *)
Definition callAI (operationName : string) (apiCall : string -> M St T)
    (primaryModel : string) (fallbackModel : option string) : M St (Tiered T) :=
  tryCatchM
    (attemptCall apiCall primaryModel)
    (fun error =>
       if String.eqb (err_message error) "QUOTA_EXCEEDED" && configured fallbackModel
       then attemptCall apiCall (match fallbackModel with Some m => m | None => "" end)
       else throw error).

(** The same operation, recording the model of every invocation. *)
Definition traced (apiCall : string -> M St T) : string -> M (St * list string) T :=
  fun model st =>
    let '(r, s') := apiCall model (fst st) in
    (r, (s', (snd st ++ [model])%list)).

End TieredCaller.

(** ** Requests and responses of the model provider *)

(** A part of a request.  A prompt is kept as the name of its template and
    the values interpolated into it: the provider is opaque, so the text
    itself plays no role. *)
Inductive Part : Type :=
| InlineData (data mimeType : string)
| Text (template : string) (holes : list value).

Record Config : Type := mkConfig {
  responseMimeType : option string;
  responseSchema : option string;
  temperature : option string;
  tools : list string;
  systemInstruction : option Part
}.

Record Request : Type := mkRequest {
  contents : list Part;
  config : Config
}.

Record WebSource : Type := mkWebSource {
  uri : value;
  title : value
}.

Record GroundingChunk : Type := mkChunk {
  web : option WebSource
}.

(** What the service reads of a [GenerateContentResponse]: [text] and
    [candidates?.[0]?.groundingMetadata?.groundingChunks]. *)
Record GenerateContentResponse : Type := mkResponse {
  text : option string;
  groundingChunks : option (list GroundingChunk)
}.

(** [s || d] on an optional string. *)
Definition orDefault (s : option string) (d : string) : string :=
  match s with
  | Some x => if String.eqb x "" then d else x
  | None => d
  end.

Definition nonEmpty (s : option string) : bool :=
  match s with
  | Some x => negb (String.eqb x "")
  | None => false
  end.

(** The [forEach] that pushes [{ uri, title }] for every chunk with a [web]. *)
Definition collectSources (r : GenerateContentResponse) : list WebSource :=
  match groundingChunks r with
  | Some chunks =>
      flat_map (fun c => match web c with Some w => [w] | None => [] end) chunks
  | None => []
  end.

Definition sourceValue (w : WebSource) : value :=
  VObj [("uri", uri w); ("title", title w)].

(** ** Object helpers of the pipelines *)

Definition bindO {A B} (o : outcome A) (k : A -> outcome B) : outcome B :=
  match o with
  | Return a => k a
  | Throw e => Throw e
  end.

Notation "x <~ o ;; k" := (bindO o (fun x => k))
  (at level 61, o at next level, right associativity) : js_scope.

Definition indexKey (i : nat) : string :=
  DecimalString.NilEmpty.string_of_uint (Nat.to_uint i).

Fixpoint indexed {A} (f : A -> value) (i : nat) (l : list A) : list (string * value) :=
  match l with
  | [] => []
  | x :: r => (indexKey i, f x) :: indexed f (S i) r
  end.

(** The own enumerable properties copied by [{ ...v }]. *)
Definition spread (v : value) : list (string * value) :=
  match v with
  | VObj kvs => kvs
  | VArr l => indexed (fun x => x) O l
  | VStr s => indexed (fun c => VStr (String c EmptyString)) O (list_ascii_of_string s)
  | VUndefined | VNull | VBool _ | VNum _ => []
  end.

(** [arr[i] = v] for an index inside the array. *)
Fixpoint replaceAt (i : nat) (v : value) (l : list value) {struct l} : list value :=
  match l, i with
  | [], _ => []
  | _ :: r, O => v :: r
  | x :: r, S i' => x :: replaceAt i' v r
  end.

Fixpoint findIndex (pred : value -> outcome bool) (l : list value) : outcome (option nat) :=
  match l with
  | [] => Return None
  | x :: r =>
      b <~ pred x ;;
      if b then Return (Some O)
      else
        o <~ findIndex pred r ;;
        Return (match o with Some i => Some (S i) | None => None end)
  end.

Fixpoint filterO (pred : value -> outcome bool) (l : list value) : outcome (list value) :=
  match l with
  | [] => Return []
  | x :: r =>
      b <~ pred x ;;
      rest <~ filterO pred r ;;
      Return (if b then x :: rest else rest)
  end.

Fixpoint mapO {A} (f : nat -> value -> outcome A) (i : nat) (l : list value) : outcome (list A) :=
  match l with
  | [] => Return []
  | x :: r =>
      y <~ f i x ;;
      rest <~ mapO f (S i) r ;;
      Return (y :: rest)
  end.

(** A method of [Array.prototype] called on a value: a [TypeError] when the
    value is not an array. *)
Definition asArray (v : value) : outcome (list value) :=
  match v with
  | VArr l => Return l
  | _ => Throw (TypeError "is not a function")
  end.

(** ** The homework pipeline *)

Inductive InputType : Type := Image | PlainText.

Record AnalysisInput : Type := mkInput {
  in_type : InputType;
  in_data : string;
  in_mimeType : option string;
  in_textContext : option string
}.

Record ProblemAnalysis : Type := mkProblem {
  id : Z;
  subject : value;
  topic : value;
  isCorrect : value;
  boundingBox : value;
  explanation : value;
  steps : value;
  problemStatement : value;
  keyConcepts : value;
  studentAnswer : value;
  visualAidPrompt : value;
  validation : value
}.

Record HomeworkResponse : Type := mkHomework {
  hasStudentSolution : value;
  modelUsed : string;
  problems : list ProblemAnalysis
}.

(** [{ status: 'verified', confidenceScore: 99, renderingNote: "AI Self-Corrected" }]. *)
Definition selfCorrected : value :=
  VObj [("status", VStr "verified");
        ("confidenceScore", VNum 99);
        ("renderingNote", VStr "AI Self-Corrected")].

(** [{ ...fixedP, validation: {...} }]. *)
Definition mergedRecord (fixedP : value) : value :=
  VObj (Obj.set "validation" selfCorrected (spread fixedP)).

(** The callback of [findIndex] in the merge. *)
Definition sameProblem (fixedP p : value) : outcome bool :=
  a <~ get p "problem_statement" ;;
  b <~ get fixedP "problem_statement" ;;
  if strict_eq a b then Return true
  else
    c <~ get p "student_answer" ;;
    d <~ get fixedP "student_answer" ;;
    Return (strict_eq c d).

(** The [forEach] of the merge over the array [rawResponse.problems], which
    it updates in place: the result is the array when the loop ends, and
    the error when the callback throws on the way; the updates made before
    the error stay. *)
Fixpoint mergeLoop (fixed : list value) (problems : list value) : list value * outcome unit :=
  match fixed with
  | [] => (problems, Return tt)
  | fixedP :: rest =>
      match findIndex (sameProblem fixedP) problems with
      | Throw e => (problems, Throw e)
      | Return None => mergeLoop rest problems
      | Return (Some index) =>
          mergeLoop rest (replaceAt index (mergedRecord fixedP) problems)
      end
  end.

(** [if (!rawResponse.problems) rawResponse.problems = []] followed by the
    read of [rawResponse.problems]; the module is strict code, where the
    assignment to a property of a primitive throws. *)
Definition problemsOf (rawResponse : value) : outcome value :=
  p <~ get rawResponse "problems" ;;
  if truthy p then Return p
  else match rawResponse with
       | VObj _ | VArr _ => Return (VArr [])
       | _ => Throw (TypeError "Cannot create property 'problems'")
       end.

Section Pipelines.

(** The world the provider acts on, and its three entry points. *)
Variable W : Type.
Variable Chat : Type.
Variable generateContent : string -> Request -> M W GenerateContentResponse.
Variable chats_create : string -> Config -> M W Chat.
Variable sendMessage : Chat -> list Part -> M W GenerateContentResponse.

(** [JSON.parse], and [ToNumber] on strings, arrays and objects ([None] is
    [NaN]). *)
Variable JSON_parse : string -> outcome value.
Variable ToNumber_ext : value -> option Z.

Definition ToNumber (v : value) : option Z :=
  match v with
  | VUndefined => None
  | VNull => Some 0
  | VBool b => Some (if b then 1 else 0)
  | VNum n => Some n
  | VStr _ | VArr _ | VObj _ => ToNumber_ext v
  end.

(** [a < b] where one side is a number. *)
Definition js_lt (a b : value) : bool :=
  match ToNumber a, ToNumber b with
  | Some x, Some y => x <? y
  | _, _ => false
  end.

(** The predicate of the selection:
    [p.validation_check?.status === 'warning' ||
     (p.validation_check?.confidence_score || 0) < 80];
    the comparison converts its left operand first. *)
Definition needsRefinement (p : value) : outcome bool :=
  vc <~ get p "validation_check" ;;
  if strict_eq (get_opt vc "status") (VStr "warning") then Return true
  else
    let score := get_opt vc "confidence_score" in
    n <~ ToPrimitive (if truthy score then score else VNum 0) ;;
    Return (js_lt n (VNum 80)).

Definition inputPartsOf (input : AnalysisInput) : list Part :=
  (match in_type input with
   | Image => [InlineData (in_data input) (orDefault (in_mimeType input) "image/jpeg")]
   | PlainText => [Text (in_data input) []]
   end
   ++ (if nonEmpty (in_textContext input)
       then [Text "[EXTRACTED TEXT CONTEXT FROM FILE]" [VStr (orDefault (in_textContext input) "")]]
       else []))%list.

Definition jsonConfig (schema : option string) (temp : option string) : Config :=
  mkConfig (Some "application/json") schema temp [] None.

(** [grading_rules ? grading_rules.join(', ') : 'Standard grading']; [join]
    converts the elements of the array. *)
Definition rulesText (grading_rules : value) : outcome value :=
  if truthy grading_rules
  then l <~ asArray grading_rules ;; ToPrimitive (VArr l)
  else Return (VStr "Standard grading").

(** The call of the refinement step and the body of its [try]; [problems]
    is the array [rawResponse.problems] before it. *)
Definition refinementCall (inputParts : list Part) (problemsToRefine : list value)
  : M W (Tiered GenerateContentResponse) :=
  callAI "Analysis Refinement"
    (fun model => generateContent model
       (mkRequest (inputParts ++ [Text "refinePrompt" [VArr problemsToRefine]])
                  (jsonConfig (Some "analysisSchema") None)))
    MODEL_SMART None.

Definition refinementAttempt (inputParts : list Part) (problemsToRefine problems : list value)
  : M W (list value) :=
  refineRes <- refinementCall inputParts problemsToRefine ;;
  refinedData <- lift (cleanAndParseJSON JSON_parse (text (output refineRes))) ;;
  fixed <- lift (get refinedData "problems") ;;
  if truthy fixed then
    len <- lift (get fixed "length") ;;
    n <- lift (ToPrimitive len) ;;
    if js_lt (VNum 0) n then
      l <- lift (asArray fixed) ;;
      ret (fst (mergeLoop l problems))
    else ret problems
  else ret problems.

(** Step 3 of [analyzeHomework]: the array [rawResponse.problems] after the
    [if (problemsToRefine.length > 0) { try {...} catch {...} }] block. *)
Definition refineProblems (inputParts : list Part) (problemsToRefine problems : list value)
  : M W (list value) :=
  if (0 <? Z.of_nat (List.length problemsToRefine))
  then tryCatchM (refinementAttempt inputParts problemsToRefine problems)
                 (fun _ => ret problems)
  else ret problems.

(** One element of the final [map]. *)
Definition toProblemAnalysis (subject topic : value) (index : nat) (p : value)
  : outcome ProblemAnalysis :=
  is_correct <~ get p "is_correct" ;;
  error_location <~ get p "error_location" ;;
  complete_solution <~ get p "complete_solution" ;;
  step_by_step <~ get p "step_by_step" ;;
  problem_statement <~ get p "problem_statement" ;;
  key_concepts <~ get p "key_concepts" ;;
  student_answer <~ get p "student_answer" ;;
  visual_aid_prompt <~ get p "visual_aid_prompt" ;;
  vc <~ get p "validation_check" ;;
  validation <~
    (if truthy vc then
       status <~ get vc "status" ;;
       score <~ get vc "confidence_score" ;;
       note <~ get vc "rendering_note" ;;
       Return (VObj [("status", status); ("confidenceScore", score); ("renderingNote", note)])
     else
       v <~ get p "validation" ;;
       Return (if truthy v then v else VUndefined)) ;;
  Return (mkProblem (Z.of_nat index + 1) subject topic is_correct error_location
            complete_solution step_by_step problem_statement key_concepts
            student_answer visual_aid_prompt validation).

(** What steps 1 and 2 of [analyzeHomework] leave for the rest of the
    function. *)
Record Analysis : Type := mkAnalysis {
  an_inputParts : list Part;
  an_subject : value;
  an_topic : value;
  an_has_student_solution : value;
  an_model : string;
  an_problems : list value
}.

(** Steps 1 and 2 of [analyzeHomework], up to the array
    [rawResponse.problems] the selection filters; the execution prompt
    interpolates the subject and then the rules.  The status callback is
    left out. *)
Definition analysisStages (input : AnalysisInput) : M W Analysis :=
  let inputParts := inputPartsOf input in
  tuningRes <- callAI "Auto-Tuning"
      (fun model => generateContent model
         (mkRequest (inputParts ++ [Text "tuningPrompt" []])
                    (jsonConfig (Some "tuningSchema") None)))
      MODEL_FAST None ;;
  contextData <- lift (cleanAndParseJSON JSON_parse (text (output tuningRes))) ;;
  subject <- lift (get contextData "subject") ;;
  topic <- lift (get contextData "topic") ;;
  has_student_solution <- lift (get contextData "has_student_solution") ;;
  grading_rules <- lift (get contextData "grading_rules") ;;
  subjectText <- lift (ToPrimitive subject) ;;
  rules <- lift (rulesText grading_rules) ;;
  analysisRes <- callAI "Deep Execution"
      (fun model => generateContent model
         (mkRequest (inputParts ++ [Text "executionPrompt" [subjectText; rules]])
                    (jsonConfig (Some "analysisSchema") (Some "0.1"))))
      MODEL_SMART (Some MODEL_FAST) ;;
  rawResponse <- lift (cleanAndParseJSON JSON_parse (text (output analysisRes))) ;;
  rawProblems <- lift (problemsOf rawResponse) ;;
  original <- lift (asArray rawProblems) ;;
  ret (mkAnalysis inputParts subject topic has_student_solution (model analysisRes) original).

(** [analyzeHomework(input)]: the selection, the refinement step and the
    final [map]. *)
Definition analyzeHomework (input : AnalysisInput) : M W HomeworkResponse :=
  a <- analysisStages input ;;
  problemsToRefine <- lift (filterO needsRefinement (an_problems a)) ;;
  merged <- refineProblems (an_inputParts a) problemsToRefine (an_problems a) ;;
  final <- lift (mapO (toProblemAnalysis (an_subject a) (an_topic a)) O merged) ;;
  ret (mkHomework (an_has_student_solution a) (an_model a) final).

(** ** The math pipeline *)

(** [{ ...data, modelUsed, sources, wasAutoRepaired }]. *)
Definition mathResult (data : value) (modelUsed : string) (sources : list WebSource)
    (wasAutoRepaired : bool) : value :=
  VObj (Obj.set "wasAutoRepaired" (VBool wasAutoRepaired)
         (Obj.set "sources" (VArr (map sourceValue sources))
           (Obj.set "modelUsed" (VStr modelUsed) (spread data)))).

Definition plainJson : Config := mkConfig (Some "application/json") None None [] None.
Definition withSearch (system : option Part) : Config :=
  mkConfig None None None ["googleSearch"] system.

(** The call of step 3, and the body of its [try]: the corrected result when the
    verification asks for one, and nothing when it falls through. *)
Definition verificationCall (problem : string) (explanation pythonCode : value)
  : M W (Tiered GenerateContentResponse) :=
  callAI "Math Verification"
    (fun model => generateContent model
       (mkRequest [Text "verificationPrompt" [VStr problem; explanation; pythonCode]]
                  plainJson))
    MODEL_FAST None.

Definition verificationAttempt (problem : string) (explanation pythonCode : value)
    (resModel : string) (sources : list WebSource) : M W (option value) :=
  verifyRes <- verificationCall problem explanation pythonCode ;;
  verifyData <- lift (cleanAndParseJSON JSON_parse (text (output verifyRes))) ;;
  valid <- lift (get verifyData "valid") ;;
  if strict_eq valid (VBool false) then
    corrected_response <- lift (get verifyData "corrected_response") ;;
    if truthy corrected_response
    then ret (Some (mathResult corrected_response (resModel ++ " + Verified") sources true))
    else ret None
  else ret None.

(** Steps 1 and 2 of [solveMathWithCode]: the sources of the grounding
    stage, the tiered result of the solve stage and its parsed output. *)
Definition solveStage (problem : string) (verifiedLatex : option string)
    (useSearch : bool) (history : list string)
  : M W (list WebSource * Tiered GenerateContentResponse * value) :=
  grounding <-
    (if useSearch then
       searchRes <- callAI "Math Search"
           (fun model => generateContent model
              (mkRequest [Text "searchPrompt" [VStr problem]] (withSearch None)))
           MODEL_FAST None ;;
       ret (orDefault (text (output searchRes)) "", collectSources (output searchRes))
     else ret ("", [])) ;;
  let contextInfo := fst grounding in
  let sources := snd grounding in
  res <- callAI "Math Lab"
      (fun model => generateContent model
         (mkRequest [Text "prompt" [VStr (orDefault verifiedLatex ""); VStr contextInfo;
                                    VArr (map VStr history); VStr problem]]
                    plainJson))
      MODEL_SMART (Some MODEL_FAST) ;;
  firstPassData <- lift (cleanAndParseJSON JSON_parse (text (output res))) ;;
  ret (sources, res, firstPassData).

(** Step 3 and the two [return]s of [solveMathWithCode]; the verification
    prompt, built before the [try], interpolates the explanation and then
    the code. *)
Definition verifyAndResolve (problem : string) (sources : list WebSource)
    (res : Tiered GenerateContentResponse) (firstPassData : value) : M W value :=
  explanation <- lift (e <~ get firstPassData "explanation" ;; ToPrimitive e) ;;
  pythonCode <- lift (c <~ get firstPassData "pythonCode" ;; ToPrimitive c) ;;
  repaired <- tryCatchM
      (verificationAttempt problem explanation pythonCode (model res) sources)
      (fun _ => ret None) ;;
  match repaired with
  | Some corrected => ret corrected
  | None => ret (mathResult firstPassData (model res) sources false)
  end.

(** [solveMathWithCode(problem, verifiedLatex, useSearch, history)]. *)
Definition solveMathWithCode (problem : string) (verifiedLatex : option string)
    (useSearch : bool) (history : list string) : M W value :=
  solved <- solveStage problem verifiedLatex useSearch history ;;
  verifyAndResolve problem (fst (fst solved)) (snd (fst solved)) (snd solved).

(** ** The session registry *)

(** The four module-level variables. *)
Record Registry : Type := mkRegistry {
  chatSession : option Chat;
  chatModelUsed : string;
  examSession : option Chat;
  examModelUsed : string
}.

Definition initialRegistry : Registry := mkRegistry None MODEL_FAST None MODEL_FAST.

Definition State : Type := Registry * W.

Definition onWorld {A} (m : M W A) : M State A :=
  fun st => let '(r, w') := m (snd st) in (r, (fst st, w')).

Definition assign (f : Registry -> Registry) : M State unit :=
  fun st => (Return tt, (f (fst st), snd st)).

Definition set_chatSession (c : Chat) (r : Registry) : Registry :=
  mkRegistry (Some c) (chatModelUsed r) (examSession r) (examModelUsed r).
Definition set_chatModelUsed (m : string) (r : Registry) : Registry :=
  mkRegistry (chatSession r) m (examSession r) (examModelUsed r).
Definition set_examSession (c : Chat) (r : Registry) : Registry :=
  mkRegistry (chatSession r) (chatModelUsed r) (Some c) (examModelUsed r).
Definition set_examModelUsed (m : string) (r : Registry) : Registry :=
  mkRegistry (chatSession r) (chatModelUsed r) (examSession r) m.

(** [{ text, sources, modelUsed }] of a turn. *)
Record Turn : Type := mkTurn {
  turn_text : string;
  turn_sources : option (list WebSource);
  turn_modelUsed : string
}.

(** [sources.length ? sources : undefined]. *)
Definition sourcesOrUndefined (l : list WebSource) : option (list WebSource) :=
  match l with
  | [] => None
  | _ :: _ => Some l
  end.

Definition firstChatMessage (input : AnalysisInput) : list Part :=
  [match in_type input with
   | Image => InlineData (in_data input) "image/jpeg"
   | PlainText => Text (in_data input) []
   end;
   if nonEmpty (in_textContext input)
   then Text "Context:" [VStr (orDefault (in_textContext input) "")]
   else Text "Context." []].

Definition chatConfig : Config :=
  withSearch (Some (Text "Helpful AI Tutor. Use Google Search for facts." [])).

(** [initializeChat(input)]. *)
Definition initializeChat (input : AnalysisInput) : M State (Tiered GenerateContentResponse) :=
  callAI "Init Chat"
    (fun model =>
       session <- onWorld (chats_create model chatConfig) ;;
       _ <- assign (set_chatSession session) ;;
       _ <- assign (set_chatModelUsed model) ;;
       onWorld (sendMessage session (firstChatMessage input)))
    MODEL_FAST None.

(** [sendChatMessage(message, useSearch)]. *)
Definition sendChatMessage (message : string) (useSearch : bool) : M State Turn :=
  fun st =>
    match chatSession (fst st) with
    | None => (Throw (Error "Chat not initialized"), st)
    | Some session =>
        (result <- onWorld (sendMessage session [Text message []]) ;;
         fun st' =>
           (Return (mkTurn (orDefault (text result) "")
                      (sourcesOrUndefined (collectSources result))
                      (chatModelUsed (fst st'))), st')) st
    end.

Record ExamConfig : Type := mkExamConfig {
  cfg_subject : string;
  cfg_gradeLevel : string;
  cfg_numberOfQuestions : option Z;
  cfg_institutionGuidelines : option string;
  cfg_questionFormats : option (list string);
  cfg_realWorldMode : bool;
  cfg_strictMode : bool
}.

Record FileData : Type := mkFileData {
  file_data : string;
  file_mimeType : string
}.

(** The system prompt: the persona by [strictMode], then the guidelines and
    the real-world paragraph when asked for. *)
Definition systemPromptOf (config : ExamConfig) : Part :=
  let formats :=
    orDefault (match cfg_questionFormats config with
               | Some l => Some (String.concat ", " l)
               | None => None
               end) "Mixed" in
  let count :=
    match cfg_numberOfQuestions config with
    | Some n => if n =? 0 then 5 else n
    | None => 5
    end in
  let persona :=
    if cfg_strictMode config
    then Text "STRICT EXAM INVIGILATOR"
           [VStr (cfg_subject config); VStr (cfg_gradeLevel config); VNum count; VStr formats]
    else Text "SOCRATIC TUTOR"
           [VStr (cfg_subject config); VStr (cfg_gradeLevel config); VStr formats] in
  let guidelines :=
    if nonEmpty (cfg_institutionGuidelines config)
       && negb (String.eqb (trim (orDefault (cfg_institutionGuidelines config) "")) "")
    then [VStr "IMPORTANT INSTITUTION GUIDELINES";
          VStr (orDefault (cfg_institutionGuidelines config) "")]
    else [] in
  let realWorld := if cfg_realWorldMode config then [VStr "REAL-WORLD MODE"] else [] in
  match persona with
  | Text t holes => Text t (holes ++ guidelines ++ realWorld)
  | InlineData _ _ => persona
  end.

Definition firstExamMessage (config : ExamConfig) (fileData : option FileData) : list Part :=
  (match fileData with
   | Some f =>
       [if startsWith "image/" (file_mimeType f)
        then InlineData (file_data f) (file_mimeType f)
        else Text "Context Material:" [VStr (file_data f)];
        Text "Here is the reference material." []]
   | None => []
   end
   ++ [Text (if cfg_strictMode config
             then "Start the exam immediately with Question 1."
             else "Hello, I am ready to study. Start with the first question.") []])%list.

Definition examChatConfig (config : ExamConfig) : Config :=
  withSearch (Some (systemPromptOf config)).

(** [startExamSession(config, fileData)]. *)
Definition startExamSession (config : ExamConfig) (fileData : option FileData)
  : M State (string * string) :=
  res <- callAI "Start Exam"
      (fun model =>
         session <- onWorld (chats_create model (examChatConfig config)) ;;
         _ <- assign (set_examSession session) ;;
         _ <- assign (set_examModelUsed model) ;;
         result <- onWorld (sendMessage session (firstExamMessage config fileData)) ;;
         ret (orDefault (text result) "Ready."))
      MODEL_FAST None ;;
  ret (output res, model res).

(** [sendExamMessage(text)]. *)
Definition sendExamMessage (message : string) : M State Turn :=
  fun st =>
    match examSession (fst st) with
    | None => (Throw (Error "Exam not started"), st)
    | Some session =>
        (result <- onWorld (sendMessage session [Text message []]) ;;
         fun st' =>
           (Return (mkTurn (orDefault (text result) "")
                      (sourcesOrUndefined (collectSources result))
                      (examModelUsed (fst st'))), st')) st
    end.

(** What a turn answers when the session has returned [result], and what
    [send] does once it holds a session. *)
Definition turnOf (result : GenerateContentResponse) (modelUsed : string) : Turn :=
  mkTurn (orDefault (text result) "") (sourcesOrUndefined (collectSources result)) modelUsed.

Definition forwarded (session : Chat) (message : string) (modelUsed : string) (st : State)
  : outcome Turn * State :=
  let sent := sendMessage session [Text message []] (snd st) in
  (match fst sent with
   | Return result => Return (turnOf result modelUsed)
   | Throw e => Throw e
   end, (fst st, snd sent)).

(** A call of one of the four session functions by the interface, and the
    state it leaves; its result goes to the caller. *)
Inductive Call : Type :=
| CallInitializeChat (input : AnalysisInput)
| CallSendChatMessage (message : string) (useSearch : bool)
| CallStartExamSession (config : ExamConfig) (fileData : option FileData)
| CallSendExamMessage (message : string).

Definition after (c : Call) (st : State) : State :=
  match c with
  | CallInitializeChat input => snd (initializeChat input st)
  | CallSendChatMessage message useSearch => snd (sendChatMessage message useSearch st)
  | CallStartExamSession config fileData => snd (startExamSession config fileData st)
  | CallSendExamMessage message => snd (sendExamMessage message st)
  end.

Definition afterAll (calls : list Call) (st : State) : State :=
  fold_left (fun s c => after c s) calls st.

Definition startsChat (c : Call) : bool :=
  match c with CallInitializeChat _ => true | _ => false end.
Definition startsExam (c : Call) : bool :=
  match c with CallStartExamSession _ _ => true | _ => false end.

End Pipelines.

Arguments chatSession {Chat} r.
Arguments chatModelUsed {Chat} r.
Arguments examSession {Chat} r.
Arguments examModelUsed {Chat} r.
Arguments mkRegistry {Chat} chatSession chatModelUsed examSession examModelUsed.
Arguments initialRegistry {Chat}.
Arguments set_chatSession {Chat} c r.
Arguments set_chatModelUsed {Chat} m r.
Arguments set_examSession {Chat} c r.
Arguments set_examModelUsed {Chat} m r.
Arguments onWorld {W Chat A} m st.
Arguments refinementCall {W} generateContent inputParts problemsToRefine.
Arguments refinementAttempt {W} generateContent JSON_parse ToNumber_ext.
Arguments refineProblems {W} generateContent JSON_parse ToNumber_ext.
Arguments analysisStages {W} generateContent JSON_parse input.
Arguments analyzeHomework {W} generateContent JSON_parse ToNumber_ext input.
Arguments verificationCall {W} generateContent problem explanation pythonCode.
Arguments verificationAttempt {W} generateContent JSON_parse.
Arguments solveStage {W} generateContent JSON_parse.
Arguments verifyAndResolve {W} generateContent JSON_parse.
Arguments solveMathWithCode {W} generateContent JSON_parse.
Arguments initializeChat {W Chat} chats_create sendMessage input.
Arguments sendChatMessage {W Chat} sendMessage message useSearch.
Arguments startExamSession {W Chat} chats_create sendMessage config fileData.
Arguments sendExamMessage {W Chat} sendMessage message.
Arguments forwarded {W Chat} sendMessage session message modelUsed st.
Arguments after {W Chat} chats_create sendMessage c st.
Arguments afterAll {W Chat} chats_create sendMessage calls st.

(** ** The merge as a function of the two sequences *)

(** A record on which property reads do not throw. *)
Definition readable (v : value) : bool :=
  match v with
  | VUndefined | VNull => false
  | _ => true
  end.

(** The comparison of the merge on readable records: the values under
    [problem_statement] are strictly equal, or those under
    [student_answer] are. *)
Definition matchesRecord (fixedP p : value) : bool :=
  strict_eq (get_opt p "problem_statement") (get_opt fixedP "problem_statement")
  || strict_eq (get_opt p "student_answer") (get_opt fixedP "student_answer").

(** Linear scan, first match wins. *)
Fixpoint firstMatch (fixedP : value) (problems : list value) : option nat :=
  match problems with
  | [] => None
  | p :: r =>
      if matchesRecord fixedP p then Some O
      else match firstMatch fixedP r with
           | Some i => Some (S i)
           | None => None
           end
  end.

(** Every corrected record in turn replaces its counterpart, or is dropped. *)
Fixpoint mergeSpec (fixed : list value) (problems : list value) : list value :=
  match fixed with
  | [] => problems
  | fixedP :: rest =>
      mergeSpec rest
        (match firstMatch fixedP problems with
         | Some i => replaceAt i (mergedRecord fixedP) problems
         | None => problems
         end)
  end.

(** ** The merge in the words of the specification *)

(** The validation the specification names, with its rendering note. *)
Definition specValidation : value :=
  VObj [("status", VStr "verified");
        ("confidenceScore", VNum 99);
        ("renderingNote", VStr "self-corrected")].

(** A field that holds a value: it is neither absent nor [null]. *)
Definition present (v : value) : bool :=
  match v with
  | VUndefined | VNull => false
  | _ => true
  end.

(** The record [p] holds under [k] the value the corrected record holds
    there. *)
Definition sameField (k : string) (fixedP p : value) : bool :=
  present (get_opt p k) && strict_eq (get_opt p k) (get_opt fixedP k).

(** [p] is the counterpart of the corrected record: it has its problem
    statement, or it has its student answer. *)
Definition counterpart (fixedP p : value) : bool :=
  sameField "problem_statement" fixedP p || sameField "student_answer" fixedP p.

(** Linear scan: the index of the first element that satisfies [test]. *)
Fixpoint firstIndex (test : value -> bool) (l : list value) : option nat :=
  match l with
  | [] => None
  | x :: r =>
      if test x then Some O
      else match firstIndex test r with
           | Some i => Some (S i)
           | None => None
           end
  end.

(** Every corrected record in turn replaces its first counterpart, with the
    validation forced, or is dropped. *)
Fixpoint mergeCounterparts (fixed : list value) (problems : list value) : list value :=
  match fixed with
  | [] => problems
  | fixedP :: rest =>
      mergeCounterparts rest
        (match firstIndex (counterpart fixedP) problems with
         | Some i => replaceAt i (mergedRecord fixedP) problems
         | None => problems
         end)
  end.

(** Both records are without a value under [k]: both lack the field, or
    both hold [null] there.  The comparison of the merge takes such a pair
    for a match. *)
Definition bothBlank (k : string) (fixedP p : value) : bool :=
  negb (present (get_opt p k)) && strict_eq (get_opt p k) (get_opt fixedP k).

Definition blankAgreement (fixedP p : value) : bool :=
  bothBlank "problem_statement" fixedP p || bothBlank "student_answer" fixedP p.

(** No corrected record meets a record that is blank where it is blank
    itself; the records it can meet are those of [pool] and the corrected
    records merged before it. *)
Fixpoint noBlankAgreement (fixed pool : list value) : bool :=
  match fixed with
  | [] => true
  | fixedP :: rest =>
      forallb (fun p => negb (blankAgreement fixedP p)) pool
      && noBlankAgreement rest (mergedRecord fixedP :: pool)
  end.

(** An object whose student answer is the blank value [blank]. *)
Definition blankAnswer (blank : value) (p : value) : bool :=
  match p with
  | VObj _ => strict_eq (get_opt p "student_answer") blank
  | _ => false
  end.

(** What the verification stage asks for: the corrected response of an
    answer [{ valid: false, corrected_response: R }] with a truthy [R]. *)
Definition asksRepair (JSON_parse : string -> outcome value)
    (run : outcome (Tiered GenerateContentResponse)) (R : value) : Prop :=
  exists verifyRes verifyData,
    run = Return verifyRes
    /\ cleanAndParseJSON JSON_parse (text (output verifyRes)) = Return verifyData
    /\ get verifyData "valid" = Return (VBool false)
    /\ get verifyData "corrected_response" = Return R
    /\ truthy R = true.

(** The refinement stage fails: its call throws, or what it returns does
    not parse into an object with a non-empty array [problems]. *)
Definition refinementFails (JSON_parse : string -> outcome value)
    (run : outcome (Tiered GenerateContentResponse)) : Prop :=
  (exists e, run = Throw e)
  \/ (exists refineRes,
        run = Return refineRes
        /\ forall refinedData x l,
             cleanAndParseJSON JSON_parse (text (output refineRes)) = Return refinedData ->
             get refinedData "problems" <> Return (VArr (x :: l))).

(** ** Reference instances: a scripted provider

    The world is the list of the requests made so far; a session is the
    number of requests made before its creation. *)

Module Fixture.

Definition W : Type := list string.
Definition Chat : Type := nat.

Definition promptName (parts : list Part) : string :=
  match last parts (InlineData "" "") with
  | Text t _ => t
  | InlineData _ _ => "inlineData"
  end.

Definition answer (t : string) : outcome GenerateContentResponse :=
  Return (mkResponse (Some (lit t)) None).

Definition networkError : JsError := mkError "Failed to fetch" None "{}".
Definition quotaError : JsError :=
  mkError "Resource has been exhausted (e.g. check quota)." (Some 429) "{}".

Definition generate (script : string -> string -> outcome GenerateContentResponse)
  : string -> Request -> M W GenerateContentResponse :=
  fun model req w =>
    (script model (promptName (contents req)),
     (w ++ [(model ++ ": " ++ promptName (contents req))%string])%list).

Definition create : string -> Config -> M W Chat :=
  fun model _ w => (Return (List.length w), (w ++ [("create: " ++ model)%string])%list).

Definition send (script : Chat -> string -> outcome GenerateContentResponse)
  : Chat -> list Part -> M W GenerateContentResponse :=
  fun session parts w =>
    (script session (promptName parts), (w ++ [("send: " ++ promptName parts)%string])%list).

Definition noNumber : value -> option Z := fun _ => None.

(** A primary tier out of quota and a fallback tier that answers. *)
Definition quotaThenAnswer : string -> M unit Z :=
  fun model =>
    if String.eqb model MODEL_SMART then throw quotaError else ret 7.

(** A primary tier that fails with the message [QUOTA_EXCEEDED] itself. *)
Definition sentinelThenAnswer : string -> M unit Z :=
  fun model =>
    if String.eqb model MODEL_SMART then throw (Error "QUOTA_EXCEEDED") else ret 7.

Definition networkDown : string -> M unit Z :=
  fun _ => throw networkError.

(** Three records without student answer, the second one flagged, and a
    corrected record with the statement of the second. *)
Definition record (statement : string) (score : Z) : value :=
  VObj [("problem_statement", VStr statement);
        ("complete_solution", VStr "x = 2");
        ("validation_check",
         VObj [("status", VStr "verified"); ("confidence_score", VNum score)])].

Definition answered (statement studentAnswer : string) (score : Z) : value :=
  VObj [("problem_statement", VStr statement);
        ("student_answer", VStr studentAnswer);
        ("complete_solution", VStr "x = 2");
        ("validation_check",
         VObj [("status", VStr "verified"); ("confidence_score", VNum score)])].

Definition homeworkScript (refined : outcome GenerateContentResponse)
  : string -> string -> outcome GenerateContentResponse :=
  fun _ prompt =>
    if String.eqb prompt "tuningPrompt"
    then answer "{'subject':'Algebra','topic':'Equations','has_student_solution':true,'grading_rules':['r1']}"
    else if String.eqb prompt "executionPrompt"
    then answer "{'problems':[{'problem_statement':'Q1','student_answer':'1','complete_solution':'x = 2','validation_check':{'status':'verified','confidence_score':95}},{'problem_statement':'Q2','student_answer':'2','complete_solution':'x = 2','validation_check':{'status':'verified','confidence_score':60}},{'problem_statement':'Q3','student_answer':'3','complete_solution':'x = 2','validation_check':{'status':'verified','confidence_score':90}}]}"
    else refined.

(** A refinement that corrects the second record. *)
Definition refined : outcome GenerateContentResponse :=
  answer "{'problems':[{'problem_statement':'Q2','student_answer':'2','complete_solution':'x = 3'}]}".

Definition mathScript (verification : outcome GenerateContentResponse)
  : string -> string -> outcome GenerateContentResponse :=
  fun _ prompt =>
    if String.eqb prompt "prompt"
    then answer "{'latex':'x','explanation':'add','pythonCode':'print(1+1)','result':'2'}"
    else verification.

Definition flawed : outcome GenerateContentResponse :=
  answer "{'valid':false,'corrected_response':{'latex':'y','explanation':'fixed','pythonCode':'print(2)','result':'2'}}".

Definition correctedResponse : value :=
  VObj [("latex", VStr "y"); ("explanation", VStr "fixed");
        ("pythonCode", VStr "print(2)"); ("result", VStr "2")].

Definition firstPass : value :=
  VObj [("latex", VStr "x"); ("explanation", VStr "add");
        ("pythonCode", VStr "print(1+1)"); ("result", VStr "2")].

Definition textInput : AnalysisInput := mkInput PlainText "2x = 4" None None.

(** What steps 1 and 2 leave under [homeworkScript]. *)
Definition analysis : Analysis :=
  mkAnalysis [Text "2x = 4" []] (VStr "Algebra") (VStr "Equations") (VBool true) MODEL_SMART
    [answered "Q1" "1" 95; answered "Q2" "2" 60; answered "Q3" "3" 90].

Definition examConfig : ExamConfig :=
  mkExamConfig "Math" "Grade 10" (Some 3) None (Some ["MCQ"]) false true.

(** The interface sends a message, starts an exam and answers it. *)
Definition laterCalls : list Call :=
  [CallSendChatMessage "Why?" false;
   CallStartExamSession examConfig None;
   CallSendExamMessage "x = 2"].

(** The state a chat start leaves from the initial state under [tutor]. *)
Definition chatStarted : State W Chat :=
  (mkRegistry (Some O) MODEL_FAST None MODEL_FAST,
   [("create: " ++ MODEL_FAST)%string; "send: Context."]).

(** A registry that holds an earlier chat session and an earlier exam
    session. *)
Definition earlier : State W Chat :=
  (mkRegistry (Some 7%nat) MODEL_FAST (Some 8%nat) MODEL_FAST, []).

Definition tutor : Chat -> string -> outcome GenerateContentResponse :=
  fun _ _ => answer "Hello".

(** A session whose first message fails and whose later messages pass. *)
Definition failsFirst : Chat -> string -> outcome GenerateContentResponse :=
  fun _ prompt =>
    if String.eqb prompt "Context." || String.eqb prompt "Start the exam immediately with Question 1."
    then Throw networkError
    else answer "Hello".

End Fixture.

(** ** The claims the code does not meet, as the specification words them *)

(** Every failure of the primary that is not quota-classified propagates,
    and the fallback is not invoked. *)
Definition nonQuotaAlwaysPropagates : Prop :=
  forall (op : string) (apiCall : string -> M unit Z) (primary : string)
         (fallback : option string) (e : JsError),
    fst (apiCall primary tt) = Throw e ->
    isQuota e = false ->
    callAI op (traced apiCall) primary fallback (tt, [])
    = (Throw e, (tt, [primary])).

(** In a sequence of three records, a corrected record with the statement
    of the second replaces exactly the second, with the validation of the
    specification. *)
Definition secondRecordReplaced : Prop :=
  forall p1 p2 p3 fixedP : value,
    readable p1 = true -> readable p2 = true -> readable p3 = true ->
    readable fixedP = true ->
    strict_eq (get_opt p2 "problem_statement") (get_opt fixedP "problem_statement") = true ->
    exists m,
      fst (mergeLoop [fixedP] [p1; p2; p3]) = [p1; m; p3]
      /\ get m "validation" = Return specValidation.

(** A span from an opening to a closing brace that is valid JSON is
    returned whatever the prose around it. *)
Definition proseNeverMatters : Prop :=
  forall (pre body post : string) (v : value),
    Json.parse ("{" ++ body ++ "}") = Return v ->
    cleanAndParseJSON Json.parse (Some (pre ++ "{" ++ body ++ "}" ++ post)) = Return v.

(** The text of a fenced block: the fence with its language tag, the
    content on its own lines, the closing fence. *)
Definition fenced (tag content : string) : string :=
  "```" ++ tag ++ nl ++ content ++ nl ++ "```".

(** Valid JSON between fences is returned whatever the tag. *)
Definition fenceAlwaysStripped : Prop :=
  forall (tag content : string) (v : value),
    find_first "010" tag = None ->
    Json.parse content = Return v ->
    cleanAndParseJSON Json.parse (Some (fenced tag content)) = Return v.

(** ** More of the service: primitives *)

Module JsText.

(** [s.split(sep)] for a one-character separator. *)
Fixpoint split (sep : ascii) (s : string) : list string :=
  match s with
  | EmptyString => [EmptyString]
  | String c r =>
      if Ascii.eqb c sep then EmptyString :: split sep r
      else match split sep r with
           | h :: t => String c h :: t
           | [] => [String c EmptyString]
           end
  end.

(** A literal at the head of the text, its characters compared by [eqc]. *)
Fixpoint prefixBy (eqc : ascii -> ascii -> bool) (p s : string) : bool :=
  match p with
  | EmptyString => true
  | String a p' =>
      match s with
      | EmptyString => false
      | String b s' => eqc a b && prefixBy eqc p' s'
      end
  end.

(** [s.replace(/p/g, "")] for a non-empty literal [p]: the matches are
    taken from left to right and do not overlap; [skip] counts the
    characters of the current match still to drop. *)
Fixpoint removeAllFrom (eqc : ascii -> ascii -> bool) (p : string) (skip : nat) (s : string)
  : string :=
  match s with
  | EmptyString => EmptyString
  | String c r =>
      match skip with
      | S k => removeAllFrom eqc p k r
      | O =>
          if prefixBy eqc p s
          then removeAllFrom eqc p (String.length p - 1) r
          else String c (removeAllFrom eqc p O r)
      end
  end.

Definition removeAll (eqc : ascii -> ascii -> bool) (p s : string) : string :=
  removeAllFrom eqc p O s.

Definition lower (c : ascii) : ascii :=
  let n := nat_of_ascii c in
  if ((65 <=? n) && (n <=? 90))%nat then ascii_of_nat (n + 32) else c.

(** Equality of characters under the flag [i]. *)
Definition eqCI (a b : ascii) : bool := Ascii.eqb (lower a) (lower b).

(** [s.replace(/p$/, "")] for a literal [p]. *)
Fixpoint stripSuffix (p s : string) : string :=
  if String.eqb s p then EmptyString
  else match s with
       | EmptyString => EmptyString
       | String c r => String c (stripSuffix p r)
       end.

Definition digitOf (radix : Z) (c : ascii) : option Z :=
  let n := Z.of_nat (nat_of_ascii c) in
  let d :=
    if (48 <=? n) && (n <=? 57) then n - 48
    else if (97 <=? n) && (n <=? 122) then n - 87
    else if (65 <=? n) && (n <=? 90) then n - 55
    else radix in
  if d <? radix then Some d else None.

(** The value of the longest prefix of digits, [acc] being the value read
    so far ([None] before the first digit). *)
Fixpoint digitsPrefix (radix : Z) (s : string) (acc : option Z) : option Z :=
  match s with
  | EmptyString => acc
  | String c r =>
      match digitOf radix c with
      | Some d =>
          digitsPrefix radix r
            (Some (radix * (match acc with Some n => n | None => 0 end) + d))
      | None => acc
      end
  end.

(** [parseInt(s)], [None] being [NaN]: leading white space, a sign, the
    prefix [0x] of a hexadecimal number, and the longest prefix of digits. *)
Definition parseInt (s : string) : option Z :=
  let s := trimStart s in
  let signed :=
    match s with
    | String c r =>
        if Ascii.eqb c "-" then (-1, r)
        else if Ascii.eqb c "+" then (1, r)
        else (1, s)
    | EmptyString => (1, s)
    end in
  let body := snd signed in
  let based :=
    if String.prefix "0x" body || String.prefix "0X" body
    then (16, drop 2 body) else (10, body) in
  match digitsPrefix (fst based) (snd based) None with
  | Some n => Some (fst signed * n)
  | None => None
  end.

End JsText.
Import JsText.

(** ** More of the service: the LaTeX conversion *)

(** The two clean-up statements of [convertTextToMath]. *)
Definition cleanLatex (latex : string) : string :=
  let latex := trim (removeAll Ascii.eqb "```" (removeAll eqCI "```latex" latex)) in
  trim (stripSuffix "$$" (skip_optional "$$" (stripSuffix "\]" (skip_optional "\[" latex)))).

(** ** More of the service: the time of a video *)

(** [parseTime(timeStr)] of the video tutor: the loop keeps [seconds], with
    [None] for [NaN]. *)
Fixpoint parseTimeLoop (parts : list string) (i : nat) (seconds : option Z) : option Z :=
  match parts with
  | [] => seconds
  | part :: rest =>
      parseTimeLoop rest (S i)
        (match seconds, parseInt part with
         | Some acc, Some n => Some (acc + n * 60 ^ Z.of_nat i)
         | _, _ => None
         end)
  end.

Definition parseTime (timeStr : string) : Z :=
  match parseTimeLoop (rev (split ":" timeStr)) O (Some 0) with
  | Some seconds => seconds
  | None => 0
  end.

(** The largest time value of a [Date], in milliseconds. *)
Definition MAX_TIME_VALUE : Z := 8640000000000000.

(** [new Date(timestamp * 1000).toISOString().substr(11, 8)]: a
    [RangeError] on an invalid date; the text goes into the prompt, which
    keeps the timestamp it is made from. *)
Definition timeStringOf (timestamp : Z) : outcome value :=
  if Z.abs (timestamp * 1000) <=? MAX_TIME_VALUE
  then Return (VNum timestamp)
  else Throw (mkError "Invalid time value" None "{}").

(** ** More of the service: images *)

Record InlineImage : Type := mkInlineImage {
  image_data : option string;
  image_mimeType : option string
}.

(** A part of [candidates?.[0]?.content?.parts]. *)
Record ContentPart : Type := mkContentPart {
  part_inlineData : option InlineImage
}.

Record ImageResponse : Type := mkImageResponse {
  candidateParts : option (list ContentPart)
}.

Record ImageRequest : Type := mkImageRequest {
  image_prompt : Part;
  image_aspectRatio : string;
  image_imageSize : string
}.

(** The loop over the parts: the data URL of the first part that holds
    image data, and the empty string when there is none. *)
Fixpoint firstImage (parts : list ContentPart) : string :=
  match parts with
  | [] => EmptyString
  | part :: rest =>
      match part_inlineData part with
      | Some image =>
          if nonEmpty (image_data image)
          then "data:" ++ orDefault (image_mimeType image) "image/png"
               ++ ";base64," ++ orDefault (image_data image) ""
          else firstImage rest
      | None => firstImage rest
      end
  end.

(** [content.split(',')[1]]. *)
Definition base64Of (content : string) : option string :=
  nth_error (split "," content) 1.

Record VisualAid : Type := mkVisualAid {
  aid_content : string;
  aid_validation : value
}.

Record VideoAnswer : Type := mkVideoAnswer {
  video_text : value;
  video_modelUsed : string;
  video_sources : option (list WebSource);
  video_ocrText : value;
  video_factChecks : value
}.

Inductive Scope : Type := AtTimestamp | FullVideo.

(** The same provider call, recording the model of every request. *)
Definition logged {W Req Res : Type} (call : string -> Req -> M W Res)
  : string -> Req -> M (W * list string) Res :=
  fun model req st =>
    let '(r, w') := call model req (fst st) in
    (r, (w', (snd st ++ [model])%list)).

Section MorePipelines.

Variable W : Type.
Variable generateContent : string -> Request -> M W GenerateContentResponse.
Variable generateImage : string -> ImageRequest -> M W ImageResponse.
Variable JSON_parse : string -> outcome value.

(** [auditExamGrading(historyText)]. *)
Definition auditExamGrading (historyText : string) : M W value :=
  res <- callAI "Exam Audit"
      (fun model => generateContent model
         (mkRequest [Text "auditPrompt" [VStr historyText]]
                    (jsonConfig (Some "examAuditSchema") None)))
      MODEL_SMART None ;;
  lift (cleanAndParseJSON JSON_parse (text (output res))).

(** [convertTextToMath(text)]. *)
Definition convertTextToMath (input : string) : M W string :=
  res <- callAI "Math Convert"
      (fun model => generateContent model
         (mkRequest [Text "convertPrompt" [VStr input]] (mkConfig None None None [] None)))
      MODEL_FAST None ;;
  ret (cleanLatex (orDefault (text (output res)) "")).

(** The two calls of [generateVerifiedVisualAid]. *)
Definition imageCall (prompt : string) : M W (Tiered ImageResponse) :=
  callAI "Image Gen"
    (fun model => generateImage model
       (mkImageRequest (Text "imagePrompt" [VStr prompt]) "4:3" "1K"))
    MODEL_IMAGE_SMART (Some MODEL_IMAGE_FAST).

Definition visualValidationCall (problemStatement content : string)
  : M W (Tiered GenerateContentResponse) :=
  callAI "Vis Val"
    (fun model => generateContent model
       (mkRequest [Text "verifyImagePrompt" [VStr problemStatement];
                   InlineData (match base64Of content with Some d => d | None => "" end)
                              "image/png"]
                  plainJson))
    MODEL_FAST None.

(** [generateVerifiedVisualAid(problemStatement, prompt, context)]; the
    third argument is not read. *)
Definition generateVerifiedVisualAid (problemStatement prompt : string) : M W VisualAid :=
  genRes <- imageCall prompt ;;
  let content :=
    match candidateParts (output genRes) with
    | Some parts => firstImage parts
    | None => EmptyString
    end in
  if String.eqb content "" then throw (Error "No image generated.")
  else
    valRes <- visualValidationCall problemStatement content ;;
    parsed <- lift (cleanAndParseJSON JSON_parse (text (output valRes))) ;;
    ret (mkVisualAid content
           (VObj (Obj.set "modelUsed" (VStr (model genRes)) (spread parsed)))).

Definition videoConfig (search : bool) : Config :=
  mkConfig (Some "application/json") (Some "videoAnalysisSchema") None
    (if search then ["googleSearch"] else []) None.

(** What both video functions do with the response of their call. *)
Definition videoAnswerOf (res : Tiered GenerateContentResponse) : outcome VideoAnswer :=
  parsed <~ cleanAndParseJSON JSON_parse (text (output res)) ;;
  transcribed_text <~ get parsed "transcribed_text" ;;
  fact_checks <~ get parsed "fact_checks" ;;
  analysis <~ get parsed "analysis" ;;
  Return (mkVideoAnswer
            (if truthy analysis then analysis else VStr "Analysis complete.")
            (model res)
            (sourcesOrUndefined (collectSources (output res)))
            transcribed_text fact_checks).

Definition videoFrameCall (frameData question : string) (time : value) (factCheck : bool)
  : M W (Tiered GenerateContentResponse) :=
  callAI "Video Frame"
    (fun model => generateContent model
       (mkRequest [InlineData frameData "image/jpeg";
                   Text "videoFramePrompt" [time; VStr question; VBool factCheck]]
                  (videoConfig factCheck)))
    MODEL_SMART (Some MODEL_FAST).

(** [analyzeVideoFrame(frameData, question, timestamp, factCheck)]. *)
Definition analyzeVideoFrame (frameData question : string) (timestamp : Z) (factCheck : bool)
  : M W VideoAnswer :=
  time <- lift (timeStringOf timestamp) ;;
  res <- videoFrameCall frameData question time factCheck ;;
  lift (videoAnswerOf res).

Definition youtubeCall (youtubeUrl question : string) (time : value) (factCheck : bool)
    (scope : Scope) : M W (Tiered GenerateContentResponse) :=
  callAI "YouTube Analysis"
    (fun model => generateContent model
       (mkRequest [Text "youtubePrompt"
                     [VStr youtubeUrl; time; VStr question;
                      VStr (match scope with
                            | FullVideo => "Analyze the video broadly."
                            | AtTimestamp => "Focus on the context around the provided timestamp."
                            end);
                      VBool factCheck]]
                  (videoConfig true)))
    MODEL_SMART (Some MODEL_FAST).

(** [analyzeYoutubeSegment(youtubeUrl, question, timestamp, factCheck, scope)]. *)
Definition analyzeYoutubeSegment (youtubeUrl question : string) (timestamp : Z)
    (factCheck : bool) (scope : Scope) : M W VideoAnswer :=
  time <- lift (timeStringOf timestamp) ;;
  res <- youtubeCall youtubeUrl question time factCheck scope ;;
  lift (videoAnswerOf res).

(** The two calls of steps 1 and 2 of [analyzeHomework], by name. *)
Definition tuningCall (inputParts : list Part) : M W (Tiered GenerateContentResponse) :=
  callAI "Auto-Tuning"
    (fun model => generateContent model
       (mkRequest (inputParts ++ [Text "tuningPrompt" []])
                  (jsonConfig (Some "tuningSchema") None)))
    MODEL_FAST None.

Definition deepAnalysisCall (inputParts : list Part) (subject rules : value)
  : M W (Tiered GenerateContentResponse) :=
  callAI "Deep Execution"
    (fun model => generateContent model
       (mkRequest (inputParts ++ [Text "executionPrompt" [subject; rules]])
                  (jsonConfig (Some "analysisSchema") (Some "0.1"))))
    MODEL_SMART (Some MODEL_FAST).

End MorePipelines.

Arguments auditExamGrading {W} generateContent JSON_parse historyText.
Arguments convertTextToMath {W} generateContent input.
Arguments imageCall {W} generateImage prompt.
Arguments visualValidationCall {W} generateContent problemStatement content.
Arguments generateVerifiedVisualAid {W} generateContent generateImage JSON_parse.
Arguments videoFrameCall {W} generateContent.
Arguments analyzeVideoFrame {W} generateContent JSON_parse.
Arguments youtubeCall {W} generateContent.
Arguments analyzeYoutubeSegment {W} generateContent JSON_parse.
Arguments tuningCall {W} generateContent inputParts.
Arguments deepAnalysisCall {W} generateContent inputParts subject rules.

(** ** More reference instances *)

Module Sample.

Import Fixture.

(** A provider that answers every request with prose. *)
Definition prose : string -> string -> outcome GenerateContentResponse :=
  fun _ _ => answer "I am sorry, I cannot help with that.".

(** A tuning stage that finds subject and rules, and a deep analysis that
    answers [null]. *)
Definition tuned : string :=
  "{'subject':'Algebra','topic':'Equations','has_student_solution':true,'grading_rules':['r1']}".

Definition tunedThenNull : string -> string -> outcome GenerateContentResponse :=
  fun _ prompt =>
    if String.eqb prompt "tuningPrompt" then answer tuned else answer "null".

(** A refinement whose second corrected record is [null]. *)
Definition refinedThenNull : outcome GenerateContentResponse :=
  answer "{'problems':[{'problem_statement':'Q2','student_answer':'2','complete_solution':'x = 3'},null,{'problem_statement':'Q3','student_answer':'3','complete_solution':'x = 5'}]}".

Definition correctedSecond : value :=
  VObj [("problem_statement", VStr "Q2"); ("student_answer", VStr "2");
        ("complete_solution", VStr "x = 3")].

Definition correctedThird : value :=
  VObj [("problem_statement", VStr "Q3"); ("student_answer", VStr "3");
        ("complete_solution", VStr "x = 5")].

(** A record whose student answer is [null], as the schema allows. *)
Definition unanswered (statement : string) (score : Z) : value :=
  VObj [("problem_statement", VStr statement);
        ("student_answer", VNull);
        ("complete_solution", VStr "x = 2");
        ("validation_check",
         VObj [("status", VStr "verified"); ("confidence_score", VNum score)])].

Definition afterTwoStages : W :=
  [(MODEL_FAST ++ ": tuningPrompt")%string; (MODEL_SMART ++ ": executionPrompt")%string].

End Sample.

Module SampleMath.

Import Fixture.

(** A solve stage that answers [null]. *)
Definition nullSolve : string -> string -> outcome GenerateContentResponse :=
  fun _ _ => answer "null".

(** A verification that writes [false] as a string. *)
Definition falseAsText : outcome GenerateContentResponse :=
  answer "{'valid':'false','corrected_response':{'result':'3'}}".

Definition solved : Tiered GenerateContentResponse :=
  mkTiered
    (mkResponse
       (Some (lit "{'latex':'x','explanation':'add','pythonCode':'print(1+1)','result':'2'}"))
       None)
    MODEL_SMART.

Definition afterSolve : W := [(MODEL_SMART ++ ": prompt")%string].

(** A grounding stage with one web source, and a verification whose
    corrected response names a model, sources and a repair flag of its
    own. *)
Definition example : WebSource := mkWebSource (VStr "https://example.org") (VStr "Example").

Definition groundedScript : string -> string -> outcome GenerateContentResponse :=
  fun _ prompt =>
    if String.eqb prompt "searchPrompt"
    then Return (mkResponse (Some "pi is 3.14") (Some [mkChunk (Some example); mkChunk None]))
    else if String.eqb prompt "prompt"
    then answer "{'latex':'x','explanation':'add','pythonCode':'print(1+1)','result':'2'}"
    else answer "{'valid':false,'corrected_response':{'result':'3','modelUsed':'mine','sources':[],'wasAutoRepaired':false}}".

Definition afterGroundedSolve : W :=
  [(MODEL_FAST ++ ": searchPrompt")%string; (MODEL_SMART ++ ": prompt")%string].

(** A solve stage whose explanation is an object with a key [toString]. *)
Definition opaqueExplanation : string -> string -> outcome GenerateContentResponse :=
  fun _ _ =>
    Fixture.answer "{'explanation':{'toString':1},'pythonCode':'print(1+1)','result':'2'}".

(** A provider that cannot create a session. *)
Definition noSession : string -> Config -> M W Chat :=
  fun _ _ w => (Throw networkError, w).

End SampleMath.

(** Both slots report the fast model. *)
Definition bothFast (W Chat : Type) (st : State W Chat) : Prop :=
  chatModelUsed (fst st) = MODEL_FAST /\ examModelUsed (fst st) = MODEL_FAST.

(** A part of an image response that holds image data. *)
Definition hasImageData (part : ContentPart) : bool :=
  match part_inlineData part with
  | Some image => nonEmpty (image_data image)
  | None => false
  end.

(** The content [generateVerifiedVisualAid] finds in a response. *)
Definition imageContent (response : ImageResponse) : string :=
  match candidateParts response with
  | Some parts => firstImage parts
  | None => EmptyString
  end.

Module SampleMedia.

Import Fixture.

Definition picture : ContentPart :=
  mkContentPart (Some (mkInlineImage (Some "iVBORw0KGgo=") (Some "image/jpeg"))).

Definition caption : ContentPart := mkContentPart None.

(** An image provider that answers with a caption and a picture, and one
    that answers with a caption only. *)
Definition draws : string -> ImageRequest -> M W ImageResponse :=
  fun model _ w =>
    (Return (mkImageResponse (Some [caption; picture])),
     (w ++ [(model ++ ": image")%string])%list).

Definition drawsNothing : string -> ImageRequest -> M W ImageResponse :=
  fun model _ w =>
    (Return (mkImageResponse (Some [caption])), (w ++ [(model ++ ": image")%string])%list).

(** A validator that names a model of its own. *)
Definition validator : string -> string -> outcome GenerateContentResponse :=
  fun _ _ => answer "{'isAccurate':true,'modelUsed':'validator'}".

Definition unreachable : string -> string -> outcome GenerateContentResponse :=
  fun _ _ => Throw networkError.

Definition afterDrawing : W := [(MODEL_IMAGE_SMART ++ ": image")%string].

Definition pictureUrl : string := "data:image/jpeg;base64,iVBORw0KGgo=".

End SampleMedia.

(** ** Decimal numerals *)

Definition isDecimal (c : ascii) : bool :=
  let n := nat_of_ascii c in ((48 <=? n) && (n <=? 57))%nat.

Fixpoint allDecimal (s : string) : bool :=
  match s with
  | EmptyString => true
  | String c r => isDecimal c && allDecimal r
  end.

(** A non-empty string of decimal digits, and the number it writes. *)
Definition isNumeral (s : string) : bool := negb (String.eqb s "") && allDecimal s.

Fixpoint numeralFrom (acc : Z) (s : string) : Z :=
  match s with
  | EmptyString => acc
  | String c r => numeralFrom (10 * acc + (Z.of_nat (nat_of_ascii c) - 48)) r
  end.

Definition numeralValue (s : string) : Z := numeralFrom 0 s.

(** * Properties *)

(** ** Strings *)

Section StringFacts.

Lemma length_app (a b : string) :
  String.length (a ++ b) = (String.length a + String.length b)%nat.
Proof. induction a as [|c a IH]; simpl; [reflexivity | now rewrite IH]. Qed.

Lemma app_assoc_str (a b c : string) : ((a ++ b) ++ c)%string = (a ++ b ++ c)%string.
Proof. induction a as [|x a IH]; simpl; [reflexivity | now rewrite IH]. Qed.

Lemma prefix_empty (s : string) : String.prefix "" s = true.
Proof. destruct s; reflexivity. Qed.

Lemma find_first_app (c : ascii) (pre rest : string) :
  find_first c pre = None ->
  find_first c (pre ++ String c rest) = Some (String.length pre).
Proof.
  induction pre as [|a pre IH]; simpl; intros H.
  - now rewrite Ascii.eqb_refl.
  - destruct (Ascii.eqb a c); [discriminate|].
    destruct (find_first c pre); [discriminate|].
    now rewrite IH.
Qed.

Lemma find_first_app_none (c : ascii) (a b : string) :
  find_first c a = None -> find_first c b = None -> find_first c (a ++ b) = None.
Proof.
  induction a as [|x a IH]; simpl; intros Ha Hb; [assumption|].
  destruct (Ascii.eqb x c); [discriminate|].
  destruct (find_first c a); [discriminate|].
  now rewrite IH.
Qed.

Lemma find_last_app (c : ascii) (s post : string) :
  find_last c post = None ->
  find_last c (s ++ String c post) = Some (String.length s).
Proof.
  intros H. induction s as [|a s IH]; simpl.
  - now rewrite H, Ascii.eqb_refl.
  - now rewrite IH.
Qed.

Lemma substring_prefix (body post : string) :
  String.substring 0 (String.length body) (body ++ post) = body.
Proof.
  induction body as [|c body IH]; simpl.
  - now destruct post.
  - now rewrite IH.
Qed.

Lemma substring_middle (pre body post : string) :
  String.substring (String.length pre) (String.length body) (pre ++ body ++ post) = body.
Proof.
  induction pre as [|c pre IH]; simpl; [apply substring_prefix | exact IH].
Qed.

Lemma trimEnd_keeps (s : string) (c : ascii) :
  is_space c = false ->
  trimEnd (s ++ String c EmptyString) = (s ++ String c EmptyString)%string.
Proof.
  intros Hc. induction s as [|a s IH]; simpl.
  - now rewrite Hc.
  - rewrite IH. destruct s; reflexivity.
Qed.

Lemma stripClosingFence_app (content : string) :
  stripClosingFence (content ++ nl ++ "```") = content.
Proof.
  induction content as [|a content IH].
  - reflexivity.
  - change (stripClosingFence (String a content ++ nl ++ "```"))
      with (if String.eqb (String a content ++ nl ++ "```") (nl ++ "```")
               || String.eqb (String a content ++ nl ++ "```") "```"
            then EmptyString
            else String a (stripClosingFence (content ++ nl ++ "```"))).
    assert (H1 : String.eqb (String a content ++ nl ++ "```") (nl ++ "```") = false).
    { apply String.eqb_neq. intros E. apply (f_equal String.length) in E.
      simpl in E. rewrite length_app in E. simpl in E. lia. }
    assert (H2 : String.eqb (String a content ++ nl ++ "```") "```" = false).
    { apply String.eqb_neq. intros E. apply (f_equal String.length) in E.
      simpl in E. rewrite length_app in E. simpl in E. lia. }
    now rewrite H1, H2, IH.
Qed.

End StringFacts.

(** ** The response sanitizer *)

Section SanitizerFacts.

Variable parse : string -> outcome value.

Lemma cleanAndParseJSON_nonempty (t : string) :
  t <> EmptyString ->
  cleanAndParseJSON parse (Some t)
  = tryCatch
      (match rigorousCandidate t with
       | Some candidate => parse candidate
       | None => Throw (Error "no object boundaries")
       end)
      (fun _ => tryCatch (parse (looseText t)) (fun _ => Return (VObj []))).
Proof. destruct t; [congruence | reflexivity]. Qed.

(** The candidate of a text whose prose holds no opening brace before the
    span and no closing brace after it is the span. *)
Lemma rigorousCandidate_span (pre body post : string) :
  find_first "{" pre = None ->
  find_last "}" post = None ->
  rigorousCandidate (pre ++ "{" ++ body ++ "}" ++ post) = Some ("{" ++ body ++ "}")%string.
Proof.
  intros Hpre Hpost. unfold rigorousCandidate, indexOf, lastIndexOf.
  change (pre ++ "{" ++ body ++ "}" ++ post)%string
    with (pre ++ String "{" (body ++ String "}" post))%string.
  rewrite (find_first_app "{" pre _ Hpre).
  assert (E : (pre ++ String "{" (body ++ String "}" post))%string
              = ((pre ++ String "{" body) ++ String "}" post)%string).
  { rewrite app_assoc_str. reflexivity. }
  assert (HL : find_last "}" (pre ++ String "{" (body ++ String "}" post))
               = Some (String.length (pre ++ String "{" body)%string)).
  { rewrite E. apply find_last_app, Hpost. }
  rewrite HL. clear E HL.
  unfold pos_or_minus1.
  destruct (Z.eqb_spec (Z.of_nat (String.length pre)) (-1)) as [F|_]; [lia|].
  destruct (Z.eqb_spec (Z.of_nat (String.length (pre ++ String "{" body)%string)) (-1))
    as [F|_]; [lia|].
  simpl andb. cbv iota. f_equal. unfold substring, clamp.
  rewrite !length_app. cbn [String.length]. rewrite !length_app. cbn [String.length].
  rewrite Nat2Z.id.
  replace (Z.to_nat (Z.of_nat (String.length pre + S (String.length body)) + 1))
    with (String.length pre + S (S (String.length body)))%nat by lia.
  rewrite !Nat.min_l by lia.
  replace (Nat.max (String.length pre) (String.length pre + S (S (String.length body)))
           - String.length pre)%nat
    with (String.length ("{" ++ body ++ "}")) by (cbn [String.length append]; rewrite length_app; simpl; lia).
  replace (pre ++ String "{" (body ++ String "}" post))%string
    with (pre ++ ("{" ++ body ++ "}") ++ post)%string
    by (simpl; rewrite app_assoc_str; reflexivity).
  apply substring_middle.
Qed.

Lemma span_between_prose (pre body post : string) (v : value) :
  find_first "{" pre = None ->
  find_last "}" post = None ->
  parse ("{" ++ body ++ "}") = Return v ->
  cleanAndParseJSON parse (Some (pre ++ "{" ++ body ++ "}" ++ post)) = Return v.
Proof.
  intros Hpre Hpost Hv.
  rewrite cleanAndParseJSON_nonempty by (destruct pre; discriminate).
  rewrite rigorousCandidate_span by assumption.
  now rewrite Hv.
Qed.

Lemma looseText_fenced (tag content : string) :
  tag = EmptyString \/ tag = "json" ->
  looseText (fenced tag content) = content.
Proof.
  intros Htag. unfold looseText, fenced.
  assert (Htrim : forall t, trim ("```" ++ t ++ nl ++ content ++ nl ++ "```")
                            = ("```" ++ t ++ nl ++ content ++ nl ++ "```")%string).
  { intros t. unfold trim. change (trimStart ("```" ++ t ++ nl ++ content ++ nl ++ "```"))
      with ("```" ++ t ++ nl ++ content ++ nl ++ "```")%string.
    replace ("```" ++ t ++ nl ++ content ++ nl ++ "```")%string
      with (("```" ++ t ++ nl ++ content ++ nl ++ "``") ++ String "`" EmptyString)%string.
    - apply trimEnd_keeps. reflexivity.
    - rewrite !app_assoc_str. reflexivity. }
  rewrite Htrim.
  destruct Htag as [-> | ->];
    unfold startsWith, stripOpeningFence, skip_optional, nl;
    cbn -[stripClosingFence]; rewrite prefix_empty;
    exact (stripClosingFence_app content).
Qed.

End SanitizerFacts.

(** C6. [cleanAndParseJSON] returns on every input, whatever [JSON.parse]
    does: it never throws.  On an absent or empty text it returns the empty
    object, and so it does when the candidate between the braces is missing
    or does not parse and the loosely cleaned text does not parse either. *)
Theorem cleanAndParseJSON_total (parse : string -> outcome value) :
  (forall text, exists v, cleanAndParseJSON parse text = Return v)
  /\ cleanAndParseJSON parse None = Return (VObj [])
  /\ cleanAndParseJSON parse (Some EmptyString) = Return (VObj [])
  /\ (forall text,
        (forall candidate, rigorousCandidate text = Some candidate ->
                           exists e, parse candidate = Throw e) ->
        (exists e, parse (looseText text) = Throw e) ->
        cleanAndParseJSON parse (Some text) = Return (VObj [])).
Proof.
  repeat split.
  - intros [t|]; [|eexists; reflexivity].
    destruct t as [|c t]; [eexists; reflexivity|].
    rewrite cleanAndParseJSON_nonempty by discriminate.
    destruct (rigorousCandidate (String c t)) as [cand|]; simpl.
    + destruct (parse cand); simpl; [eexists; reflexivity|].
      destruct (parse (looseText (String c t))); simpl; eexists; reflexivity.
    + destruct (parse (looseText (String c t))); simpl; eexists; reflexivity.
  - intros text Hcand [e He].
    destruct text as [|c t]; [reflexivity|].
    rewrite cleanAndParseJSON_nonempty by discriminate.
    destruct (rigorousCandidate (String c t)) as [cand|] eqn:E.
    + destruct (Hcand cand eq_refl) as [e' He']. rewrite He', He. reflexivity.
    + rewrite He. reflexivity.
Qed.

Lemma cleanAndParseJSON_total_witness :
  cleanAndParseJSON Json.parse (Some (lit "Sorry, {no json here"))
  = Return (VObj []).
Proof.
  apply (proj2 (proj2 (proj2 (cleanAndParseJSON_total Json.parse)))).
  - intros candidate H. vm_compute in H. discriminate.
  - eexists. vm_compute. reflexivity.
Defined.

(** C7, as stated, fails: prose with a brace of its own moves the
    boundaries [cleanAndParseJSON] takes, and the text
    [Note {x}: {"a":1}] gives the empty object. *)
Lemma prose_extraction_counterexample : ~ proseNeverMatters.
Proof.
  intros H.
  specialize (H (lit "Note {x}: ") (lit "'a':1") EmptyString
                (VObj [("a", VNum 1)]) eq_refl).
  vm_compute in H. discriminate.
Qed.

(** C7 (amended). When the prose before the span holds no opening brace
    and the prose after it no closing brace, [cleanAndParseJSON] returns
    what [JSON.parse] gives for the span, by its first strategy. *)
Theorem prose_extraction (parse : string -> outcome value)
    (pre body post : string) (v : value) :
  find_first "{" pre = None ->
  find_last "}" post = None ->
  parse ("{" ++ body ++ "}") = Return v ->
  rigorousCandidate (pre ++ "{" ++ body ++ "}" ++ post) = Some ("{" ++ body ++ "}")%string
  /\ cleanAndParseJSON parse (Some (pre ++ "{" ++ body ++ "}" ++ post)) = Return v.
Proof.
  intros Hpre Hpost Hv. split.
  - now apply rigorousCandidate_span.
  - now apply span_between_prose.
Qed.

Lemma prose_extraction_witness :
  cleanAndParseJSON Json.parse (Some (lit "Here is the result: {'a':1} Hope it helps."))
  = Return (VObj [("a", VNum 1)]).
Proof.
  exact (proj2 (prose_extraction Json.parse (lit "Here is the result: ") (lit "'a':1")
                  (lit " Hope it helps.") (VObj [("a", VNum 1)])
                  eq_refl eq_refl eq_refl)).
Defined.

(** C8, as stated, fails: for the fenced array [[{"a":1}]] with the tag
    [json], the first strategy parses the object inside the array and
    returns it in place of the array. *)
Lemma fence_stripping_counterexample : ~ fenceAlwaysStripped.
Proof.
  intros H.
  specialize (H "json" (lit "[{'a':1}]") (VArr [VObj [("a", VNum 1)]]) eq_refl eq_refl).
  vm_compute in H. discriminate.
Qed.

(** C8 (amended). For a fenced text: when the content is an object text
    that parses and the tag holds no opening brace, the result is the
    parsed object, whatever the tag; when the tag is empty or [json], the
    content parses, and the first strategy finds no pair of braces or
    fails on its candidate, the fence is stripped and the result is the
    parsed content. *)
Theorem fenced_json_extraction (parse : string -> outcome value) :
  (forall tag body v,
      find_first "{" tag = None ->
      parse ("{" ++ body ++ "}") = Return v ->
      cleanAndParseJSON parse (Some (fenced tag ("{" ++ body ++ "}"))) = Return v)
  /\ (forall tag content v,
        tag = EmptyString \/ tag = "json" ->
        (forall candidate, rigorousCandidate (fenced tag content) = Some candidate ->
                           exists e, parse candidate = Throw e) ->
        parse content = Return v ->
        cleanAndParseJSON parse (Some (fenced tag content)) = Return v).
Proof.
  split.
  - intros tag body v Htag Hv. unfold fenced.
    replace ("```" ++ tag ++ nl ++ ("{" ++ body ++ "}") ++ nl ++ "```")%string
      with (("```" ++ tag ++ nl) ++ "{" ++ body ++ "}" ++ (nl ++ "```"))%string.
    + apply span_between_prose; [|reflexivity|assumption].
      apply (find_first_app_none "{" "```" (tag ++ nl)); [reflexivity|].
      apply find_first_app_none; [assumption|reflexivity].
    + cbn [append]. rewrite !app_assoc_str. cbn [append].
      rewrite ?app_assoc_str. reflexivity.
  - intros tag content v Htag Hcand Hv.
    rewrite cleanAndParseJSON_nonempty by (unfold fenced; discriminate).
    rewrite (looseText_fenced tag content Htag), Hv.
    destruct (rigorousCandidate (fenced tag content)) as [cand|]; [|reflexivity].
    destruct (Hcand cand eq_refl) as [e He]. rewrite He. reflexivity.
Qed.

Lemma fenced_json_extraction_witness :
  cleanAndParseJSON Json.parse (Some (fenced "javascript" (lit "{'a':[1,2]}")))
    = Return (VObj [("a", VArr [VNum 1; VNum 2])])
  /\ cleanAndParseJSON Json.parse (Some (fenced "json" (lit "[{'a':1},{'b':2}]")))
    = Return (VArr [VObj [("a", VNum 1)]; VObj [("b", VNum 2)]]).
Proof.
  split.
  - exact (proj1 (fenced_json_extraction Json.parse) "javascript" (lit "'a':[1,2]")
             (VObj [("a", VArr [VNum 1; VNum 2])]) eq_refl eq_refl).
  - apply (proj2 (fenced_json_extraction Json.parse) "json" (lit "[{'a':1},{'b':2}]")).
    + right; reflexivity.
    + intros candidate H. vm_compute in H.
      injection H as <-. eexists. vm_compute. reflexivity.
    + reflexivity.
Defined.

(** ** The tiered caller *)

Section TieredCallerFacts.

Context {St T : Type}.
Variable apiCall : string -> M St T.

(** Recording the invocations changes neither the result nor the state. *)
Lemma attemptCall_traced (m : string) (s : St) (log : list string) :
  attemptCall (traced apiCall) m (s, log)
  = (fst (attemptCall apiCall m s), (snd (attemptCall apiCall m s), (log ++ [m])%list)).
Proof.
  unfold attemptCall, tryCatchM, bind, traced, ret, throw. simpl.
  destruct (apiCall m s) as [[v|e] s']; simpl; [reflexivity|].
  destruct (isQuota e); reflexivity.
Qed.

Lemma callAI_traced (op primary : string) (fallback : option string) (s : St) :
  fst (callAI op (traced apiCall) primary fallback (s, []))
    = fst (callAI op apiCall primary fallback s)
  /\ fst (snd (callAI op (traced apiCall) primary fallback (s, [])))
    = snd (callAI op apiCall primary fallback s).
Proof.
  unfold callAI, tryCatchM. rewrite attemptCall_traced.
  destruct (attemptCall apiCall primary s) as [[v|e] s']; simpl; [split; reflexivity|].
  destruct (String.eqb (err_message e) "QUOTA_EXCEEDED" && configured fallback).
  - rewrite attemptCall_traced. split; reflexivity.
  - split; reflexivity.
Qed.

Lemma attemptCall_throws (m : string) (s s1 : St) (e : JsError) :
  apiCall m s = (Throw e, s1) ->
  attemptCall apiCall m s
  = (Throw (if isQuota e then Error "QUOTA_EXCEEDED" else e), s1).
Proof.
  intros H. unfold attemptCall, tryCatchM, bind, throw. rewrite H.
  destruct (isQuota e); reflexivity.
Qed.

Lemma attemptCall_outcome (m : string) (s : St) :
  attemptCall apiCall m s
  = (match fst (apiCall m s) with
     | Return v => Return (mkTiered v m)
     | Throw e => Throw (if isQuota e then Error "QUOTA_EXCEEDED" else e)
     end, snd (apiCall m s)).
Proof.
  unfold attemptCall, tryCatchM, bind, throw, ret.
  destruct (apiCall m s) as [[v|e] s']; simpl; [reflexivity|].
  destruct (isQuota e); reflexivity.
Qed.

End TieredCallerFacts.

(** C1. When the primary invocation fails with a quota-classified error
    and a fallback model is configured, [callAI] invokes the operation on
    the primary model and then on the fallback model, and nothing else; a
    value of the fallback is returned with the fallback model, and a
    failure of the fallback ends the call. *)
Theorem callAI_quota_fallback {St T : Type} (op : string) (apiCall : string -> M St T)
    (primary fb : string) (s s1 : St) (e : JsError) :
  apiCall primary s = (Throw e, s1) ->
  isQuota e = true ->
  fb <> EmptyString ->
  callAI op (traced apiCall) primary (Some fb) (s, [])
  = (match fst (apiCall fb s1) with
     | Return v => Return (mkTiered v fb)
     | Throw e2 => Throw (if isQuota e2 then Error "QUOTA_EXCEEDED" else e2)
     end,
     (snd (apiCall fb s1), [primary; fb])).
Proof.
  intros Hp Hq Hfb.
  unfold callAI, tryCatchM. rewrite attemptCall_traced.
  rewrite (attemptCall_throws apiCall primary s s1 e Hp), Hq. simpl fst. simpl snd.
  cbn [err_message Error]. rewrite String.eqb_refl. unfold configured.
  replace (negb (String.eqb fb "")) with true
    by (symmetry; apply negb_true_iff, String.eqb_neq; exact Hfb).
  cbn [andb]. rewrite attemptCall_traced, attemptCall_outcome. reflexivity.
Qed.

Lemma callAI_quota_fallback_witness :
  callAI "Math Lab" (traced Fixture.quotaThenAnswer) MODEL_SMART (Some MODEL_FAST) (tt, [])
  = (Return (mkTiered 7 MODEL_FAST), (tt, [MODEL_SMART; MODEL_FAST])).
Proof.
  apply (callAI_quota_fallback "Math Lab" Fixture.quotaThenAnswer MODEL_SMART MODEL_FAST
           tt tt Fixture.quotaError).
  - reflexivity.
  - reflexivity.
  - discriminate.
Defined.

(** C2, as stated, fails: an error whose message is [QUOTA_EXCEEDED] is
    not quota-classified (the match is case-sensitive), yet its message is
    the mark the outer handler looks for, and with a fallback configured
    the fallback is invoked. *)
Lemma callAI_non_quota_counterexample : ~ nonQuotaAlwaysPropagates.
Proof.
  intros H.
  specialize (H "Math Lab" Fixture.sentinelThenAnswer MODEL_SMART (Some MODEL_FAST)
                (Error "QUOTA_EXCEEDED") eq_refl eq_refl).
  vm_compute in H. discriminate.
Qed.

(** C2 (amended).  The primary fails with an error object that is not
    quota-classified.  Unless its message is [QUOTA_EXCEEDED] and a
    fallback is configured, the error is propagated as it is, the operation
    having been invoked once, on the primary model: so it is for every
    other message whether a fallback is configured or not, and for the
    message [QUOTA_EXCEEDED] itself when there is no fallback. *)
Theorem callAI_non_quota_propagates {St T : Type} (op : string)
    (apiCall : string -> M St T) (primary : string) (fallback : option string)
    (s s1 : St) (e : JsError) :
  apiCall primary s = (Throw e, s1) ->
  isQuota e = false ->
  err_message e <> "QUOTA_EXCEEDED" \/ configured fallback = false ->
  callAI op (traced apiCall) primary fallback (s, [])
  = (Throw e, (s1, [primary])).
Proof.
  intros Hp Hq Hm.
  unfold callAI, tryCatchM. rewrite attemptCall_traced.
  rewrite (attemptCall_throws apiCall primary s s1 e Hp), Hq. cbn [fst snd].
  destruct Hm as [Hm|Hm].
  - replace (String.eqb (err_message e) "QUOTA_EXCEEDED") with false
      by (symmetry; apply String.eqb_neq; exact Hm).
    reflexivity.
  - rewrite Hm, andb_false_r. reflexivity.
Qed.

Lemma callAI_non_quota_propagates_witness :
  callAI "Deep Execution" (traced Fixture.networkDown) MODEL_SMART (Some MODEL_FAST) (tt, [])
  = (Throw Fixture.networkError, (tt, [MODEL_SMART]))
  /\ callAI "Auto-Tuning" (traced Fixture.sentinelThenAnswer) MODEL_SMART None (tt, [])
     = (Throw (Error "QUOTA_EXCEEDED"), (tt, [MODEL_SMART])).
Proof.
  split.
  - apply (callAI_non_quota_propagates "Deep Execution" Fixture.networkDown MODEL_SMART
             (Some MODEL_FAST) tt tt Fixture.networkError).
    + reflexivity.
    + reflexivity.
    + left. discriminate.
  - apply (callAI_non_quota_propagates "Auto-Tuning" Fixture.sentinelThenAnswer MODEL_SMART
             None tt tt (Error "QUOTA_EXCEEDED")).
    + reflexivity.
    + reflexivity.
    + right. reflexivity.
Defined.

(** ** Objects *)

Lemma get_readable (v : value) (k : string) :
  readable v = true -> get v k = Return (get_opt v k).
Proof. unfold get_opt. destruct v; simpl; intros H; try discriminate; reflexivity. Qed.

Lemma lookup_set (k k' : string) (v : value) (kvs : list (string * value)) :
  Obj.lookup k (Obj.set k' v kvs)
  = if String.eqb k' k then Some v else Obj.lookup k kvs.
Proof.
  induction kvs as [|[k0 v0] kvs IH]; simpl.
  - reflexivity.
  - destruct (String.eqb k0 k') eqn:E0; simpl.
    + apply String.eqb_eq in E0. subst k0.
      destruct (String.eqb k' k); reflexivity.
    + destruct (String.eqb k0 k) eqn:E1.
      * apply String.eqb_eq in E1. subst k0.
        rewrite String.eqb_sym, E0. reflexivity.
      * exact IH.
Qed.

Lemma ToPrimitive_convertible (v : value) :
  convertible v = true -> ToPrimitive v = Return v.
Proof. unfold ToPrimitive. now intros ->. Qed.

Lemma ToPrimitive_throws (v : value) :
  convertible v = false ->
  ToPrimitive v = Throw (TypeError "Cannot convert object to primitive value").
Proof. unfold ToPrimitive. now intros ->. Qed.

Lemma ToPrimitive_returns (v x : value) : ToPrimitive v = Return x -> x = v.
Proof. unfold ToPrimitive. destruct (convertible v); [congruence | discriminate]. Qed.

(** ** The math pipeline *)

Section MathFacts.

Variable W : Type.
Variable generateContent : string -> Request -> M W GenerateContentResponse.
Variable JSON_parse : string -> outcome value.

Lemma mathResult_flag (data : value) (m : string) (sources : list WebSource) (b : bool) :
  get (mathResult data m sources b) "wasAutoRepaired" = Return (VBool b).
Proof. unfold mathResult, get. rewrite lookup_set. reflexivity. Qed.

Lemma mathResult_field (data : value) (m : string) (sources : list WebSource) (b : bool)
    (k : string) :
  k <> "wasAutoRepaired" -> k <> "sources" -> k <> "modelUsed" ->
  get (mathResult data m sources b) k = get (VObj (spread data)) k.
Proof.
  intros H1 H2 H3. unfold mathResult, get. rewrite !lookup_set.
  replace (String.eqb "wasAutoRepaired" k) with false
    by (symmetry; apply String.eqb_neq; congruence).
  replace (String.eqb "sources" k) with false
    by (symmetry; apply String.eqb_neq; congruence).
  replace (String.eqb "modelUsed" k) with false
    by (symmetry; apply String.eqb_neq; congruence).
  reflexivity.
Qed.

Lemma asksRepair_unique (run : outcome (Tiered GenerateContentResponse)) (R R' : value) :
  asksRepair JSON_parse run R -> asksRepair JSON_parse run R' -> R = R'.
Proof.
  intros (vr & vd & Hr & Hp & _ & Hc & _) (vr' & vd' & Hr' & Hp' & _ & Hc' & _).
  rewrite Hr in Hr'. injection Hr' as <-. rewrite Hp in Hp'. injection Hp' as <-.
  rewrite Hc in Hc'. now injection Hc'.
Qed.

Lemma verifyAndResolve_cases (problem : string) (sources : list WebSource)
    (res : Tiered GenerateContentResponse) (fp : value) (w : W) :
  readable fp = true ->
  convertible (get_opt fp "explanation") = true ->
  convertible (get_opt fp "pythonCode") = true ->
  let run := verificationCall generateContent problem
               (get_opt fp "explanation") (get_opt fp "pythonCode") w in
  (exists R, asksRepair JSON_parse (fst run) R
     /\ verifyAndResolve generateContent JSON_parse problem sources res fp w
        = (Return (mathResult R (model res ++ " + Verified") sources true), snd run))
  \/ ((forall R, ~ asksRepair JSON_parse (fst run) R)
      /\ verifyAndResolve generateContent JSON_parse problem sources res fp w
         = (Return (mathResult fp (model res) sources false), snd run)).
Proof.
  intros Hfp Hce Hcc run.
  unfold verifyAndResolve, bind, lift. rewrite !(get_readable fp _ Hfp). cbn [bindO].
  rewrite (ToPrimitive_convertible _ Hce), (ToPrimitive_convertible _ Hcc).
  clear Hce Hcc.
  unfold tryCatchM, verificationAttempt, bind, lift, ret.
  fold run. destruct run as [[verifyRes|e] w'] eqn:Erun; cbn [fst snd].
  2:{ right. split; [intros R (vr & vd & Hr & _); discriminate | reflexivity]. }
  destruct (cleanAndParseJSON JSON_parse (text (output verifyRes))) as [verifyData|e] eqn:Ep.
  2:{ right. split; [|reflexivity].
      intros R (vr & vd & Hr & Hp & _). injection Hr as <-. congruence. }
  destruct (get verifyData "valid") as [valid|e] eqn:Ev.
  2:{ right. split; [|reflexivity].
      intros R (vr & vd & Hr & Hp & Hv & _). injection Hr as <-.
      rewrite Ep in Hp. injection Hp as <-. congruence. }
  destruct (strict_eq valid (VBool false)) eqn:Es.
  2:{ right. split; [|reflexivity].
      intros R (vr & vd & Hr & Hp & Hv & _). injection Hr as <-.
      rewrite Ep in Hp. injection Hp as <-. rewrite Ev in Hv. injection Hv as ->.
      discriminate. }
  assert (valid = VBool false) as ->.
  { destruct valid as [| |[|]| | | |]; simpl in Es; try discriminate; reflexivity. }
  destruct (get verifyData "corrected_response") as [cr|e] eqn:Ec.
  2:{ right. split; [|reflexivity].
      intros R (vr & vd & Hr & Hp & Hv & Hc & _). injection Hr as <-.
      rewrite Ep in Hp. injection Hp as <-. congruence. }
  destruct (truthy cr) eqn:Et.
  - left. exists cr. split; [|reflexivity].
    exists verifyRes, verifyData. repeat split; assumption.
  - right. split; [|reflexivity].
    intros R (vr & vd & Hr & Hp & Hv & Hc & Ht). injection Hr as <-.
    rewrite Ep in Hp. injection Hp as <-. rewrite Ec in Hc. injection Hc as <-.
    congruence.
Qed.

Lemma solveMathWithCode_stages (problem : string) (verifiedLatex : option string)
    (useSearch : bool) (history : list string) (w0 w : W)
    (sources : list WebSource) (res : Tiered GenerateContentResponse) (fp : value) :
  solveStage generateContent JSON_parse problem verifiedLatex useSearch history w0
    = (Return (sources, res, fp), w) ->
  solveMathWithCode generateContent JSON_parse problem verifiedLatex useSearch history w0
  = verifyAndResolve generateContent JSON_parse problem sources res fp w.
Proof. intros H. unfold solveMathWithCode, bind. rewrite H. reflexivity. Qed.

End MathFacts.

(** C3. Once the solve stage has given its output and the verification
    prompt has been built from it (the output is not [null], and its
    explanation and code convert to text), [solveMathWithCode]
    returns: the corrected response with [wasAutoRepaired = true] when the
    verification answers [{ valid: false, corrected_response: R }]; the
    solve-stage output with [wasAutoRepaired = false] when it answers
    [{ valid: true }] or when its call fails.  The flag is true exactly when
    the verification replaced the first result, and no failure of the
    verification stage leaves the function.  The result carries the fields
    of the data it is built from, next to [modelUsed], [sources] and
    [wasAutoRepaired]. *)
Theorem math_resolution {W : Type}
    (generateContent : string -> Request -> M W GenerateContentResponse)
    (JSON_parse : string -> outcome value)
    (problem : string) (verifiedLatex : option string) (useSearch : bool)
    (history : list string) (w0 w : W)
    (sources : list WebSource) (res : Tiered GenerateContentResponse) (fp : value) :
  solveStage generateContent JSON_parse problem verifiedLatex useSearch history w0
    = (Return (sources, res, fp), w) ->
  readable fp = true ->
  convertible (get_opt fp "explanation") = true ->
  convertible (get_opt fp "pythonCode") = true ->
  let run := verificationCall generateContent problem
               (get_opt fp "explanation") (get_opt fp "pythonCode") w in
  let final := solveMathWithCode generateContent JSON_parse problem verifiedLatex
                 useSearch history w0 in
  (forall R, asksRepair JSON_parse (fst run) R ->
     fst final = Return (mathResult R (model res ++ " + Verified") sources true))
  /\ (forall verifyRes verifyData,
        fst run = Return verifyRes ->
        cleanAndParseJSON JSON_parse (text (output verifyRes)) = Return verifyData ->
        get verifyData "valid" = Return (VBool true) ->
        fst final = Return (mathResult fp (model res) sources false))
  /\ (forall e, fst run = Throw e ->
        fst final = Return (mathResult fp (model res) sources false))
  /\ (exists r, fst final = Return r
        /\ (get r "wasAutoRepaired" = Return (VBool true)
            <-> exists R, asksRepair JSON_parse (fst run) R))
  /\ (forall data m b k,
        k <> "wasAutoRepaired" -> k <> "sources" -> k <> "modelUsed" ->
        get (mathResult data m sources b) k = get (VObj (spread data)) k).
Proof.
  intros Hsolve Hfp Hce Hcc run final.
  assert (Hfinal : final = verifyAndResolve generateContent JSON_parse problem sources res fp w)
    by (apply solveMathWithCode_stages; exact Hsolve).
  clearbody final. subst final.
  destruct (verifyAndResolve_cases W generateContent JSON_parse problem sources res fp w Hfp
              Hce Hcc)
    as [(R0 & Hask & Heq) | (Hno & Heq)]; subst run; rewrite Heq; cbn [fst].
  - split; [|split; [|split; [|split]]].
    + intros R HR. now rewrite (asksRepair_unique JSON_parse _ _ _ HR Hask).
    + intros vr vd Hr Hp Hv. exfalso.
      destruct Hask as (vr' & vd' & Hr' & Hp' & Hv' & _).
      rewrite Hr in Hr'. injection Hr' as <-. rewrite Hp in Hp'. injection Hp' as <-.
      rewrite Hv in Hv'. discriminate.
    + intros e He. exfalso. destruct Hask as (vr' & _ & Hr' & _). congruence.
    + eexists. split; [reflexivity|]. rewrite mathResult_flag.
      split; [intros _; now exists R0 | reflexivity].
    + intros; now apply mathResult_field.
  - split; [|split; [|split; [|split]]].
    + intros R HR. exfalso. exact (Hno R HR).
    + intros; reflexivity.
    + intros; reflexivity.
    + eexists. split; [reflexivity|]. rewrite mathResult_flag.
      split; [discriminate | intros [R HR]; exfalso; exact (Hno R HR)].
    + intros; now apply mathResult_field.
Qed.

Lemma math_resolution_witness :
  fst (solveMathWithCode (Fixture.generate (Fixture.mathScript Fixture.flawed)) Json.parse
         "1+1" None false [] [])
  = Return (mathResult Fixture.correctedResponse (MODEL_SMART ++ " + Verified") [] true).
Proof.
  refine (proj1 (math_resolution (Fixture.generate (Fixture.mathScript Fixture.flawed))
                   Json.parse "1+1" None false [] [] [(MODEL_SMART ++ ": prompt")%string] []
                   (mkTiered (mkResponse (Some (lit "{'latex':'x','explanation':'add','pythonCode':'print(1+1)','result':'2'}")) None) MODEL_SMART)
                   Fixture.firstPass eq_refl eq_refl eq_refl eq_refl)
            Fixture.correctedResponse _).
  eexists; eexists. repeat split; reflexivity.
Defined.

(** ** The merge of the homework pipeline *)

Section MergeFacts.

Lemma sameProblem_readable (fixedP p : value) :
  readable fixedP = true -> readable p = true ->
  sameProblem fixedP p = Return (matchesRecord fixedP p).
Proof.
  intros Hf Hp. unfold sameProblem, matchesRecord, bindO.
  rewrite !(get_readable p _ Hp), !(get_readable fixedP _ Hf).
  destruct (strict_eq (get_opt p "problem_statement") (get_opt fixedP "problem_statement"));
    reflexivity.
Qed.

Lemma findIndex_firstMatch (fixedP : value) (problems : list value) :
  readable fixedP = true -> forallb readable problems = true ->
  findIndex (sameProblem fixedP) problems = Return (firstMatch fixedP problems).
Proof.
  intros Hf. induction problems as [|p r IH]; simpl; intros H; [reflexivity|].
  apply andb_true_iff in H. destruct H as [Hp Hr].
  rewrite (sameProblem_readable fixedP p Hf Hp). simpl.
  destruct (matchesRecord fixedP p); [reflexivity|].
  rewrite (IH Hr). simpl. destruct (firstMatch fixedP r); reflexivity.
Qed.

Lemma replaceAt_readable (i : nat) (v : value) (l : list value) :
  readable v = true -> forallb readable l = true ->
  forallb readable (replaceAt i v l) = true.
Proof.
  intros Hv. revert i. induction l as [|x l IH]; intros i H; [reflexivity|].
  simpl in H. apply andb_true_iff in H. destruct H as [Hx Hl].
  destruct i; simpl.
  - now rewrite Hv, Hl.
  - now rewrite Hx, (IH i Hl).
Qed.

Lemma replaceAt_length (i : nat) (v : value) (l : list value) :
  List.length (replaceAt i v l) = List.length l.
Proof.
  revert i. induction l as [|x l IH]; intros i; [reflexivity|].
  destruct i; simpl; [reflexivity | now rewrite IH].
Qed.

Lemma replaceAt_same (i : nat) (v : value) (l : list value) :
  (i < List.length l)%nat -> nth_error (replaceAt i v l) i = Some v.
Proof.
  revert i. induction l as [|x l IH]; intros i H; simpl in H; [lia|].
  destruct i; simpl; [reflexivity | apply IH; lia].
Qed.

Lemma replaceAt_other (i j : nat) (v : value) (l : list value) :
  j <> i -> nth_error (replaceAt i v l) j = nth_error l j.
Proof.
  revert i j. induction l as [|x l IH]; intros i j H; [reflexivity|].
  destruct i, j; simpl; try reflexivity; try congruence.
  apply IH. congruence.
Qed.

(** The index [firstMatch] gives is the one of the first record that
    matches. *)
Lemma firstMatch_some (fixedP : value) (problems : list value) (i : nat) :
  firstMatch fixedP problems = Some i ->
  (exists p, nth_error problems i = Some p /\ matchesRecord fixedP p = true)
  /\ (forall j p, (j < i)%nat -> nth_error problems j = Some p ->
                  matchesRecord fixedP p = false)
  /\ (i < List.length problems)%nat.
Proof.
  revert i. induction problems as [|x r IH]; intros i H; simpl in H; [discriminate|].
  destruct (matchesRecord fixedP x) eqn:E.
  - injection H as <-. split; [|split].
    + exists x. split; [reflexivity | exact E].
    + intros j p Hj. lia.
    + simpl. lia.
  - destruct (firstMatch fixedP r) as [i'|] eqn:F; [|discriminate].
    injection H as <-. destruct (IH i' eq_refl) as (Hex & Hbefore & Hlt).
    split; [|split].
    + exact Hex.
    + intros j p Hj Hn. destruct j; simpl in Hn.
      * injection Hn as <-. exact E.
      * apply (Hbefore j p); [lia | exact Hn].
    + simpl. lia.
Qed.

Lemma firstMatch_none (fixedP : value) (problems : list value) :
  firstMatch fixedP problems = None ->
  forall p, In p problems -> matchesRecord fixedP p = false.
Proof.
  induction problems as [|x r IH]; intros H p Hin; simpl in *; [contradiction|].
  destruct (matchesRecord fixedP x) eqn:E; [discriminate|].
  destruct (firstMatch fixedP r) eqn:F; [discriminate|].
  destruct Hin as [<-|Hin]; [exact E | now apply IH].
Qed.

Lemma mergeLoop_mergeSpec (fixed problems : list value) :
  forallb readable fixed = true -> forallb readable problems = true ->
  mergeLoop fixed problems = (mergeSpec fixed problems, Return tt).
Proof.
  revert problems. induction fixed as [|f rest IH]; intros problems Hf Hp; [reflexivity|].
  simpl in Hf. apply andb_true_iff in Hf. destruct Hf as [Hf Hrest].
  simpl. rewrite (findIndex_firstMatch f problems Hf Hp).
  destruct (firstMatch f problems) as [i|].
  - apply IH; [exact Hrest|]. now apply replaceAt_readable.
  - now apply IH.
Qed.

Lemma mergeSpec_length (fixed problems : list value) :
  List.length (mergeSpec fixed problems) = List.length problems.
Proof.
  revert problems. induction fixed as [|f rest IH]; intros problems; [reflexivity|].
  simpl. rewrite IH. destruct (firstMatch f problems); [apply replaceAt_length | reflexivity].
Qed.

Lemma mergedRecord_validation (fixedP : value) :
  get (mergedRecord fixedP) "validation" = Return selfCorrected.
Proof. unfold mergedRecord, get. rewrite lookup_set. reflexivity. Qed.

Lemma mergedRecord_field (fixedP : value) (k : string) :
  k <> "validation" -> get (mergedRecord fixedP) k = get (VObj (spread fixedP)) k.
Proof.
  intros H. unfold mergedRecord, get. rewrite lookup_set.
  replace (String.eqb "validation" k) with false
    by (symmetry; apply String.eqb_neq; congruence).
  reflexivity.
Qed.

End MergeFacts.

Section CounterpartFacts.

Lemma matchesRecord_split (fixedP p : value) :
  matchesRecord fixedP p = counterpart fixedP p || blankAgreement fixedP p.
Proof.
  unfold matchesRecord, counterpart, blankAgreement, sameField, bothBlank.
  destruct (present (get_opt p "problem_statement")),
           (present (get_opt p "student_answer")),
           (strict_eq (get_opt p "problem_statement") (get_opt fixedP "problem_statement")),
           (strict_eq (get_opt p "student_answer") (get_opt fixedP "student_answer"));
    reflexivity.
Qed.

Lemma firstMatch_firstIndex (fixedP : value) (problems : list value) :
  firstMatch fixedP problems = firstIndex (matchesRecord fixedP) problems.
Proof. induction problems as [|p r IH]; simpl; [reflexivity | now rewrite IH]. Qed.

Lemma firstIndex_ext (f g : value -> bool) (l : list value) :
  (forall x, In x l -> f x = g x) -> firstIndex f l = firstIndex g l.
Proof.
  induction l as [|x l IH]; intros H; simpl; [reflexivity|].
  rewrite (H x (or_introl eq_refl)), IH; [reflexivity|].
  intros y Hy. apply H. now right.
Qed.

Lemma firstIndex_some (test : value -> bool) (l : list value) (i : nat) :
  firstIndex test l = Some i ->
  (exists p, nth_error l i = Some p /\ test p = true)
  /\ (forall j p, (j < i)%nat -> nth_error l j = Some p -> test p = false)
  /\ (i < List.length l)%nat.
Proof.
  revert i. induction l as [|x r IH]; intros i H; simpl in H; [discriminate|].
  destruct (test x) eqn:E.
  - injection H as <-. split; [|split].
    + exists x. split; [reflexivity | exact E].
    + intros j p Hj. lia.
    + simpl. lia.
  - destruct (firstIndex test r) as [i'|] eqn:F; [|discriminate].
    injection H as <-. destruct (IH i' eq_refl) as (Hex & Hbefore & Hlt).
    split; [exact Hex|]. split.
    + intros [|j] p Hj Hn; simpl in Hn.
      * injection Hn as <-. exact E.
      * apply (Hbefore j p); [lia | exact Hn].
    + simpl. lia.
Qed.

Lemma firstIndex_none (test : value -> bool) (l : list value) :
  firstIndex test l = None -> forall p, In p l -> test p = false.
Proof.
  induction l as [|x r IH]; intros H p Hin; simpl in *; [contradiction|].
  destruct (test x) eqn:E; [discriminate|].
  destruct (firstIndex test r) eqn:F; [discriminate|].
  destruct Hin as [<-|Hin]; [exact E | now apply IH].
Qed.

Lemma In_replaceAt (i : nat) (v p : value) (l : list value) :
  In p (replaceAt i v l) -> p = v \/ In p l.
Proof.
  revert i. induction l as [|x l IH]; intros i H; [contradiction|].
  destruct i; simpl in H.
  - destruct H as [<-|H]; [now left | right; now right].
  - destruct H as [<-|H]; [right; now left|].
    destruct (IH i H) as [->|Hin]; [now left | right; now right].
Qed.

(** Where no corrected record meets a record blank like itself, the
    comparison of the merge finds counterparts and nothing else. *)
Lemma mergeSpec_counterparts (fixed problems pool : list value) :
  noBlankAgreement fixed pool = true ->
  (forall p, In p problems -> In p pool) ->
  mergeSpec fixed problems = mergeCounterparts fixed problems.
Proof.
  revert problems pool. induction fixed as [|f rest IH]; intros problems pool H Hin;
    [reflexivity|].
  simpl in H. apply andb_true_iff in H. destruct H as [Hf Hrest].
  assert (E : firstMatch f problems = firstIndex (counterpart f) problems).
  { rewrite firstMatch_firstIndex. apply firstIndex_ext. intros p Hp.
    rewrite matchesRecord_split.
    pose proof (proj1 (forallb_forall _ _) Hf p (Hin p Hp)) as Hb.
    apply negb_true_iff in Hb. rewrite Hb. apply orb_false_r. }
  simpl. rewrite E. apply (IH _ (mergedRecord f :: pool) Hrest).
  intros p Hp. destruct (firstIndex (counterpart f) problems) as [i|].
  - destruct (In_replaceAt i _ p problems Hp) as [->|Hp']; [now left|].
    right. now apply Hin.
  - right. now apply Hin.
Qed.

Lemma mergeCounterparts_length (fixed problems : list value) :
  List.length (mergeCounterparts fixed problems) = List.length problems.
Proof.
  revert problems. induction fixed as [|f rest IH]; intros problems; [reflexivity|].
  simpl. rewrite IH.
  destruct (firstIndex (counterpart f) problems); [apply replaceAt_length | reflexivity].
Qed.

Lemma last_cons (a d : value) (l : list value) : last (a :: l) d = last l a.
Proof.
  revert a d. induction l as [|x l IH]; intros a d; [reflexivity|].
  change (last (x :: l) d = last (x :: l) a). now rewrite !IH.
Qed.

Lemma blankAnswer_merged (blank f : value) :
  blankAnswer blank f = true -> blankAnswer blank (mergedRecord f) = true.
Proof.
  destruct f as [| | | | | |kvs]; try discriminate. unfold blankAnswer.
  intros H. unfold get_opt.
  rewrite (mergedRecord_field (VObj kvs) "student_answer") by discriminate.
  exact H.
Qed.

Lemma sameProblem_blank (blank f p : value) :
  present blank = false ->
  blankAnswer blank f = true -> blankAnswer blank p = true ->
  sameProblem f p = Return true.
Proof.
  intros Hb Hf Hp.
  destruct f as [| | | | | |fk]; try discriminate.
  destruct p as [| | | | | |pk]; try discriminate.
  unfold blankAnswer, get_opt in Hf, Hp. unfold sameProblem, bindO.
  cbn [get] in *.
  destruct (strict_eq
              (match Obj.lookup "problem_statement" pk with Some x => x | None => VUndefined end)
              (match Obj.lookup "problem_statement" fk with Some x => x | None => VUndefined end));
    [reflexivity|].
  destruct (match Obj.lookup "student_answer" pk with Some x => x | None => VUndefined end),
           (match Obj.lookup "student_answer" fk with Some x => x | None => VUndefined end),
           blank; try discriminate; reflexivity.
Qed.

End CounterpartFacts.

(** C4, as stated, fails by the rule it states itself, and by the note it
    names.  A first record with the student answer of the corrected record
    is the first match, so it is the first record that is replaced and not
    the second; and where the second record is the one replaced, the
    rendering note the code writes is [AI Self-Corrected]. *)
Lemma merge_counterexample :
  ~ secondRecordReplaced
  /\ fst (mergeLoop [Fixture.answered "Q2" "4" 97]
            [Fixture.answered "Q1" "4" 95; Fixture.answered "Q2" "4" 60;
             Fixture.answered "Q3" "5" 90])
     = [mergedRecord (Fixture.answered "Q2" "4" 97); Fixture.answered "Q2" "4" 60;
        Fixture.answered "Q3" "5" 90]
  /\ fst (mergeLoop [Fixture.answered "Q2" "2" 97]
            [Fixture.answered "Q1" "1" 95; Fixture.answered "Q2" "2" 60;
             Fixture.answered "Q3" "3" 90])
     = [Fixture.answered "Q1" "1" 95; mergedRecord (Fixture.answered "Q2" "2" 97);
        Fixture.answered "Q3" "3" 90]
  /\ get (mergedRecord (Fixture.answered "Q2" "2" 97)) "validation" <> Return specValidation.
Proof.
  split; [|split; [|split]].
  - intros H.
    destruct (H (Fixture.answered "Q1" "1" 95) (Fixture.answered "Q2" "2" 60)
                (Fixture.answered "Q3" "3" 90) (Fixture.answered "Q2" "2" 97)
                eq_refl eq_refl eq_refl eq_refl eq_refl)
      as (m & Hm & Hv).
    vm_compute in Hm. injection Hm as <-. vm_compute in Hv. discriminate.
  - reflexivity.
  - reflexivity.
  - vm_compute. discriminate.
Qed.

(** C4 (amended).  The records are readable, and no corrected record meets
    a record that lacks, or holds [null] in, a matching field it lacks or
    holds [null] in itself.  Then the merge loop takes every corrected
    record in turn, finds the first record of the current sequence that is
    its counterpart - that has its problem statement or its student
    answer - and replaces that record in place by the corrected record with
    [validation] forced to
    [{ status: 'verified', confidenceScore: 99, renderingNote: "AI Self-Corrected" }];
    a corrected record without counterpart is dropped, the other records
    are unchanged and the length is kept.  For three records and one
    corrected record that has the statement of the second and is no
    counterpart of the first, exactly the second record is replaced. *)
Theorem merge_first_match (fixed problems : list value) :
  forallb readable fixed = true ->
  forallb readable problems = true ->
  noBlankAgreement fixed problems = true ->
  mergeLoop fixed problems = (mergeCounterparts fixed problems, Return tt)
  /\ List.length (mergeCounterparts fixed problems) = List.length problems
  /\ (forall fixedP,
        match firstIndex (counterpart fixedP) problems with
        | Some i =>
            (exists p, nth_error problems i = Some p /\ counterpart fixedP p = true)
            /\ (forall j p, (j < i)%nat -> nth_error problems j = Some p ->
                            counterpart fixedP p = false)
            /\ nth_error (replaceAt i (mergedRecord fixedP) problems) i
               = Some (mergedRecord fixedP)
            /\ (forall j, j <> i ->
                  nth_error (replaceAt i (mergedRecord fixedP) problems) j
                  = nth_error problems j)
        | None => forall p, In p problems -> counterpart fixedP p = false
        end)
  /\ (forall fixedP,
        get (mergedRecord fixedP) "validation" = Return selfCorrected
        /\ forall k, k <> "validation" ->
             get (mergedRecord fixedP) k = get (VObj (spread fixedP)) k)
  /\ (forall p1 p2 p3 fixedP,
        problems = [p1; p2; p3] -> fixed = [fixedP] ->
        counterpart fixedP p1 = false ->
        sameField "problem_statement" fixedP p2 = true ->
        mergeCounterparts fixed problems = [p1; mergedRecord fixedP; p3]).
Proof.
  intros Hf Hp Hblank. split; [|split; [|split; [|split]]].
  - rewrite (mergeLoop_mergeSpec fixed problems Hf Hp).
    now rewrite (mergeSpec_counterparts fixed problems problems Hblank).
  - apply mergeCounterparts_length.
  - intros fixedP. destruct (firstIndex (counterpart fixedP) problems) as [i|] eqn:E.
    + destruct (firstIndex_some _ problems i E) as (Hex & Hbefore & Hlt).
      split; [exact Hex|]. split; [exact Hbefore|]. split.
      * now apply replaceAt_same.
      * intros j Hj. now apply replaceAt_other.
    + now apply firstIndex_none.
  - intros fixedP. split; [apply mergedRecord_validation|].
    intros k Hk. now apply mergedRecord_field.
  - intros p1 p2 p3 fixedP -> -> H1 H2. simpl. rewrite H1.
    unfold counterpart. rewrite H2. reflexivity.
Qed.

Lemma merge_first_match_witness :
  mergeLoop [Fixture.answered "Q2" "2" 97]
    [Fixture.answered "Q1" "1" 95; Fixture.answered "Q2" "2" 60; Fixture.answered "Q3" "3" 90]
  = ([Fixture.answered "Q1" "1" 95; mergedRecord (Fixture.answered "Q2" "2" 97);
      Fixture.answered "Q3" "3" 90], Return tt).
Proof.
  exact (proj1 (merge_first_match [Fixture.answered "Q2" "2" 97]
                  [Fixture.answered "Q1" "1" 95; Fixture.answered "Q2" "2" 60;
                   Fixture.answered "Q3" "3" 90] eq_refl eq_refl eq_refl)).
Defined.

(** ** The refinement step of the homework pipeline *)

Section RefinementFacts.

Variable W : Type.
Variable generateContent : string -> Request -> M W GenerateContentResponse.
Variable JSON_parse : string -> outcome value.
Variable ToNumber_ext : value -> option Z.

(** The [try/catch] around the refinement swallows every error. *)
Lemma refineProblems_returns (inputParts : list Part) (toRefine problems : list value) (w : W) :
  exists l,
    fst (refineProblems generateContent JSON_parse ToNumber_ext inputParts toRefine problems w)
    = Return l.
Proof.
  unfold refineProblems.
  destruct (0 <? Z.of_nat (List.length toRefine)); [|eexists; reflexivity].
  unfold tryCatchM.
  destruct (refinementAttempt generateContent JSON_parse ToNumber_ext inputParts toRefine
              problems w) as [[l|e] w']; eexists; reflexivity.
Qed.

Lemma refineProblems_failure (inputParts : list Part) (toRefine problems : list value) (w : W) :
  refinementFails JSON_parse (fst (refinementCall generateContent inputParts toRefine w)) ->
  fst (refineProblems generateContent JSON_parse ToNumber_ext inputParts toRefine problems w)
  = Return problems.
Proof.
  intros Hfail. unfold refineProblems.
  destruct (0 <? Z.of_nat (List.length toRefine)); [|reflexivity].
  unfold tryCatchM, refinementAttempt, bind, lift, ret.
  destruct (refinementCall generateContent inputParts toRefine w) as [[refineRes|e] w'];
    [|reflexivity].
  destruct Hfail as [[e He]|(rr & Hr & Hno)]; [discriminate|].
  cbn [fst] in Hr. injection Hr as <-.
  destruct (cleanAndParseJSON JSON_parse (text (output refineRes))) as [refinedData|e] eqn:Ep;
    [|reflexivity].
  specialize (Hno refinedData).
  destruct (get refinedData "problems") as [fixed|e] eqn:Eg; [|reflexivity].
  destruct (truthy fixed) eqn:Et; [|reflexivity].
  destruct (get fixed "length") as [len|e] eqn:El; [|reflexivity].
  destruct (ToPrimitive len) as [n|e] eqn:En; [|reflexivity].
  destruct (js_lt ToNumber_ext (VNum 0) n) eqn:Elt; [|reflexivity].
  destruct fixed as [| | | | |l|]; try reflexivity.
  destruct l as [|x l].
  - simpl in El. injection El as <-. apply ToPrimitive_returns in En. subst n.
    discriminate.
  - exfalso. exact (Hno x l eq_refl eq_refl).
Qed.

Lemma needsRefinement_readable (p : value) (b : bool) :
  needsRefinement ToNumber_ext p = Return b -> readable p = true.
Proof. destruct p; simpl; intros H; try discriminate; reflexivity. Qed.

Lemma filterO_readable (l kept : list value) :
  filterO (needsRefinement ToNumber_ext) l = Return kept -> forallb readable l = true.
Proof.
  revert kept. induction l as [|p l IH]; intros kept H; [reflexivity|].
  simpl in H. destruct (needsRefinement ToNumber_ext p) as [b|e] eqn:E; [|discriminate].
  simpl in H. destruct (filterO (needsRefinement ToNumber_ext) l) as [rest|e]; [|discriminate].
  simpl. rewrite (needsRefinement_readable p b E). exact (IH rest eq_refl).
Qed.

Lemma truthy_readable (v : value) : truthy v = true -> readable v = true.
Proof. destruct v; simpl; intros H; try discriminate; reflexivity. Qed.

Lemma toProblemAnalysis_returns (subject topic : value) (index : nat) (p : value) :
  readable p = true -> exists r, toProblemAnalysis subject topic index p = Return r.
Proof.
  intros Hp. unfold toProblemAnalysis, bindO. rewrite !(get_readable p _ Hp).
  destruct (truthy (get_opt p "validation_check")) eqn:Et.
  - rewrite !(get_readable _ _ (truthy_readable _ Et)). eexists; reflexivity.
  - eexists; reflexivity.
Qed.

Lemma mapO_returns (subject topic : value) (index : nat) (l : list value) :
  forallb readable l = true ->
  exists final, mapO (toProblemAnalysis subject topic) index l = Return final.
Proof.
  revert index. induction l as [|p l IH]; intros index H; [eexists; reflexivity|].
  simpl in H. apply andb_true_iff in H. destruct H as [Hp Hl].
  destruct (toProblemAnalysis_returns subject topic index p Hp) as [r Hr].
  destruct (IH (S index) Hl) as [rest Hrest].
  simpl. rewrite Hr. simpl. rewrite Hrest. eexists; reflexivity.
Qed.

(** When the refinement answers with a non-empty array, the step gives the
    sequence the merge loop leaves. *)
Lemma refineProblems_merges (inputParts : list Part) (toRefine problems : list value)
    (w w' : W) (refineRes : Tiered GenerateContentResponse) (refinedData x : value)
    (l : list value) :
  toRefine <> [] ->
  refinementCall generateContent inputParts toRefine w = (Return refineRes, w') ->
  cleanAndParseJSON JSON_parse (text (output refineRes)) = Return refinedData ->
  get refinedData "problems" = Return (VArr (x :: l)) ->
  refineProblems generateContent JSON_parse ToNumber_ext inputParts toRefine problems w
  = (Return (fst (mergeLoop (x :: l) problems)), w').
Proof.
  intros Hne Hcall Hparse Hget. unfold refineProblems.
  destruct toRefine as [|t toRefine']; [congruence|].
  replace (0 <? Z.of_nat (List.length (t :: toRefine'))) with true
    by (symmetry; apply Z.ltb_lt; simpl List.length; lia).
  unfold tryCatchM, refinementAttempt, bind, lift, ret.
  rewrite Hcall, Hparse, Hget. cbn [truthy get String.eqb Ascii.eqb Bool.eqb].
  rewrite (ToPrimitive_convertible (VNum _) eq_refl).
  unfold js_lt, ToNumber.
  replace (0 <? Z.of_nat (List.length (x :: l))) with true
    by (symmetry; apply Z.ltb_lt; simpl List.length; lia).
  reflexivity.
Qed.

End RefinementFacts.

(** In the response, [validation] is read from [validation_check] when the
    record has one: the validation forced by the merge shows only on a
    corrected record that comes without [validation_check]. *)
Lemma validation_check_first :
  (r <~ toProblemAnalysis VUndefined VUndefined 1
          (mergedRecord (Fixture.answered "Q2" "2" 97)) ;; Return (validation r))
  = Return (VObj [("status", VStr "verified"); ("confidenceScore", VNum 97);
                  ("renderingNote", VUndefined)])
  /\ (r <~ toProblemAnalysis VUndefined VUndefined 1
             (mergedRecord (VObj [("problem_statement", VStr "Q2")])) ;;
       Return (validation r))
     = Return selfCorrected.
Proof. split; reflexivity. Qed.

(** The whole pipeline on three records with distinct student answers, the
    second flagged with a score of 60: the response has the second record
    replaced and the other two as the deep analysis gave them. *)
Example analyzeHomework_second_record :
  (r <~ fst (analyzeHomework (Fixture.generate (Fixture.homeworkScript Fixture.refined))
               Json.parse Fixture.noNumber Fixture.textInput []) ;;
   Return (map (fun p => (id p, explanation p, get_opt (validation p) "confidenceScore"))
               (problems r)))
  = Return [(1, VStr "x = 2", VNum 95); (2, VStr "x = 3", VNum 99); (3, VStr "x = 2", VNum 90)].
Proof. vm_compute. reflexivity. Qed.

(** C5. The refinement step of [analyzeHomework] never throws.  When the
    refinement call throws, or when its output does not parse into a
    non-empty array [problems], the sequence after the step is the sequence
    of the deep analysis, and [analyzeHomework] returns the response built
    from that sequence. *)
Theorem refinement_failure_keeps_original {W : Type}
    (generateContent : string -> Request -> M W GenerateContentResponse)
    (JSON_parse : string -> outcome value) (ToNumber_ext : value -> option Z)
    (input : AnalysisInput) (w0 w : W) (a : Analysis) (toRefine : list value) :
  analysisStages generateContent JSON_parse input w0 = (Return a, w) ->
  filterO (needsRefinement ToNumber_ext) (an_problems a) = Return toRefine ->
  refinementFails JSON_parse
    (fst (refinementCall generateContent (an_inputParts a) toRefine w)) ->
  fst (refineProblems generateContent JSON_parse ToNumber_ext (an_inputParts a) toRefine
         (an_problems a) w)
    = Return (an_problems a)
  /\ (exists final,
        mapO (toProblemAnalysis (an_subject a) (an_topic a)) O (an_problems a) = Return final
        /\ fst (analyzeHomework generateContent JSON_parse ToNumber_ext input w0)
           = Return (mkHomework (an_has_student_solution a) (an_model a) final))
  /\ (forall inputParts selected problems w',
        exists l,
          fst (refineProblems generateContent JSON_parse ToNumber_ext inputParts selected
                 problems w')
          = Return l).
Proof.
  intros Hstages Hfilter Hfail.
  pose proof (refineProblems_failure W generateContent JSON_parse ToNumber_ext
                (an_inputParts a) toRefine (an_problems a) w Hfail) as Hkeep.
  split; [exact Hkeep|]. split.
  - destruct (mapO_returns (an_subject a) (an_topic a) O (an_problems a)
                (filterO_readable ToNumber_ext _ _ Hfilter)) as [final Hfinal].
    exists final. split; [exact Hfinal|].
    unfold analyzeHomework, bind, lift, ret. rewrite Hstages, Hfilter.
    destruct (refineProblems generateContent JSON_parse ToNumber_ext (an_inputParts a)
                toRefine (an_problems a) w) as [r w'].
    cbn [fst] in Hkeep. subst r. rewrite Hfinal. reflexivity.
  - intros. apply refineProblems_returns.
Qed.

Lemma refinement_failure_keeps_original_witness :
  fst (refineProblems (Fixture.generate (Fixture.homeworkScript (Throw Fixture.networkError)))
         Json.parse Fixture.noNumber (an_inputParts Fixture.analysis)
         [Fixture.answered "Q2" "2" 60] (an_problems Fixture.analysis)
         [(MODEL_FAST ++ ": tuningPrompt")%string; (MODEL_SMART ++ ": executionPrompt")%string])
  = Return (an_problems Fixture.analysis).
Proof.
  refine (proj1 (refinement_failure_keeps_original
                   (Fixture.generate (Fixture.homeworkScript (Throw Fixture.networkError)))
                   Json.parse Fixture.noNumber Fixture.textInput []
                   [(MODEL_FAST ++ ": tuningPrompt")%string;
                    (MODEL_SMART ++ ": executionPrompt")%string]
                   Fixture.analysis [Fixture.answered "Q2" "2" 60] eq_refl eq_refl _)).
  left. eexists. reflexivity.
Defined.

(** ** The session registry *)

Section SessionFacts.

Variable W : Type.
Variable Chat : Type.
Variable chats_create : string -> Config -> M W Chat.
Variable sendMessage : Chat -> list Part -> M W GenerateContentResponse.

(** [initializeChat], step by step: the slot and the model are assigned
    between the creation of the session and its first message. *)
Lemma initializeChat_run (input : AnalysisInput) (st : State W Chat) :
  initializeChat chats_create sendMessage input st
  = match chats_create MODEL_FAST chatConfig (snd st) with
    | (Throw e, w1) => (Throw (if isQuota e then Error "QUOTA_EXCEEDED" else e), (fst st, w1))
    | (Return session, w1) =>
        let reg := set_chatModelUsed MODEL_FAST (set_chatSession session (fst st)) in
        match sendMessage session (firstChatMessage input) w1 with
        | (Return result, w2) => (Return (mkTiered result MODEL_FAST), (reg, w2))
        | (Throw e, w2) => (Throw (if isQuota e then Error "QUOTA_EXCEEDED" else e), (reg, w2))
        end
    end.
Proof.
  unfold initializeChat, callAI, attemptCall, tryCatchM, bind, onWorld, assign, ret, throw.
  cbn [fst snd configured].
  destruct (chats_create MODEL_FAST chatConfig (snd st)) as [[session|e] w1]; cbn [fst snd].
  - destruct (sendMessage session (firstChatMessage input) w1) as [[result|e] w2];
      [reflexivity|].
    destruct (isQuota e); cbn [err_message Error]; rewrite ?andb_false_r; reflexivity.
  - destruct (isQuota e); cbn [err_message Error]; rewrite ?andb_false_r; reflexivity.
Qed.

Lemma startExamSession_run (config : ExamConfig) (fileData : option FileData) (st : State W Chat) :
  startExamSession chats_create sendMessage config fileData st
  = match chats_create MODEL_FAST (examChatConfig config) (snd st) with
    | (Throw e, w1) => (Throw (if isQuota e then Error "QUOTA_EXCEEDED" else e), (fst st, w1))
    | (Return session, w1) =>
        let reg := set_examModelUsed MODEL_FAST (set_examSession session (fst st)) in
        match sendMessage session (firstExamMessage config fileData) w1 with
        | (Return result, w2) => (Return (orDefault (text result) "Ready.", MODEL_FAST), (reg, w2))
        | (Throw e, w2) => (Throw (if isQuota e then Error "QUOTA_EXCEEDED" else e), (reg, w2))
        end
    end.
Proof.
  unfold startExamSession, callAI, attemptCall, tryCatchM, bind, onWorld, assign, ret, throw.
  cbn [fst snd configured].
  destruct (chats_create MODEL_FAST (examChatConfig config) (snd st)) as [[session|e] w1];
    cbn [fst snd].
  - destruct (sendMessage session (firstExamMessage config fileData) w1) as [[result|e] w2];
      [reflexivity|].
    destruct (isQuota e); cbn [err_message Error]; rewrite ?andb_false_r; reflexivity.
  - destruct (isQuota e); cbn [err_message Error]; rewrite ?andb_false_r; reflexivity.
Qed.

Lemma sendChatMessage_run (message : string) (useSearch : bool) (st : State W Chat) :
  sendChatMessage sendMessage message useSearch st
  = match chatSession (fst st) with
    | None => (Throw (Error "Chat not initialized"), st)
    | Some session => forwarded sendMessage session message (chatModelUsed (fst st)) st
    end.
Proof.
  unfold sendChatMessage, forwarded, bind, onWorld, turnOf.
  destruct (chatSession (fst st)) as [session|]; [|reflexivity].
  destruct (sendMessage session [Text message []] (snd st)) as [[result|e] w']; reflexivity.
Qed.

Lemma sendExamMessage_run (message : string) (st : State W Chat) :
  sendExamMessage sendMessage message st
  = match examSession (fst st) with
    | None => (Throw (Error "Exam not started"), st)
    | Some session => forwarded sendMessage session message (examModelUsed (fst st)) st
    end.
Proof.
  unfold sendExamMessage, forwarded, bind, onWorld, turnOf.
  destruct (examSession (fst st)) as [session|]; [|reflexivity].
  destruct (sendMessage session [Text message []] (snd st)) as [[result|e] w']; reflexivity.
Qed.

(** A call that does not start a chat leaves the chat slot as it is, and
    likewise for the exam slot: the two slots share nothing. *)
Lemma after_keeps_chat (c : Call) (st : State W Chat) :
  startsChat c = false ->
  chatSession (fst (after chats_create sendMessage c st)) = chatSession (fst st)
  /\ chatModelUsed (fst (after chats_create sendMessage c st)) = chatModelUsed (fst st).
Proof.
  destruct c as [input|message useSearch|config fileData|message]; simpl; intros H;
    [discriminate| | |].
  - rewrite sendChatMessage_run. unfold forwarded.
    destruct (chatSession (fst st)) eqn:E; cbn [fst snd]; rewrite ?E; split; reflexivity.
  - rewrite startExamSession_run.
    destruct (chats_create MODEL_FAST (examChatConfig config) (snd st)) as [[session|e] w1];
      [|split; reflexivity].
    destruct (sendMessage session (firstExamMessage config fileData) w1) as [[r|e] w2];
      split; reflexivity.
  - rewrite sendExamMessage_run. unfold forwarded.
    destruct (examSession (fst st)) eqn:E; cbn [fst snd]; rewrite ?E; split; reflexivity.
Qed.

Lemma after_keeps_exam (c : Call) (st : State W Chat) :
  startsExam c = false ->
  examSession (fst (after chats_create sendMessage c st)) = examSession (fst st)
  /\ examModelUsed (fst (after chats_create sendMessage c st)) = examModelUsed (fst st).
Proof.
  destruct c as [input|message useSearch|config fileData|message]; simpl; intros H;
    [| |discriminate|].
  - rewrite initializeChat_run.
    destruct (chats_create MODEL_FAST chatConfig (snd st)) as [[session|e] w1];
      [|split; reflexivity].
    destruct (sendMessage session (firstChatMessage input) w1) as [[r|e] w2];
      split; reflexivity.
  - rewrite sendChatMessage_run. unfold forwarded.
    destruct (chatSession (fst st)) eqn:E; cbn [fst snd]; rewrite ?E; split; reflexivity.
  - rewrite sendExamMessage_run. unfold forwarded.
    destruct (examSession (fst st)) eqn:E; cbn [fst snd]; rewrite ?E; split; reflexivity.
Qed.

Lemma afterAll_keeps_chat (calls : list Call) (st : State W Chat) :
  existsb startsChat calls = false ->
  chatSession (fst (afterAll chats_create sendMessage calls st)) = chatSession (fst st)
  /\ chatModelUsed (fst (afterAll chats_create sendMessage calls st)) = chatModelUsed (fst st).
Proof.
  revert st. induction calls as [|c calls IH]; intros st H; [split; reflexivity|].
  simpl in H. apply orb_false_iff in H. destruct H as [Hc Hcalls].
  unfold afterAll. simpl. fold (afterAll chats_create sendMessage calls).
  destruct (IH (after chats_create sendMessage c st) Hcalls) as [H1 H2].
  destruct (after_keeps_chat c st Hc) as [H3 H4].
  unfold afterAll in H1, H2. split; congruence.
Qed.

Lemma afterAll_keeps_exam (calls : list Call) (st : State W Chat) :
  existsb startsExam calls = false ->
  examSession (fst (afterAll chats_create sendMessage calls st)) = examSession (fst st)
  /\ examModelUsed (fst (afterAll chats_create sendMessage calls st)) = examModelUsed (fst st).
Proof.
  revert st. induction calls as [|c calls IH]; intros st H; [split; reflexivity|].
  simpl in H. apply orb_false_iff in H. destruct H as [Hc Hcalls].
  unfold afterAll. simpl. fold (afterAll chats_create sendMessage calls).
  destruct (IH (after chats_create sendMessage c st) Hcalls) as [H1 H2].
  destruct (after_keeps_exam c st Hc) as [H3 H4].
  unfold afterAll in H1, H2. split; congruence.
Qed.

(** A start that returns has stored its session and the model it reports. *)
Lemma initializeChat_returned (input : AnalysisInput) (st st1 : State W Chat)
    (r : Tiered GenerateContentResponse) :
  initializeChat chats_create sendMessage input st = (Return r, st1) ->
  exists session, chatSession (fst st1) = Some session /\ chatModelUsed (fst st1) = model r.
Proof.
  rewrite initializeChat_run.
  destruct (chats_create MODEL_FAST chatConfig (snd st)) as [[session|e] w1]; [|discriminate].
  cbv zeta.
  destruct (sendMessage session (firstChatMessage input) w1) as [[result|e] w2];
    [|discriminate].
  intros H. injection H as <- <-. exists session. split; reflexivity.
Qed.

Lemma startExamSession_returned (config : ExamConfig) (fileData : option FileData)
    (st st1 : State W Chat) (r : string * string) :
  startExamSession chats_create sendMessage config fileData st = (Return r, st1) ->
  exists session, examSession (fst st1) = Some session /\ examModelUsed (fst st1) = snd r.
Proof.
  rewrite startExamSession_run.
  destruct (chats_create MODEL_FAST (examChatConfig config) (snd st)) as [[session|e] w1];
    [|discriminate].
  cbv zeta.
  destruct (sendMessage session (firstExamMessage config fileData) w1) as [[result|e] w2];
    [|discriminate].
  intros H. injection H as <- <-. exists session. split; reflexivity.
Qed.

End SessionFacts.

(** C9. A send on a slot fails with the not-initialized error of the slot
    as long as no start was called on it, whatever was called on the other
    slot.  After a start that returned, and until the next start on the
    slot, a send is forwarded to the session that start stored: it returns
    whenever the session answers, with the model the start reported. *)
Theorem session_slots {W Chat : Type}
    (chats_create : string -> Config -> M W Chat)
    (sendMessage : Chat -> list Part -> M W GenerateContentResponse) :
  (forall calls w message useSearch,
      existsb startsChat calls = false ->
      let st := afterAll chats_create sendMessage calls (initialRegistry, w) in
      sendChatMessage sendMessage message useSearch st
      = (Throw (Error "Chat not initialized"), st))
  /\ (forall calls w message,
        existsb startsExam calls = false ->
        let st := afterAll chats_create sendMessage calls (initialRegistry, w) in
        sendExamMessage sendMessage message st = (Throw (Error "Exam not started"), st))
  /\ (forall input st0 r st1 calls message useSearch,
        initializeChat chats_create sendMessage input st0 = (Return r, st1) ->
        existsb startsChat calls = false ->
        let st := afterAll chats_create sendMessage calls st1 in
        exists session,
          chatSession (fst st1) = Some session
          /\ sendChatMessage sendMessage message useSearch st
             = forwarded sendMessage session message (model r) st)
  /\ (forall config fileData st0 r st1 calls message,
        startExamSession chats_create sendMessage config fileData st0 = (Return r, st1) ->
        existsb startsExam calls = false ->
        let st := afterAll chats_create sendMessage calls st1 in
        exists session,
          examSession (fst st1) = Some session
          /\ sendExamMessage sendMessage message st
             = forwarded sendMessage session message (snd r) st)
  /\ (forall session message modelUsed (st : State W Chat) result w',
        sendMessage session [Text message []] (snd st) = (Return result, w') ->
        forwarded sendMessage session message modelUsed st
          = (Return (turnOf result modelUsed), (fst st, w'))
        /\ turn_modelUsed (turnOf result modelUsed) = modelUsed).
Proof.
  split; [|split; [|split; [|split]]].
  - intros calls w message useSearch H st.
    destruct (afterAll_keeps_chat W Chat chats_create sendMessage calls (initialRegistry, w) H)
      as [Hs _].
    rewrite sendChatMessage_run. fold st in Hs. rewrite Hs. reflexivity.
  - intros calls w message H st.
    destruct (afterAll_keeps_exam W Chat chats_create sendMessage calls (initialRegistry, w) H)
      as [Hs _].
    rewrite sendExamMessage_run. fold st in Hs. rewrite Hs. reflexivity.
  - intros input st0 r st1 calls message useSearch Hstart H st.
    destruct (initializeChat_returned W Chat chats_create sendMessage input st0 st1 r Hstart)
      as (session & Hsession & Hmodel).
    destruct (afterAll_keeps_chat W Chat chats_create sendMessage calls st1 H) as [Hs Hm].
    exists session. split; [exact Hsession|].
    rewrite sendChatMessage_run. fold st in Hs, Hm. rewrite Hs, Hm, Hsession, Hmodel.
    reflexivity.
  - intros config fileData st0 r st1 calls message Hstart H st.
    destruct (startExamSession_returned W Chat chats_create sendMessage config fileData
                st0 st1 r Hstart) as (session & Hsession & Hmodel).
    destruct (afterAll_keeps_exam W Chat chats_create sendMessage calls st1 H) as [Hs Hm].
    exists session. split; [exact Hsession|].
    rewrite sendExamMessage_run. fold st in Hs, Hm. rewrite Hs, Hm, Hsession, Hmodel.
    reflexivity.
  - intros session message modelUsed st result w' H. unfold forwarded. rewrite H.
    split; reflexivity.
Qed.

Lemma session_slots_witness :
  (let st := afterAll Fixture.create (Fixture.send Fixture.tutor) Fixture.laterCalls
               (initialRegistry, []) in
   sendChatMessage (Fixture.send Fixture.tutor) "Why?" false st
   = (Throw (Error "Chat not initialized"), st))
  /\ (let st := afterAll Fixture.create (Fixture.send Fixture.tutor) Fixture.laterCalls
                  Fixture.chatStarted in
      exists session,
        chatSession (fst Fixture.chatStarted) = Some session
        /\ sendChatMessage (Fixture.send Fixture.tutor) "And then?" false st
           = forwarded (Fixture.send Fixture.tutor) session "And then?" MODEL_FAST st).
Proof.
  split.
  - exact (proj1 (session_slots Fixture.create (Fixture.send Fixture.tutor))
             Fixture.laterCalls [] "Why?" false eq_refl).
  - exact (proj1 (proj2 (proj2 (session_slots Fixture.create (Fixture.send Fixture.tutor))))
             Fixture.textInput (initialRegistry, [])
             (mkTiered (mkResponse (Some "Hello") None) MODEL_FAST)
             Fixture.chatStarted Fixture.laterCalls "And then?" false eq_refl eq_refl).
Defined.

(** C10. A start is not atomic.  When the session is created and its first
    message throws, the start fails, yet the slot holds the new session and
    the model, whatever session it held before; a send on the slot is then
    forwarded to that session and does not raise the not-initialized
    error. *)
Theorem start_not_atomic {W Chat : Type}
    (chats_create : string -> Config -> M W Chat)
    (sendMessage : Chat -> list Part -> M W GenerateContentResponse) :
  (forall input (st : State W Chat) session w1 e w2,
      chats_create MODEL_FAST chatConfig (snd st) = (Return session, w1) ->
      sendMessage session (firstChatMessage input) w1 = (Throw e, w2) ->
      let st' := (set_chatModelUsed MODEL_FAST (set_chatSession session (fst st)), w2) in
      initializeChat chats_create sendMessage input st
        = (Throw (if isQuota e then Error "QUOTA_EXCEEDED" else e), st')
      /\ chatSession (fst st') = Some session
      /\ chatModelUsed (fst st') = MODEL_FAST
      /\ forall message useSearch,
           sendChatMessage sendMessage message useSearch st'
           = forwarded sendMessage session message MODEL_FAST st')
  /\ (forall config fileData (st : State W Chat) session w1 e w2,
        chats_create MODEL_FAST (examChatConfig config) (snd st) = (Return session, w1) ->
        sendMessage session (firstExamMessage config fileData) w1 = (Throw e, w2) ->
        let st' := (set_examModelUsed MODEL_FAST (set_examSession session (fst st)), w2) in
        startExamSession chats_create sendMessage config fileData st
          = (Throw (if isQuota e then Error "QUOTA_EXCEEDED" else e), st')
        /\ examSession (fst st') = Some session
        /\ examModelUsed (fst st') = MODEL_FAST
        /\ forall message,
             sendExamMessage sendMessage message st'
             = forwarded sendMessage session message MODEL_FAST st').
Proof.
  split.
  - intros input st session w1 e w2 Hc Hs st'.
    split; [|split; [|split]]; try reflexivity.
    + rewrite initializeChat_run, Hc. cbv zeta. rewrite Hs. reflexivity.
    + intros message useSearch. rewrite sendChatMessage_run. reflexivity.
  - intros config fileData st session w1 e w2 Hc Hs st'.
    split; [|split; [|split]]; try reflexivity.
    + rewrite startExamSession_run, Hc. cbv zeta. rewrite Hs. reflexivity.
    + intros message. rewrite sendExamMessage_run. reflexivity.
Qed.

Lemma start_not_atomic_witness :
  initializeChat Fixture.create (Fixture.send Fixture.failsFirst) Fixture.textInput
    Fixture.earlier
  = (Throw Fixture.networkError,
     (mkRegistry (Some O) MODEL_FAST (Some 8%nat) MODEL_FAST,
      [("create: " ++ MODEL_FAST)%string; "send: Context."]))
  /\ sendChatMessage (Fixture.send Fixture.failsFirst) "Why?" false
       (mkRegistry (Some O) MODEL_FAST (Some 8%nat) MODEL_FAST,
        [("create: " ++ MODEL_FAST)%string; "send: Context."])
     = (Return (mkTurn "Hello" None MODEL_FAST),
        (mkRegistry (Some O) MODEL_FAST (Some 8%nat) MODEL_FAST,
         [("create: " ++ MODEL_FAST)%string; "send: Context."; "send: Why?"])).
Proof.
  pose proof (proj1 (start_not_atomic Fixture.create (Fixture.send Fixture.failsFirst))
                Fixture.textInput Fixture.earlier O
                [("create: " ++ MODEL_FAST)%string] Fixture.networkError
                [("create: " ++ MODEL_FAST)%string; "send: Context."]
                eq_refl eq_refl) as (Hstart & _ & _ & Hsend).
  split; [exact Hstart | exact (Hsend "Why?" false)].
Defined.

(** * Further properties of the service *)

(** ** The tiered caller, for any operation *)

(** X1. [callAI] invokes the operation once, on the primary model, or twice,
    on the primary and then on the fallback model; the second invocation
    happens only when a fallback is configured and the primary threw a
    quota-classified error or an error whose message is [QUOTA_EXCEEDED]. *)
Theorem callAI_invocations {St T : Type} (op : string) (apiCall : string -> M St T)
    (primary : string) (fallback : option string) (s : St) :
  let log := snd (snd (callAI op (traced apiCall) primary fallback (s, []))) in
  log = [primary]
  \/ (exists fb e s1,
        fallback = Some fb /\ fb <> EmptyString
        /\ apiCall primary s = (Throw e, s1)
        /\ (isQuota e = true \/ err_message e = "QUOTA_EXCEEDED")
        /\ log = [primary; fb]).
Proof.
  cbv zeta. unfold callAI, tryCatchM. rewrite attemptCall_traced.
  rewrite (attemptCall_outcome apiCall primary s).
  destruct (apiCall primary s) as [[v|e] s1] eqn:Ep; cbn [fst snd]; [left; reflexivity|].
  destruct (String.eqb (err_message (if isQuota e then Error "QUOTA_EXCEEDED" else e))
                       "QUOTA_EXCEEDED" && configured fallback) eqn:Eh;
    [|left; reflexivity].
  apply andb_true_iff in Eh. destruct Eh as [Hm Hc].
  destruct fallback as [fb|]; [|discriminate]. simpl in Hc.
  right. exists fb, e, s1. split; [reflexivity|]. split.
  - apply negb_true_iff, String.eqb_neq in Hc. exact Hc.
  - split; [reflexivity|]. split.
    + destruct (isQuota e); [left; reflexivity|right]. now apply String.eqb_eq.
    + rewrite attemptCall_traced. reflexivity.
Qed.

(** X2. When the primary invocation returns, [callAI] returns its value
    with the primary model and the operation has been invoked once: the
    fallback is not consulted. *)
Theorem callAI_primary_success {St T : Type} (op : string) (apiCall : string -> M St T)
    (primary : string) (fallback : option string) (s s1 : St) (v : T) :
  apiCall primary s = (Return v, s1) ->
  callAI op (traced apiCall) primary fallback (s, [])
  = (Return (mkTiered v primary), (s1, [primary])).
Proof.
  intros H. unfold callAI, tryCatchM. rewrite attemptCall_traced.
  rewrite (attemptCall_outcome apiCall primary s), H. reflexivity.
Qed.

Lemma callAI_primary_success_witness :
  callAI "Math Lab" (traced Fixture.quotaThenAnswer) MODEL_FAST (Some MODEL_SMART) (tt, [])
  = (Return (mkTiered 7 MODEL_FAST), (tt, [MODEL_FAST])).
Proof.
  exact (callAI_primary_success "Math Lab" Fixture.quotaThenAnswer MODEL_FAST
           (Some MODEL_SMART) tt tt 7 eq_refl).
Defined.

(** X3. Without a configured fallback, a quota-classified failure of the
    primary leaves [callAI] as a new error with the message
    [QUOTA_EXCEEDED]: the error of the provider, with its status and its
    message, is not what the caller receives. *)
Theorem callAI_quota_without_fallback {St T : Type} (op : string)
    (apiCall : string -> M St T) (primary : string) (fallback : option string)
    (s s1 : St) (e : JsError) :
  apiCall primary s = (Throw e, s1) ->
  isQuota e = true ->
  configured fallback = false ->
  callAI op (traced apiCall) primary fallback (s, [])
  = (Throw (Error "QUOTA_EXCEEDED"), (s1, [primary])).
Proof.
  intros Hp Hq Hc. unfold callAI, tryCatchM. rewrite attemptCall_traced.
  rewrite (attemptCall_throws apiCall primary s s1 e Hp), Hq. cbn [fst snd].
  rewrite Hc, andb_false_r. reflexivity.
Qed.

Lemma callAI_quota_without_fallback_witness :
  callAI "Exam Audit" (traced Fixture.quotaThenAnswer) MODEL_SMART None (tt, [])
  = (Throw (Error "QUOTA_EXCEEDED"), (tt, [MODEL_SMART])).
Proof.
  exact (callAI_quota_without_fallback "Exam Audit" Fixture.quotaThenAnswer MODEL_SMART
           None tt tt Fixture.quotaError eq_refl eq_refl eq_refl).
Defined.

(** Whatever [callAI] returns is tagged with the primary or with the
    fallback model. *)
Lemma callAI_model {St T : Type} (op : string) (apiCall : string -> M St T)
    (primary : string) (fallback : option string) (s s' : St) (r : Tiered T) :
  callAI op apiCall primary fallback s = (Return r, s') ->
  model r = primary \/ fallback = Some (model r).
Proof.
  unfold callAI, tryCatchM. rewrite (attemptCall_outcome apiCall primary s).
  destruct (apiCall primary s) as [[v|e] s1]; cbn [fst snd].
  - intros H. injection H as <- _. left. reflexivity.
  - destruct (String.eqb (err_message (if isQuota e then Error "QUOTA_EXCEEDED" else e))
                         "QUOTA_EXCEEDED" && configured fallback) eqn:Eh.
    + apply andb_true_iff in Eh. destruct Eh as [_ Hc].
      destruct fallback as [fb|]; [|discriminate].
      rewrite (attemptCall_outcome apiCall fb s1).
      destruct (apiCall fb s1) as [[v|e2] s2]; cbn [fst snd]; [|discriminate].
      intros H. injection H as <- _. right. reflexivity.
    + discriminate.
Qed.

(** ** The response sanitizer on texts without an object *)

(** X4. On a non-empty text without an opening brace, or without a closing
    brace, [cleanAndParseJSON] returns whatever [JSON.parse] gives for the
    trimmed text without its fence - an array, a number, a string, [null] -
    and the empty object when that does not parse: the result is not always
    an object. *)
Theorem cleanAndParseJSON_without_braces (parse : string -> outcome value) (t : string) :
  t <> EmptyString ->
  find_first "{" t = None \/ find_last "}" t = None ->
  cleanAndParseJSON parse (Some t)
  = match parse (looseText t) with
    | Return v => Return v
    | Throw _ => Return (VObj [])
    end.
Proof.
  intros Hne Hb. rewrite cleanAndParseJSON_nonempty by exact Hne.
  assert (Hc : rigorousCandidate t = None).
  { unfold rigorousCandidate, indexOf, lastIndexOf.
    destruct Hb as [H|H]; rewrite H; simpl; [reflexivity|].
    now rewrite andb_false_r. }
  rewrite Hc. simpl. destruct (parse (looseText t)); reflexivity.
Qed.

Lemma cleanAndParseJSON_without_braces_witness :
  cleanAndParseJSON Json.parse (Some (lit " [1, 'two', null] "))
  = Return (VArr [VNum 1; VStr "two"; VNull]).
Proof.
  exact (cleanAndParseJSON_without_braces Json.parse (lit " [1, 'two', null] ")
           ltac:(discriminate) (or_introl eq_refl)).
Defined.

(** X5. When the last closing brace comes before the first opening brace,
    [substring] swaps its two bounds: the candidate of the first strategy
    is the text between the two braces, and [cleanAndParseJSON] returns
    what it parses to. *)
Theorem cleanAndParseJSON_reversed_braces (parse : string -> outcome value)
    (a mid b : string) (v : value) :
  find_first "{" (a ++ "}" ++ mid) = None ->
  find_last "}" (mid ++ "{" ++ b) = None ->
  parse mid = Return v ->
  rigorousCandidate (a ++ "}" ++ mid ++ "{" ++ b) = Some mid
  /\ cleanAndParseJSON parse (Some (a ++ "}" ++ mid ++ "{" ++ b)) = Return v.
Proof.
  intros Hfirst Hlast Hv.
  assert (Hc : rigorousCandidate (a ++ "}" ++ mid ++ "{" ++ b) = Some mid).
  { unfold rigorousCandidate, indexOf, lastIndexOf.
    assert (E1 : (a ++ "}" ++ mid ++ "{" ++ b)%string
                 = ((a ++ "}" ++ mid) ++ String "{" b)%string)
      by (rewrite !app_assoc_str; reflexivity).
    assert (F : find_first "{" (a ++ "}" ++ mid ++ "{" ++ b)
                = Some (String.length (a ++ "}" ++ mid)%string))
      by (rewrite E1; apply find_first_app, Hfirst).
    assert (L : find_last "}" (a ++ "}" ++ mid ++ "{" ++ b) = Some (String.length a))
      by (apply (find_last_app "}" a (mid ++ "{" ++ b)), Hlast).
    rewrite F, L. unfold pos_or_minus1.
    destruct (Z.eqb_spec (Z.of_nat (String.length (a ++ "}" ++ mid)%string)) (-1)) as [X|_];
      [lia|].
    destruct (Z.eqb_spec (Z.of_nat (String.length a)) (-1)) as [X|_]; [lia|].
    cbn [negb andb]. f_equal. unfold substring, clamp.
    rewrite !length_app. cbn [String.length]. rewrite ?length_app. cbn [String.length].
    rewrite Nat2Z.id.
    replace (Z.to_nat (Z.of_nat (String.length a) + 1)) with (S (String.length a)) by lia.
    match goal with
    | |- String.substring ?n ?m _ = _ =>
        replace m with (String.length mid) by lia;
        replace n with (String.length (a ++ "}")%string)
          by (rewrite length_app; cbn [String.length]; lia)
    end.
    replace (a ++ "}" ++ mid ++ "{" ++ b)%string with ((a ++ "}") ++ mid ++ "{" ++ b)%string
      by (rewrite app_assoc_str; reflexivity).
    apply substring_middle. }
  split; [exact Hc|].
  rewrite cleanAndParseJSON_nonempty by (destruct a; discriminate).
  now rewrite Hc, Hv.
Qed.

Lemma cleanAndParseJSON_reversed_braces_witness :
  cleanAndParseJSON Json.parse (Some "done} 5 {next") = Return (VNum 5).
Proof.
  exact (proj2 (cleanAndParseJSON_reversed_braces Json.parse "done" " 5 " "next" (VNum 5)
                  eq_refl eq_refl eq_refl)).
Defined.

(** ** The homework pipeline beyond the merge *)

Section HomeworkFacts.

Variable W : Type.
Variable generateContent : string -> Request -> M W GenerateContentResponse.
Variable JSON_parse : string -> outcome value.
Variable ToNumber_ext : value -> option Z.

Lemma mergeLoop_length (fixed problems : list value) :
  List.length (fst (mergeLoop fixed problems)) = List.length problems.
Proof.
  revert problems. induction fixed as [|f rest IH]; intros problems; [reflexivity|].
  simpl. destruct (findIndex (sameProblem f) problems) as [[i|]|e]; [| |reflexivity].
  - rewrite IH. apply replaceAt_length.
  - apply IH.
Qed.

(** The step gives the sequence it got, or what the merge loop has made
    of it. *)
Lemma refineProblems_shape (inputParts : list Part) (toRefine problems : list value) (w : W) :
  fst (refineProblems generateContent JSON_parse ToNumber_ext inputParts toRefine problems w)
    = Return problems
  \/ exists l,
       fst (refineProblems generateContent JSON_parse ToNumber_ext inputParts toRefine
              problems w)
       = Return (fst (mergeLoop l problems)).
Proof.
  unfold refineProblems.
  destruct (0 <? Z.of_nat (List.length toRefine)); [|left; reflexivity].
  unfold tryCatchM, refinementAttempt, bind, lift, ret.
  destruct (refinementCall generateContent inputParts toRefine w) as [[refineRes|e] w'];
    [|left; reflexivity].
  destruct (cleanAndParseJSON JSON_parse (text (output refineRes))) as [refinedData|e];
    [|left; reflexivity].
  destruct (get refinedData "problems") as [fixed|e]; [|left; reflexivity].
  destruct (truthy fixed); [|left; reflexivity].
  destruct (get fixed "length") as [len|e]; [|left; reflexivity].
  destruct (ToPrimitive len) as [n|e]; [|left; reflexivity].
  destruct (js_lt ToNumber_ext (VNum 0) n); [|left; reflexivity].
  destruct (asArray fixed) as [l|e]; [|left; reflexivity].
  right. exists l. reflexivity.
Qed.

Lemma toProblemAnalysis_id (subject topic : value) (index : nat) (p : value)
    (r : ProblemAnalysis) :
  toProblemAnalysis subject topic index p = Return r -> id r = Z.of_nat index + 1.
Proof.
  unfold toProblemAnalysis, bindO.
  destruct (readable p) eqn:Hp.
  - rewrite !(get_readable p _ Hp).
    destruct (truthy (get_opt p "validation_check")) eqn:Et.
    + rewrite !(get_readable _ _ (truthy_readable _ Et)). intros H. now injection H as <-.
    + intros H. now injection H as <-.
  - destruct p; try discriminate; simpl; discriminate.
Qed.

Lemma mapO_ids (subject topic : value) (index : nat) (l : list value)
    (final : list ProblemAnalysis) :
  mapO (toProblemAnalysis subject topic) index l = Return final ->
  map id final = map (fun k => Z.of_nat k + 1) (seq index (List.length l)).
Proof.
  revert index final. induction l as [|p l IH]; intros index final H; simpl in H.
  - injection H as <-. reflexivity.
  - destruct (toProblemAnalysis subject topic index p) as [r|e] eqn:Er; [|discriminate].
    simpl in H.
    destruct (mapO (toProblemAnalysis subject topic) (S index) l) as [rest|e] eqn:Em;
      [|discriminate].
    injection H as <-. simpl.
    rewrite (toProblemAnalysis_id _ _ _ _ _ Er), (IH (S index) rest Em). reflexivity.
Qed.

Lemma analysisStages_calls (input : AnalysisInput) :
  analysisStages generateContent JSON_parse input
  = (tuningRes <- tuningCall generateContent (inputPartsOf input) ;;
     contextData <- lift (cleanAndParseJSON JSON_parse (text (output tuningRes))) ;;
     subject <- lift (get contextData "subject") ;;
     topic <- lift (get contextData "topic") ;;
     has_student_solution <- lift (get contextData "has_student_solution") ;;
     grading_rules <- lift (get contextData "grading_rules") ;;
     subjectText <- lift (ToPrimitive subject) ;;
     rules <- lift (rulesText grading_rules) ;;
     analysisRes <- deepAnalysisCall generateContent (inputPartsOf input) subjectText rules ;;
     rawResponse <- lift (cleanAndParseJSON JSON_parse (text (output analysisRes))) ;;
     rawProblems <- lift (problemsOf rawResponse) ;;
     original <- lift (asArray rawProblems) ;;
     ret (mkAnalysis (inputPartsOf input) subject topic has_student_solution
            (model analysisRes) original)).
Proof. reflexivity. Qed.

End HomeworkFacts.

(** X6. The selection keeps a readable record for refinement when it has no
    [validation_check], and when the status is ['warning'] whatever the
    score; with another status and a numeric score [n], it keeps the record
    exactly when [n < 80]: 79 is refined, 80 is not. *)
Theorem needsRefinement_threshold (ToNumber_ext : value -> option Z) :
  (forall p, readable p = true ->
             truthy (get_opt p "validation_check") = false ->
             needsRefinement ToNumber_ext p = Return true)
  /\ (forall p vc, get p "validation_check" = Return vc ->
                   get_opt vc "status" = VStr "warning" ->
                   needsRefinement ToNumber_ext p = Return true)
  /\ (forall p vc n, get p "validation_check" = Return vc ->
                     strict_eq (get_opt vc "status") (VStr "warning") = false ->
                     get_opt vc "confidence_score" = VNum n ->
                     needsRefinement ToNumber_ext p = Return (n <? 80)).
Proof.
  split; [|split].
  - intros p Hp Hvc. unfold needsRefinement, bindO. rewrite (get_readable p _ Hp).
    destruct (get_opt p "validation_check") as [| |[|]|n|s|l|kvs]; try discriminate;
      reflexivity.
  - intros p vc Hvc Hs. unfold needsRefinement, bindO. rewrite Hvc, Hs. reflexivity.
  - intros p vc n Hvc Hs Hn. unfold needsRefinement, bindO. rewrite Hvc, Hs, Hn.
    unfold js_lt. simpl truthy. destruct (Z.eqb_spec n 0) as [->|Hn0]; reflexivity.
Qed.

Lemma needsRefinement_threshold_witness :
  needsRefinement Fixture.noNumber (Fixture.record "Q1" 79) = Return true
  /\ needsRefinement Fixture.noNumber (Fixture.record "Q1" 80) = Return false.
Proof.
  split.
  - exact (proj2 (proj2 (needsRefinement_threshold Fixture.noNumber))
             (Fixture.record "Q1" 79) _ 79 eq_refl eq_refl eq_refl).
  - exact (proj2 (proj2 (needsRefinement_threshold Fixture.noNumber))
             (Fixture.record "Q1" 80) _ 80 eq_refl eq_refl eq_refl).
Defined.

(** X7. The refinement step never changes the number of problems: whatever
    the refinement stage answers, and even when the merge loop throws on
    the way, the sequence after the step is as long as the sequence before
    it. *)
Theorem refineProblems_keeps_length {W : Type}
    (generateContent : string -> Request -> M W GenerateContentResponse)
    (JSON_parse : string -> outcome value) (ToNumber_ext : value -> option Z)
    (inputParts : list Part) (toRefine problems : list value) (w : W) :
  exists l,
    fst (refineProblems generateContent JSON_parse ToNumber_ext inputParts toRefine problems w)
    = Return l
    /\ List.length l = List.length problems.
Proof.
  destruct (refineProblems_shape W generateContent JSON_parse ToNumber_ext inputParts
              toRefine problems w) as [H|[l H]]; rewrite H.
  - exists problems. split; reflexivity.
  - eexists. split; [reflexivity | apply mergeLoop_length].
Qed.

(** X8. When [analyzeHomework] returns, its response has one problem for
    every record of the deep analysis, numbered 1, 2, 3, ... in their
    order, and reports the model of the deep analysis stage, whatever the
    refinement did. *)
Theorem analyzeHomework_numbering {W : Type}
    (generateContent : string -> Request -> M W GenerateContentResponse)
    (JSON_parse : string -> outcome value) (ToNumber_ext : value -> option Z)
    (input : AnalysisInput) (w0 w w' : W) (a : Analysis) (r : HomeworkResponse) :
  analysisStages generateContent JSON_parse input w0 = (Return a, w) ->
  analyzeHomework generateContent JSON_parse ToNumber_ext input w0 = (Return r, w') ->
  map id (problems r)
    = map (fun k => Z.of_nat k + 1) (seq 0 (List.length (an_problems a)))
  /\ modelUsed r = an_model a.
Proof.
  intros Hstages. unfold analyzeHomework, bind, lift, ret. rewrite Hstages.
  destruct (filterO (needsRefinement ToNumber_ext) (an_problems a)) as [toRefine|e];
    [|discriminate].
  destruct (refineProblems_keeps_length generateContent JSON_parse ToNumber_ext
              (an_inputParts a) toRefine (an_problems a) w) as (l & Hl & Hlen).
  destruct (refineProblems generateContent JSON_parse ToNumber_ext (an_inputParts a)
              toRefine (an_problems a) w) as [o w1].
  cbn [fst] in Hl. subst o.
  destruct (mapO (toProblemAnalysis (an_subject a) (an_topic a)) 0 l) as [final|e] eqn:Em;
    [|discriminate].
  intros H. injection H as <- _. cbn [problems modelUsed].
  split; [|reflexivity]. rewrite <- Hlen. exact (mapO_ids _ _ O l final Em).
Qed.

Lemma analyzeHomework_numbering_witness :
  exists r w',
    analyzeHomework (Fixture.generate (Fixture.homeworkScript Fixture.refined)) Json.parse
      Fixture.noNumber Fixture.textInput [] = (Return r, w')
    /\ map id (problems r) = [1; 2; 3]
    /\ modelUsed r = MODEL_SMART.
Proof.
  destruct (analyzeHomework (Fixture.generate (Fixture.homeworkScript Fixture.refined))
              Json.parse Fixture.noNumber Fixture.textInput []) as [[r|e] w'] eqn:E;
    [|vm_compute in E; discriminate].
  exists r, w'. split; [reflexivity|].
  exact (analyzeHomework_numbering
           (Fixture.generate (Fixture.homeworkScript Fixture.refined)) Json.parse
           Fixture.noNumber Fixture.textInput [] Sample.afterTwoStages w'
           Fixture.analysis r eq_refl E).
Defined.

Section MergeMore.

Lemma mergeLoop_app (good tail problems : list value) :
  forallb readable good = true -> forallb readable problems = true ->
  mergeLoop (good ++ tail) problems = mergeLoop tail (mergeSpec good problems).
Proof.
  revert problems. induction good as [|f good IH]; intros problems Hg Hp; [reflexivity|].
  simpl in Hg. apply andb_true_iff in Hg. destruct Hg as [Hf Hg].
  simpl. rewrite (findIndex_firstMatch f problems Hf Hp).
  destruct (firstMatch f problems) as [i|].
  - apply IH; [exact Hg|]. now apply replaceAt_readable.
  - now apply IH.
Qed.

Lemma mergeLoop_null (rest problems : list value) :
  forallb readable problems = true -> problems <> [] ->
  mergeLoop (VNull :: rest) problems
  = (problems, Throw (TypeError "Cannot read properties of undefined or null")).
Proof.
  intros Hp Hne. destruct problems as [|p ps]; [congruence|].
  simpl in Hp. apply andb_true_iff in Hp. destruct Hp as [Hp _].
  simpl. unfold sameProblem, bindO. rewrite (get_readable p _ Hp). reflexivity.
Qed.

Lemma strict_eq_right_refl (a b : value) : strict_eq a b = true -> strict_eq b b = true.
Proof.
  destruct a, b; simpl; try discriminate; intros H; try reflexivity.
  - now destruct b.
  - apply Z.eqb_refl.
  - apply String.eqb_refl.
Qed.

Lemma matches_own_merge (kvs : list (string * value)) (p : value) :
  matchesRecord (VObj kvs) p = true ->
  matchesRecord (VObj kvs) (mergedRecord (VObj kvs)) = true.
Proof.
  unfold matchesRecord. intros H. apply orb_true_iff in H. apply orb_true_iff.
  assert (G : forall k, k <> "validation" ->
                get_opt (mergedRecord (VObj kvs)) k = get_opt (VObj kvs) k).
  { intros k Hk. unfold get_opt. rewrite (mergedRecord_field (VObj kvs) k Hk). reflexivity. }
  rewrite !G by discriminate.
  destruct H as [H|H]; [left|right]; exact (strict_eq_right_refl _ _ H).
Qed.

Lemma firstMatch_replaceAt (f m : value) (problems : list value) (i : nat) :
  firstMatch f problems = Some i ->
  matchesRecord f m = true ->
  firstMatch f (replaceAt i m problems) = Some i.
Proof.
  revert i. induction problems as [|p ps IH]; intros i H Hm; simpl in H; [discriminate|].
  destruct (matchesRecord f p) eqn:E.
  - injection H as <-. simpl. now rewrite Hm.
  - destruct (firstMatch f ps) as [j|] eqn:F; [|discriminate].
    injection H as <-. simpl. rewrite E, (IH j eq_refl Hm). reflexivity.
Qed.

Lemma replaceAt_twice (i : nat) (m : value) (l : list value) :
  replaceAt i m (replaceAt i m l) = replaceAt i m l.
Proof.
  revert i. induction l as [|x l IH]; intros i; [reflexivity|].
  destruct i; simpl; [reflexivity | now rewrite IH].
Qed.

End MergeMore.

(** X9. The merge is not all-or-nothing.  When the array of the refinement
    holds readable corrected records followed by a [null] entry, the
    records before the [null] are merged, the entries after it are not, and
    the error of the [null] stays inside the step. *)
Theorem refineProblems_stops_at_null {W : Type}
    (generateContent : string -> Request -> M W GenerateContentResponse)
    (JSON_parse : string -> outcome value) (ToNumber_ext : value -> option Z)
    (inputParts : list Part) (toRefine problems good rest : list value) (w w' : W)
    (refineRes : Tiered GenerateContentResponse) (refinedData : value) :
  toRefine <> [] ->
  problems <> [] ->
  forallb readable good = true ->
  forallb readable problems = true ->
  refinementCall generateContent inputParts toRefine w = (Return refineRes, w') ->
  cleanAndParseJSON JSON_parse (text (output refineRes)) = Return refinedData ->
  get refinedData "problems" = Return (VArr (good ++ VNull :: rest)) ->
  refineProblems generateContent JSON_parse ToNumber_ext inputParts toRefine problems w
  = (Return (mergeSpec good problems), w').
Proof.
  intros Hne Hpne Hg Hp Hcall Hparse Hget.
  destruct (good ++ VNull :: rest)%list as [|x l] eqn:E.
  { destruct good; discriminate. }
  rewrite (refineProblems_merges W generateContent JSON_parse ToNumber_ext inputParts
             toRefine problems w w' refineRes refinedData x l Hne Hcall Hparse Hget).
  rewrite <- E, (mergeLoop_app good (VNull :: rest) problems Hg Hp).
  rewrite mergeLoop_null; [reflexivity| |].
  - clear - Hg Hp. revert problems Hp. induction good as [|f good IH]; intros problems Hp;
      [exact Hp|].
    simpl in Hg. apply andb_true_iff in Hg. destruct Hg as [Hf Hg]. simpl.
    apply (IH Hg). destruct (firstMatch f problems); [|exact Hp].
    now apply replaceAt_readable.
  - intros Hnil. apply (f_equal (@List.length value)) in Hnil.
    rewrite mergeSpec_length in Hnil. destruct problems; [congruence | discriminate].
Qed.

Lemma refineProblems_stops_at_null_witness :
  refineProblems (Fixture.generate (Fixture.homeworkScript Sample.refinedThenNull))
    Json.parse Fixture.noNumber (an_inputParts Fixture.analysis)
    [Fixture.answered "Q2" "2" 60] (an_problems Fixture.analysis) Sample.afterTwoStages
  = (Return [Fixture.answered "Q1" "1" 95; mergedRecord Sample.correctedSecond;
             Fixture.answered "Q3" "3" 90],
     (Sample.afterTwoStages ++ [(MODEL_SMART ++ ": refinePrompt")%string])%list).
Proof.
  exact (refineProblems_stops_at_null
           (Fixture.generate (Fixture.homeworkScript Sample.refinedThenNull))
           Json.parse Fixture.noNumber (an_inputParts Fixture.analysis)
           [Fixture.answered "Q2" "2" 60] (an_problems Fixture.analysis)
           [Sample.correctedSecond] [Sample.correctedThird] Sample.afterTwoStages _ _ _
           ltac:(discriminate) ltac:(discriminate) eq_refl eq_refl eq_refl eq_refl eq_refl).
Defined.

(** X10. Merging the same corrected object twice gives what merging it once
    gives: the second pass finds the record the first pass has written and
    writes it again. *)
Theorem merge_idempotent (kvs : list (string * value)) (problems : list value) :
  forallb readable problems = true ->
  mergeLoop [VObj kvs; VObj kvs] problems = mergeLoop [VObj kvs] problems.
Proof.
  intros Hp.
  rewrite (mergeLoop_mergeSpec [VObj kvs; VObj kvs] problems eq_refl Hp).
  rewrite (mergeLoop_mergeSpec [VObj kvs] problems eq_refl Hp).
  f_equal. simpl.
  destruct (firstMatch (VObj kvs) problems) as [i|] eqn:E.
  - destruct (firstMatch_some _ _ _ E) as ((p & _ & Hm) & _ & _).
    rewrite (firstMatch_replaceAt _ _ _ _ E (matches_own_merge kvs p Hm)).
    apply replaceAt_twice.
  - rewrite E. reflexivity.
Qed.

Lemma merge_idempotent_witness :
  mergeLoop [Sample.correctedSecond; Sample.correctedSecond] (an_problems Fixture.analysis)
  = mergeLoop [Sample.correctedSecond] (an_problems Fixture.analysis).
Proof.
  exact (merge_idempotent _ (an_problems Fixture.analysis) eq_refl).
Defined.

(** X11. When the outputs of the tuning stage and of the deep analysis both
    sanitize to the empty object, as unparseable text does, [analyzeHomework]
    returns a response without problems: the deep analysis has been asked
    with an undefined subject and the standard grading rule, and no
    refinement call is made. *)
Theorem analyzeHomework_unparseable {W : Type}
    (generateContent : string -> Request -> M W GenerateContentResponse)
    (JSON_parse : string -> outcome value) (ToNumber_ext : value -> option Z)
    (input : AnalysisInput) (w0 w1 w2 : W)
    (tuningRes analysisRes : Tiered GenerateContentResponse) :
  tuningCall generateContent (inputPartsOf input) w0 = (Return tuningRes, w1) ->
  cleanAndParseJSON JSON_parse (text (output tuningRes)) = Return (VObj []) ->
  deepAnalysisCall generateContent (inputPartsOf input) VUndefined (VStr "Standard grading") w1
    = (Return analysisRes, w2) ->
  cleanAndParseJSON JSON_parse (text (output analysisRes)) = Return (VObj []) ->
  analyzeHomework generateContent JSON_parse ToNumber_ext input w0
  = (Return (mkHomework VUndefined (model analysisRes) []), w2).
Proof.
  intros Ht Hpt Hd Hpd.
  unfold analyzeHomework. rewrite analysisStages_calls. unfold bind, lift, ret.
  rewrite Ht, Hpt. cbn [get Obj.lookup rulesText truthy ToPrimitive convertible].
  rewrite Hd, Hpd. reflexivity.
Qed.

Lemma analyzeHomework_unparseable_witness :
  analyzeHomework (Fixture.generate Sample.prose) Json.parse Fixture.noNumber
    Fixture.textInput []
  = (Return (mkHomework VUndefined MODEL_SMART []), Sample.afterTwoStages).
Proof.
  exact (analyzeHomework_unparseable (Fixture.generate Sample.prose) Json.parse
           Fixture.noNumber Fixture.textInput [] [(MODEL_FAST ++ ": tuningPrompt")%string]
           Sample.afterTwoStages
           (mkTiered (mkResponse (Some "I am sorry, I cannot help with that.") None) MODEL_FAST)
           (mkTiered (mkResponse (Some "I am sorry, I cannot help with that.") None) MODEL_SMART)
           eq_refl eq_refl eq_refl eq_refl).
Defined.

(** X12. An output of the deep analysis that parses to [null], or to a
    number, a string or a boolean, is not sanitized away.  Whatever the
    tuning stage has found, once the deep analysis has been asked and has
    answered so, [analyzeHomework] throws a [TypeError] after the two calls,
    and makes no further call. *)
Theorem analyzeHomework_non_object {W : Type}
    (generateContent : string -> Request -> M W GenerateContentResponse)
    (JSON_parse : string -> outcome value) (ToNumber_ext : value -> option Z)
    (input : AnalysisInput) (w0 w1 w2 : W)
    (tuningRes analysisRes : Tiered GenerateContentResponse)
    (contextData rules rawResponse : value) :
  tuningCall generateContent (inputPartsOf input) w0 = (Return tuningRes, w1) ->
  cleanAndParseJSON JSON_parse (text (output tuningRes)) = Return contextData ->
  readable contextData = true ->
  convertible (get_opt contextData "subject") = true ->
  rulesText (get_opt contextData "grading_rules") = Return rules ->
  deepAnalysisCall generateContent (inputPartsOf input) (get_opt contextData "subject") rules w1
    = (Return analysisRes, w2) ->
  cleanAndParseJSON JSON_parse (text (output analysisRes)) = Return rawResponse ->
  match rawResponse with VObj _ | VArr _ => False | _ => True end ->
  exists msg,
    analyzeHomework generateContent JSON_parse ToNumber_ext input w0
    = (Throw (TypeError msg), w2).
Proof.
  intros Ht Hpt Hctx Hsub Hrules Hd Hpd Hraw.
  unfold analyzeHomework. rewrite analysisStages_calls. unfold bind, lift, ret.
  rewrite Ht, Hpt, !(get_readable contextData _ Hctx).
  rewrite (ToPrimitive_convertible _ Hsub), Hrules, Hd, Hpd.
  destruct rawResponse; try contradiction; eexists; reflexivity.
Qed.

Lemma analyzeHomework_non_object_witness :
  exists msg,
    analyzeHomework (Fixture.generate Sample.tunedThenNull) Json.parse Fixture.noNumber
      Fixture.textInput []
    = (Throw (TypeError msg), Sample.afterTwoStages).
Proof.
  exact (analyzeHomework_non_object (Fixture.generate Sample.tunedThenNull) Json.parse
           Fixture.noNumber Fixture.textInput [] [(MODEL_FAST ++ ": tuningPrompt")%string]
           Sample.afterTwoStages
           (mkTiered (mkResponse (Some (lit Sample.tuned)) None) MODEL_FAST)
           (mkTiered (mkResponse (Some "null") None) MODEL_SMART)
           (VObj [("subject", VStr "Algebra"); ("topic", VStr "Equations");
                  ("has_student_solution", VBool true);
                  ("grading_rules", VArr [VStr "r1"])])
           (VArr [VStr "r1"]) VNull
           eq_refl eq_refl eq_refl eq_refl eq_refl eq_refl eq_refl I).
Defined.

(** ** The math pipeline beyond the resolution *)

(** X13. A solve-stage output that sanitizes to [null] makes
    [solveMathWithCode] throw a [TypeError] when it reads the explanation:
    the verification call is not made and the error is not caught. *)
Theorem solveMathWithCode_null_output {W : Type}
    (generateContent : string -> Request -> M W GenerateContentResponse)
    (JSON_parse : string -> outcome value)
    (problem : string) (verifiedLatex : option string) (useSearch : bool)
    (history : list string) (w0 w : W)
    (sources : list WebSource) (res : Tiered GenerateContentResponse) (fp : value) :
  solveStage generateContent JSON_parse problem verifiedLatex useSearch history w0
    = (Return (sources, res, fp), w) ->
  readable fp = false ->
  exists msg,
    solveMathWithCode generateContent JSON_parse problem verifiedLatex useSearch history w0
    = (Throw (TypeError msg), w).
Proof.
  intros Hs Hfp.
  rewrite (solveMathWithCode_stages W generateContent JSON_parse _ _ _ _ _ _ _ _ _ Hs).
  unfold verifyAndResolve, bind, lift.
  destruct fp; try discriminate; eexists; reflexivity.
Qed.

Lemma solveMathWithCode_null_output_witness :
  exists msg,
    solveMathWithCode (Fixture.generate SampleMath.nullSolve) Json.parse "1+1" None false [] []
    = (Throw (TypeError msg), SampleMath.afterSolve).
Proof.
  exact (solveMathWithCode_null_output (Fixture.generate SampleMath.nullSolve) Json.parse
           "1+1" None false [] [] SampleMath.afterSolve []
           (mkTiered (mkResponse (Some "null") None) MODEL_SMART) VNull eq_refl eq_refl).
Defined.

(** X14. Only the boolean [false] together with a truthy corrected response
    is a repair.  When the verification prompt has been built (the
    explanation and the code of the solve stage convert to text), the
    verification returns and its [valid] is anything
    else - [true], the string ["false"], [0], absent - or its
    [corrected_response] is absent or falsy, the solve-stage output stands
    with [wasAutoRepaired = false]. *)
Theorem verification_strict {W : Type}
    (generateContent : string -> Request -> M W GenerateContentResponse)
    (JSON_parse : string -> outcome value)
    (problem : string) (verifiedLatex : option string) (useSearch : bool)
    (history : list string) (w0 w w' : W)
    (sources : list WebSource) (res verifyRes : Tiered GenerateContentResponse)
    (fp verifyData : value) :
  solveStage generateContent JSON_parse problem verifiedLatex useSearch history w0
    = (Return (sources, res, fp), w) ->
  readable fp = true ->
  convertible (get_opt fp "explanation") = true ->
  convertible (get_opt fp "pythonCode") = true ->
  verificationCall generateContent problem (get_opt fp "explanation")
    (get_opt fp "pythonCode") w = (Return verifyRes, w') ->
  cleanAndParseJSON JSON_parse (text (output verifyRes)) = Return verifyData ->
  get verifyData "valid" <> Return (VBool false)
  \/ truthy (get_opt verifyData "corrected_response") = false ->
  solveMathWithCode generateContent JSON_parse problem verifiedLatex useSearch history w0
  = (Return (mathResult fp (model res) sources false), w').
Proof.
  intros Hs Hfp Hce Hcc Hcall Hparse Hno.
  rewrite (solveMathWithCode_stages W generateContent JSON_parse _ _ _ _ _ _ _ _ _ Hs).
  destruct (verifyAndResolve_cases W generateContent JSON_parse problem sources res fp w Hfp
              Hce Hcc)
    as [(R & Hask & _) | (_ & Heq)]; rewrite Hcall in *; cbn [fst snd] in *.
  - exfalso. destruct Hask as (vr & vd & Hr & Hp & Hv & Hc & Ht).
    injection Hr as <-. rewrite Hparse in Hp. injection Hp as <-.
    destruct Hno as [Hno|Hno]; [exact (Hno Hv)|].
    unfold get_opt in Hno. rewrite Hc in Hno. congruence.
  - exact Heq.
Qed.

Lemma verification_strict_witness :
  solveMathWithCode (Fixture.generate (Fixture.mathScript SampleMath.falseAsText)) Json.parse
    "1+1" None false [] []
  = (Return (mathResult Fixture.firstPass MODEL_SMART [] false),
     (SampleMath.afterSolve ++ [(MODEL_FAST ++ ": verificationPrompt")%string])%list).
Proof.
  refine (verification_strict (Fixture.generate (Fixture.mathScript SampleMath.falseAsText))
            Json.parse "1+1" None false [] [] SampleMath.afterSolve _ [] SampleMath.solved
            (mkTiered (mkResponse
               (Some (lit "{'valid':'false','corrected_response':{'result':'3'}}")) None)
               MODEL_FAST)
            Fixture.firstPass
            (VObj [("valid", VStr "false"); ("corrected_response", VObj [("result", VStr "3")])])
            eq_refl eq_refl eq_refl eq_refl eq_refl eq_refl _).
  left. discriminate.
Defined.

(** X15. Once the verification prompt has been built (the output of the
    solve stage is not [null], and its explanation and code convert to
    text), whatever the verification answers, the result of
    [solveMathWithCode] carries the sources of the grounding stage, and its
    [modelUsed] is the model of the solve stage, followed by [ + Verified]
    exactly when [wasAutoRepaired] is true: a corrected response cannot
    set these three fields. *)
Theorem math_result_provenance {W : Type}
    (generateContent : string -> Request -> M W GenerateContentResponse)
    (JSON_parse : string -> outcome value)
    (problem : string) (verifiedLatex : option string) (useSearch : bool)
    (history : list string) (w0 w : W)
    (sources : list WebSource) (res : Tiered GenerateContentResponse) (fp : value) :
  solveStage generateContent JSON_parse problem verifiedLatex useSearch history w0
    = (Return (sources, res, fp), w) ->
  readable fp = true ->
  convertible (get_opt fp "explanation") = true ->
  convertible (get_opt fp "pythonCode") = true ->
  exists r b,
    fst (solveMathWithCode generateContent JSON_parse problem verifiedLatex useSearch
           history w0) = Return r
    /\ get r "wasAutoRepaired" = Return (VBool b)
    /\ get r "modelUsed"
       = Return (VStr (if b then model res ++ " + Verified" else model res))
    /\ get r "sources" = Return (VArr (map sourceValue sources)).
Proof.
  intros Hs Hfp Hce Hcc.
  rewrite (solveMathWithCode_stages W generateContent JSON_parse _ _ _ _ _ _ _ _ _ Hs).
  destruct (verifyAndResolve_cases W generateContent JSON_parse problem sources res fp w Hfp
              Hce Hcc)
    as [(R & _ & Heq) | (_ & Heq)]; rewrite Heq; cbn [fst].
  - exists (mathResult R (model res ++ " + Verified") sources true), true.
    split; [reflexivity|]. unfold mathResult, get. rewrite !lookup_set.
    repeat split; reflexivity.
  - exists (mathResult fp (model res) sources false), false.
    split; [reflexivity|]. unfold mathResult, get. rewrite !lookup_set.
    repeat split; reflexivity.
Qed.

Lemma math_result_provenance_witness :
  exists r b,
    fst (solveMathWithCode (Fixture.generate SampleMath.groundedScript) Json.parse
           "area of a circle" None true [] []) = Return r
    /\ get r "wasAutoRepaired" = Return (VBool b)
    /\ get r "modelUsed" = Return (VStr (if b then MODEL_SMART ++ " + Verified" else MODEL_SMART))
    /\ get r "sources" = Return (VArr [sourceValue SampleMath.example]).
Proof.
  exact (math_result_provenance (Fixture.generate SampleMath.groundedScript) Json.parse
           "area of a circle" None true [] [] SampleMath.afterGroundedSolve
           [SampleMath.example] SampleMath.solved Fixture.firstPass eq_refl eq_refl
           eq_refl eq_refl).
Defined.

(** ** The session registry beyond the two slots *)

Section RegistryFacts.

Variable W : Type.
Variable Chat : Type.
Variable chats_create : string -> Config -> M W Chat.
Variable sendMessage : Chat -> list Part -> M W GenerateContentResponse.

Lemma after_keeps_fast (c : Call) (st : State W Chat) :
  bothFast W Chat st -> bothFast W Chat (after chats_create sendMessage c st).
Proof.
  intros [Hc He]. unfold bothFast.
  destruct c as [input|message useSearch|config fileData|message]; simpl.
  - rewrite initializeChat_run.
    destruct (chats_create MODEL_FAST chatConfig (snd st)) as [[session|e] w1];
      [|split; assumption].
    destruct (sendMessage session (firstChatMessage input) w1) as [[r|e] w2];
      split; solve [reflexivity | assumption].
  - rewrite sendChatMessage_run. unfold forwarded.
    destruct (chatSession (fst st)); split; assumption.
  - rewrite startExamSession_run.
    destruct (chats_create MODEL_FAST (examChatConfig config) (snd st)) as [[session|e] w1];
      [|split; assumption].
    destruct (sendMessage session (firstExamMessage config fileData) w1) as [[r|e] w2];
      split; solve [reflexivity | assumption].
  - rewrite sendExamMessage_run. unfold forwarded.
    destruct (examSession (fst st)); split; assumption.
Qed.

Lemma afterAll_keeps_fast (calls : list Call) (st : State W Chat) :
  bothFast W Chat st -> bothFast W Chat (afterAll chats_create sendMessage calls st).
Proof.
  revert st. induction calls as [|c calls IH]; intros st H; [exact H|].
  unfold afterAll. simpl. apply IH, after_keeps_fast, H.
Qed.

End RegistryFacts.

(** X16. Whatever the interface calls, and in whatever order, the two
    recorded models stay [MODEL_FAST]: every turn a send returns reports
    [MODEL_FAST]. *)
Theorem registry_models_fast {W Chat : Type}
    (chats_create : string -> Config -> M W Chat)
    (sendMessage : Chat -> list Part -> M W GenerateContentResponse)
    (calls : list Call) (w : W) :
  let st := afterAll chats_create sendMessage calls (initialRegistry, w) in
  chatModelUsed (fst st) = MODEL_FAST
  /\ examModelUsed (fst st) = MODEL_FAST
  /\ (forall message useSearch turn st',
        sendChatMessage sendMessage message useSearch st = (Return turn, st') ->
        turn_modelUsed turn = MODEL_FAST)
  /\ (forall message turn st',
        sendExamMessage sendMessage message st = (Return turn, st') ->
        turn_modelUsed turn = MODEL_FAST).
Proof.
  intros st.
  destruct (afterAll_keeps_fast W Chat chats_create sendMessage calls (initialRegistry, w))
    as [Hc He]; [split; reflexivity|]. fold st in Hc, He.
  split; [exact Hc|]. split; [exact He|]. split.
  - intros message useSearch turn st'. rewrite sendChatMessage_run.
    destruct (chatSession (fst st)) as [session|]; [|discriminate].
    unfold forwarded.
    destruct (fst (sendMessage session [Text message []] (snd st))); [|discriminate].
    intros H. injection H as <- _. exact Hc.
  - intros message turn st'. rewrite sendExamMessage_run.
    destruct (examSession (fst st)) as [session|]; [|discriminate].
    unfold forwarded.
    destruct (fst (sendMessage session [Text message []] (snd st))); [|discriminate].
    intros H. injection H as <- _. exact He.
Qed.

(** X17. When the provider fails to create the session, a start fails and
    leaves the registry as it was: the session the slot held before, if
    any, stays in place. *)
Theorem start_creation_failure {W Chat : Type}
    (chats_create : string -> Config -> M W Chat)
    (sendMessage : Chat -> list Part -> M W GenerateContentResponse) :
  (forall input (st : State W Chat) e w1,
      chats_create MODEL_FAST chatConfig (snd st) = (Throw e, w1) ->
      initializeChat chats_create sendMessage input st
      = (Throw (if isQuota e then Error "QUOTA_EXCEEDED" else e), (fst st, w1)))
  /\ (forall config fileData (st : State W Chat) e w1,
        chats_create MODEL_FAST (examChatConfig config) (snd st) = (Throw e, w1) ->
        startExamSession chats_create sendMessage config fileData st
        = (Throw (if isQuota e then Error "QUOTA_EXCEEDED" else e), (fst st, w1))).
Proof.
  split.
  - intros input st e w1 H. rewrite initializeChat_run, H. reflexivity.
  - intros config fileData st e w1 H. rewrite startExamSession_run, H. reflexivity.
Qed.

Lemma start_creation_failure_witness :
  initializeChat SampleMath.noSession (Fixture.send Fixture.tutor) Fixture.textInput
    Fixture.earlier
  = (Throw Fixture.networkError, Fixture.earlier).
Proof.
  exact (proj1 (start_creation_failure SampleMath.noSession (Fixture.send Fixture.tutor))
           Fixture.textInput Fixture.earlier Fixture.networkError [] eq_refl).
Defined.

(** ** The exam audit *)

(** X18. [auditExamGrading] makes one request, on [MODEL_SMART], and never
    one on the fast model, also when that request fails; it returns the
    sanitized output of the request, so unparseable output gives the empty
    object, and it throws what [callAI] makes of the provider's error. *)
Theorem auditExamGrading_single_call {W : Type}
    (generateContent : string -> Request -> M W GenerateContentResponse)
    (JSON_parse : string -> outcome value) (historyText : string) (w : W) :
  let request := mkRequest [Text "auditPrompt" [VStr historyText]]
                   (jsonConfig (Some "examAuditSchema") None) in
  let run := auditExamGrading (logged generateContent) JSON_parse historyText (w, []) in
  snd (snd run) = [MODEL_SMART]
  /\ fst (snd run) = snd (generateContent MODEL_SMART request w)
  /\ fst run
     = match fst (generateContent MODEL_SMART request w) with
       | Return response => cleanAndParseJSON JSON_parse (text response)
       | Throw e => Throw (if isQuota e then Error "QUOTA_EXCEEDED" else e)
       end.
Proof.
  cbv zeta. unfold auditExamGrading, bind, lift, callAI, tryCatchM.
  rewrite attemptCall_outcome. unfold logged. cbn [fst snd].
  destruct (generateContent MODEL_SMART
              (mkRequest [Text "auditPrompt" [VStr historyText]]
                 (jsonConfig (Some "examAuditSchema") None)) w) as [[response|e] w'];
    cbn [fst snd configured output].
  - repeat split; reflexivity.
  - rewrite andb_false_r. repeat split; reflexivity.
Qed.

(** ** The video functions *)

(** X19. A timestamp outside the range of a [Date] makes both video
    functions throw the [RangeError] of [toISOString] while the prompt is
    built: no request is made. *)
Theorem video_invalid_time {W : Type}
    (generateContent : string -> Request -> M W GenerateContentResponse)
    (JSON_parse : string -> outcome value)
    (frameData youtubeUrl question : string) (timestamp : Z) (factCheck : bool)
    (scope : Scope) (w : W) :
  MAX_TIME_VALUE < Z.abs (timestamp * 1000) ->
  analyzeVideoFrame generateContent JSON_parse frameData question timestamp factCheck w
    = (Throw (mkError "Invalid time value" None "{}"), w)
  /\ analyzeYoutubeSegment generateContent JSON_parse youtubeUrl question timestamp
       factCheck scope w
     = (Throw (mkError "Invalid time value" None "{}"), w).
Proof.
  intros H. unfold analyzeVideoFrame, analyzeYoutubeSegment, bind, lift, timeStringOf.
  replace (Z.abs (timestamp * 1000) <=? MAX_TIME_VALUE) with false
    by (symmetry; apply Z.leb_gt; exact H).
  split; reflexivity.
Qed.

Lemma video_invalid_time_witness :
  analyzeYoutubeSegment (Fixture.generate Sample.prose) Json.parse "https://youtu.be/x"
    "What is shown?" 9000000000000 false AtTimestamp []
  = (Throw (mkError "Invalid time value" None "{}"), []).
Proof.
  exact (proj2 (video_invalid_time (Fixture.generate Sample.prose) Json.parse ""
                  "https://youtu.be/x" "What is shown?" 9000000000000 false AtTimestamp []
                  eq_refl)).
Defined.

Lemma videoAnswerOf_text (JSON_parse : string -> outcome value)
    (res : Tiered GenerateContentResponse) (answer : VideoAnswer) :
  videoAnswerOf JSON_parse res = Return answer ->
  truthy (video_text answer) = true /\ video_modelUsed answer = model res.
Proof.
  unfold videoAnswerOf, bindO.
  destruct (cleanAndParseJSON JSON_parse (text (output res))) as [parsed|e]; [|discriminate].
  destruct (get parsed "transcribed_text"); [|discriminate].
  destruct (get parsed "fact_checks"); [|discriminate].
  destruct (get parsed "analysis") as [analysis|e]; [|discriminate].
  intros H. injection H as <-. cbn [video_text video_modelUsed].
  split; [|reflexivity]. destruct (truthy analysis) eqn:E; [exact E | reflexivity].
Qed.

(** X20. When a video function returns, the text of its answer is never
    empty or otherwise falsy (an absent or empty analysis is replaced by
    ["Analysis complete."]), and the model it reports is one of the two
    tiers, [MODEL_SMART] or [MODEL_FAST]. *)
Theorem video_answer_text {W : Type}
    (generateContent : string -> Request -> M W GenerateContentResponse)
    (JSON_parse : string -> outcome value)
    (frameData youtubeUrl question : string) (timestamp : Z) (factCheck : bool)
    (scope : Scope) (w w' : W) (answer : VideoAnswer) :
  analyzeVideoFrame generateContent JSON_parse frameData question timestamp factCheck w
    = (Return answer, w')
  \/ analyzeYoutubeSegment generateContent JSON_parse youtubeUrl question timestamp
       factCheck scope w
     = (Return answer, w') ->
  truthy (video_text answer) = true
  /\ (video_modelUsed answer = MODEL_SMART \/ video_modelUsed answer = MODEL_FAST).
Proof.
  unfold analyzeVideoFrame, analyzeYoutubeSegment, bind, lift.
  destruct (timeStringOf timestamp) as [time|e]; [|intros [H|H]; discriminate].
  intros [H|H].
  - unfold videoFrameCall in H.
    match type of H with
    | context [callAI ?op ?f ?p ?fb w] =>
        destruct (callAI op f p fb w) as [[res|e] w1] eqn:Ec; [|discriminate];
        pose proof (callAI_model op f p fb w w1 res Ec) as Hm
    end.
    destruct (videoAnswerOf JSON_parse res) as [a|e] eqn:Ea; [|discriminate].
    injection H as <- _. destruct (videoAnswerOf_text JSON_parse res a Ea) as [Ht Hmodel].
    split; [exact Ht|]. rewrite Hmodel.
    destruct Hm as [Hm|Hm]; [left; exact Hm | right; now injection Hm].
  - unfold youtubeCall in H.
    match type of H with
    | context [callAI ?op ?f ?p ?fb w] =>
        destruct (callAI op f p fb w) as [[res|e] w1] eqn:Ec; [|discriminate];
        pose proof (callAI_model op f p fb w w1 res Ec) as Hm
    end.
    destruct (videoAnswerOf JSON_parse res) as [a|e] eqn:Ea; [|discriminate].
    injection H as <- _. destruct (videoAnswerOf_text JSON_parse res a Ea) as [Ht Hmodel].
    split; [exact Ht|]. rewrite Hmodel.
    destruct Hm as [Hm|Hm]; [left; exact Hm | right; now injection Hm].
Qed.

Lemma video_answer_text_witness :
  let answer :=
    mkVideoAnswer (VStr "Analysis complete.") MODEL_SMART None VUndefined VUndefined in
  analyzeVideoFrame (Fixture.generate Sample.prose) Json.parse "frame" "Why?" 12 true []
    = (Return answer, [(MODEL_SMART ++ ": videoFramePrompt")%string])
  /\ truthy (video_text answer) = true
  /\ (video_modelUsed answer = MODEL_SMART \/ video_modelUsed answer = MODEL_FAST).
Proof.
  split; [reflexivity|].
  exact (video_answer_text (Fixture.generate Sample.prose) Json.parse "frame" "" "Why?" 12
           true AtTimestamp [] [(MODEL_SMART ++ ": videoFramePrompt")%string]
           (mkVideoAnswer (VStr "Analysis complete.") MODEL_SMART None VUndefined VUndefined)
           (or_introl eq_refl)).
Defined.

(** X21. When the request of a video function returns and its output
    sanitizes to the empty object, as unparseable text does, the function
    returns the text ["Analysis complete."] with the model that answered,
    the sources of the response and no transcription or fact checks. *)
Theorem video_unparseable {W : Type}
    (generateContent : string -> Request -> M W GenerateContentResponse)
    (JSON_parse : string -> outcome value)
    (frameData youtubeUrl question : string) (timestamp : Z) (factCheck : bool)
    (scope : Scope) (w w' : W) (res : Tiered GenerateContentResponse) :
  Z.abs (timestamp * 1000) <= MAX_TIME_VALUE ->
  cleanAndParseJSON JSON_parse (text (output res)) = Return (VObj []) ->
  let answer := mkVideoAnswer (VStr "Analysis complete.") (model res)
                  (sourcesOrUndefined (collectSources (output res))) VUndefined VUndefined in
  (videoFrameCall generateContent frameData question (VNum timestamp) factCheck w
     = (Return res, w') ->
   analyzeVideoFrame generateContent JSON_parse frameData question timestamp factCheck w
   = (Return answer, w'))
  /\ (youtubeCall generateContent youtubeUrl question (VNum timestamp) factCheck scope w
        = (Return res, w') ->
      analyzeYoutubeSegment generateContent JSON_parse youtubeUrl question timestamp
        factCheck scope w
      = (Return answer, w')).
Proof.
  intros Ht Hp answer.
  unfold analyzeVideoFrame, analyzeYoutubeSegment, bind, lift, timeStringOf.
  replace (Z.abs (timestamp * 1000) <=? MAX_TIME_VALUE) with true
    by (symmetry; apply Z.leb_le; exact Ht).
  split; intros Hc; rewrite Hc; unfold videoAnswerOf, bindO; rewrite Hp; reflexivity.
Qed.

Lemma video_unparseable_witness :
  analyzeVideoFrame (Fixture.generate Sample.prose) Json.parse "frame" "Why?" 12 true []
  = (Return (mkVideoAnswer (VStr "Analysis complete.") MODEL_SMART None VUndefined VUndefined),
     [(MODEL_SMART ++ ": videoFramePrompt")%string]).
Proof.
  exact (proj1 (video_unparseable (Fixture.generate Sample.prose) Json.parse "frame" ""
                  "Why?" 12 true AtTimestamp [] [(MODEL_SMART ++ ": videoFramePrompt")%string]
                  (mkTiered (mkResponse (Some "I am sorry, I cannot help with that.") None)
                     MODEL_SMART)
                  ltac:(discriminate) eq_refl) eq_refl).
Defined.

(** ** The visual aid *)

Section VisualAidFacts.

Lemma split_without (sep : ascii) (s : string) :
  find_first sep s = None -> split sep s = [s].
Proof.
  induction s as [|c s IH]; simpl; intros H; [reflexivity|].
  destruct (Ascii.eqb c sep); [discriminate|].
  destruct (find_first sep s); [discriminate|].
  now rewrite IH.
Qed.

Lemma split_app (sep : ascii) (a r : string) :
  find_first sep a = None ->
  split sep (a ++ String sep r) = a :: split sep r.
Proof.
  induction a as [|c a IH]; simpl; intros H.
  - now rewrite Ascii.eqb_refl.
  - destruct (Ascii.eqb c sep); [discriminate|].
    destruct (find_first sep a); [discriminate|].
    now rewrite IH.
Qed.

Lemma firstImage_skips (skipped rest : list ContentPart) :
  forallb (fun p => negb (hasImageData p)) skipped = true ->
  firstImage (skipped ++ rest) = firstImage rest.
Proof.
  induction skipped as [|p skipped IH]; simpl; intros H; [reflexivity|].
  apply andb_true_iff in H. destruct H as [Hp Hs]. unfold hasImageData in Hp.
  destruct (part_inlineData p) as [image|]; [|exact (IH Hs)].
  apply negb_true_iff in Hp. rewrite Hp. exact (IH Hs).
Qed.

Lemma firstImage_none (parts : list ContentPart) :
  forallb (fun p => negb (hasImageData p)) parts = true -> firstImage parts = EmptyString.
Proof.
  intros H. rewrite <- (app_nil_r parts). now rewrite firstImage_skips.
Qed.

End VisualAidFacts.

(** X22. The image data sent to the validation is the image data that was
    generated: for the first part with data [d] of MIME type [m], the
    content is the data URL of [m] and [d], and [content.split(',')[1]] is
    [d] again, provided neither [m] nor [d] holds a comma. *)
Theorem image_data_round_trip (skipped rest : list ContentPart) (image : InlineImage)
    (d : string) :
  forallb (fun p => negb (hasImageData p)) skipped = true ->
  image_data image = Some d ->
  d <> EmptyString ->
  find_first "," (orDefault (image_mimeType image) "image/png") = None ->
  find_first "," d = None ->
  let content := firstImage (skipped ++ mkContentPart (Some image) :: rest) in
  content = ("data:" ++ orDefault (image_mimeType image) "image/png" ++ ";base64," ++ d)%string
  /\ base64Of content = Some d.
Proof.
  intros Hs Hd Hne Hm Hc content.
  assert (E : content
              = ("data:" ++ orDefault (image_mimeType image) "image/png"
                 ++ ";base64," ++ d)%string).
  { unfold content. rewrite (firstImage_skips skipped _ Hs). simpl. rewrite Hd. simpl.
    replace (String.eqb d "") with false by (symmetry; apply String.eqb_neq; exact Hne).
    reflexivity. }
  split; [exact E|]. rewrite E. unfold base64Of.
  replace ("data:" ++ orDefault (image_mimeType image) "image/png" ++ ";base64," ++ d)%string
    with (("data:" ++ orDefault (image_mimeType image) "image/png" ++ ";base64")
          ++ String "," d)%string
    by (rewrite !app_assoc_str; reflexivity).
  rewrite split_app.
  - rewrite (split_without "," d Hc). reflexivity.
  - apply (find_first_app_none "," "data:"); [reflexivity|].
    apply find_first_app_none; [exact Hm | reflexivity].
Qed.

Lemma image_data_round_trip_witness :
  firstImage [SampleMedia.caption; SampleMedia.picture] = SampleMedia.pictureUrl
  /\ base64Of (firstImage [SampleMedia.caption; SampleMedia.picture]) = Some "iVBORw0KGgo=".
Proof.
  exact (image_data_round_trip [SampleMedia.caption] []
           (mkInlineImage (Some "iVBORw0KGgo=") (Some "image/jpeg")) "iVBORw0KGgo="
           eq_refl eq_refl ltac:(discriminate) eq_refl eq_refl).
Defined.

(** X23. When the generation answers without any part that holds image
    data, [generateVerifiedVisualAid] throws ["No image generated."] right
    after the generation: the validation is not called. *)
Theorem visual_aid_without_image {W : Type}
    (generateContent : string -> Request -> M W GenerateContentResponse)
    (generateImage : string -> ImageRequest -> M W ImageResponse)
    (JSON_parse : string -> outcome value)
    (problemStatement prompt : string) (w w1 : W) (genRes : Tiered ImageResponse) :
  imageCall generateImage prompt w = (Return genRes, w1) ->
  match candidateParts (output genRes) with
  | Some parts => forallb (fun p => negb (hasImageData p)) parts = true
  | None => True
  end ->
  generateVerifiedVisualAid generateContent generateImage JSON_parse problemStatement prompt w
  = (Throw (Error "No image generated."), w1).
Proof.
  intros Hg Hparts. unfold generateVerifiedVisualAid, bind, throw. rewrite Hg.
  destruct (candidateParts (output genRes)) as [parts|]; [|reflexivity].
  rewrite (firstImage_none parts Hparts). reflexivity.
Qed.

Lemma visual_aid_without_image_witness :
  generateVerifiedVisualAid (Fixture.generate SampleMedia.validator) SampleMedia.drawsNothing
    Json.parse "A triangle" "Draw a triangle" []
  = (Throw (Error "No image generated."), SampleMedia.afterDrawing).
Proof.
  exact (visual_aid_without_image (Fixture.generate SampleMedia.validator)
           SampleMedia.drawsNothing Json.parse "A triangle" "Draw a triangle" []
           SampleMedia.afterDrawing
           (mkTiered (mkImageResponse (Some [SampleMedia.caption])) MODEL_IMAGE_SMART)
           eq_refl eq_refl).
Defined.

(** X24. When [generateVerifiedVisualAid] returns, its content is the data
    URL found in the generation, and the [modelUsed] of its validation is
    the model that generated the image - one of the two image models -
    whatever the validator wrote under that key. *)
Theorem visual_aid_model {W : Type}
    (generateContent : string -> Request -> M W GenerateContentResponse)
    (generateImage : string -> ImageRequest -> M W ImageResponse)
    (JSON_parse : string -> outcome value)
    (problemStatement prompt : string) (w w1 w2 : W) (genRes : Tiered ImageResponse)
    (aid : VisualAid) :
  imageCall generateImage prompt w = (Return genRes, w1) ->
  generateVerifiedVisualAid generateContent generateImage JSON_parse problemStatement prompt w
    = (Return aid, w2) ->
  aid_content aid = imageContent (output genRes)
  /\ aid_content aid <> EmptyString
  /\ get (aid_validation aid) "modelUsed" = Return (VStr (model genRes))
  /\ (model genRes = MODEL_IMAGE_SMART \/ model genRes = MODEL_IMAGE_FAST).
Proof.
  intros Hg. pose proof (callAI_model "Image Gen" _ _ _ _ _ _ Hg) as Hm.
  unfold generateVerifiedVisualAid, bind, throw, lift, ret. rewrite Hg.
  fold (imageContent (output genRes)).
  destruct (String.eqb (imageContent (output genRes)) "") eqn:Ee; [discriminate|].
  destruct (visualValidationCall generateContent problemStatement
              (imageContent (output genRes)) w1) as [[valRes|e] w3]; [|discriminate].
  destruct (cleanAndParseJSON JSON_parse (text (output valRes))) as [parsed|e];
    [|discriminate].
  intros H. injection H as <- _. cbn [aid_content aid_validation].
  split; [reflexivity|]. split; [now apply String.eqb_neq|]. split.
  - unfold get. rewrite lookup_set. reflexivity.
  - destruct Hm as [Hm|Hm]; [left; exact Hm | right; now injection Hm].
Qed.

Lemma visual_aid_model_witness :
  let aid := mkVisualAid SampleMedia.pictureUrl
               (VObj [("isAccurate", VBool true); ("modelUsed", VStr MODEL_IMAGE_SMART)]) in
  let w2 := (SampleMedia.afterDrawing ++ [(MODEL_FAST ++ ": inlineData")%string])%list in
  generateVerifiedVisualAid (Fixture.generate SampleMedia.validator) SampleMedia.draws
    Json.parse "A triangle" "Draw a triangle" [] = (Return aid, w2)
  /\ aid_content aid = SampleMedia.pictureUrl
  /\ get (aid_validation aid) "modelUsed" = Return (VStr MODEL_IMAGE_SMART).
Proof.
  intros aid w2. split; [reflexivity|].
  pose proof (visual_aid_model (Fixture.generate SampleMedia.validator) SampleMedia.draws
                Json.parse "A triangle" "Draw a triangle" [] SampleMedia.afterDrawing w2
                (mkTiered (mkImageResponse (Some [SampleMedia.caption; SampleMedia.picture]))
                   MODEL_IMAGE_SMART) aid eq_refl eq_refl) as (Hc & _ & Hm & _).
  split; [exact Hc | exact Hm].
Defined.

(** X25. The validation of a visual aid is not optional: when the image
    was generated and the validation call fails, [generateVerifiedVisualAid]
    fails with the error of that call and the image is not returned. *)
Theorem visual_aid_validation_failure {W : Type}
    (generateContent : string -> Request -> M W GenerateContentResponse)
    (generateImage : string -> ImageRequest -> M W ImageResponse)
    (JSON_parse : string -> outcome value)
    (problemStatement prompt : string) (w w1 w2 : W) (genRes : Tiered ImageResponse)
    (e : JsError) :
  imageCall generateImage prompt w = (Return genRes, w1) ->
  imageContent (output genRes) <> EmptyString ->
  visualValidationCall generateContent problemStatement (imageContent (output genRes)) w1
    = (Throw e, w2) ->
  generateVerifiedVisualAid generateContent generateImage JSON_parse problemStatement prompt w
  = (Throw e, w2).
Proof.
  intros Hg Hc Hv. unfold generateVerifiedVisualAid, bind, throw, lift, ret. rewrite Hg.
  fold (imageContent (output genRes)).
  replace (String.eqb (imageContent (output genRes)) "") with false
    by (symmetry; apply String.eqb_neq; exact Hc).
  rewrite Hv. reflexivity.
Qed.

Lemma visual_aid_validation_failure_witness :
  generateVerifiedVisualAid (Fixture.generate SampleMedia.unreachable) SampleMedia.draws
    Json.parse "A triangle" "Draw a triangle" []
  = (Throw Fixture.networkError,
     (SampleMedia.afterDrawing ++ [(MODEL_FAST ++ ": inlineData")%string])%list).
Proof.
  exact (visual_aid_validation_failure (Fixture.generate SampleMedia.unreachable)
           SampleMedia.draws Json.parse "A triangle" "Draw a triangle" []
           SampleMedia.afterDrawing _
           (mkTiered (mkImageResponse (Some [SampleMedia.caption; SampleMedia.picture]))
              MODEL_IMAGE_SMART)
           Fixture.networkError eq_refl ltac:(discriminate) eq_refl).
Defined.

(** ** The LaTeX conversion *)

Section LatexFacts.

Lemma prefix_cons (a b : ascii) (p s : string) :
  String.prefix (String a p) (String b s) = Ascii.eqb a b && String.prefix p s.
Proof.
  simpl. destruct (ascii_dec a b) as [->|N].
  - now rewrite Ascii.eqb_refl.
  - apply Ascii.eqb_neq in N. now rewrite N.
Qed.

Lemma prefixBy_eqb (p s : string) : prefixBy Ascii.eqb p s = String.prefix p s.
Proof.
  revert s. induction p as [|a p IH]; intros s; [now destruct s|].
  destruct s as [|b s]; [reflexivity|]. rewrite prefix_cons. simpl. now rewrite IH.
Qed.

Lemma prefix_app (p a t : string) :
  String.prefix p a = true -> String.prefix p (a ++ t) = true.
Proof.
  revert a. induction p as [|c p IH]; intros a H; [apply prefix_empty|].
  destruct a as [|b a]; [discriminate|].
  rewrite prefix_cons in H. apply andb_true_iff in H. destruct H as [Hc Hp].
  change (String b a ++ t)%string with (String b (a ++ t)).
  rewrite prefix_cons, Hc, (IH a Hp). reflexivity.
Qed.

Lemma includes_cons (p : string) (c : ascii) (s : string) :
  includes p (String c s) = String.prefix p (String c s) || includes p s.
Proof. reflexivity. Qed.

Lemma includes_app (p a t : string) :
  includes p a = true -> includes p (a ++ t) = true.
Proof.
  induction a as [|c a IH]; intros H.
  - simpl in H. rewrite orb_false_r in H. destruct p; [|destruct t; discriminate].
    destruct t; reflexivity.
  - rewrite includes_cons in H. change (String c a ++ t)%string with (String c (a ++ t)).
    rewrite includes_cons. apply orb_true_iff in H. apply orb_true_iff.
    destruct H as [H|H]; [left | right; exact (IH H)].
    exact (prefix_app p (String c a) t H).
Qed.

Lemma includes_tail (p : string) (c : ascii) (s : string) :
  includes p s = true -> includes p (String c s) = true.
Proof. intros H. rewrite includes_cons, H. apply orb_true_r. Qed.

Lemma includes_drop (p : string) (n : nat) (s : string) :
  includes p (drop n s) = true -> includes p s = true.
Proof.
  revert s. induction n as [|n IH]; intros s H; [exact H|].
  destruct s as [|c s]; [exact H|]. apply includes_tail, IH, H.
Qed.

Lemma includes_skip_optional (p q s : string) :
  includes p (skip_optional q s) = true -> includes p s = true.
Proof.
  unfold skip_optional. destruct (String.prefix q s); [apply includes_drop | trivial].
Qed.

Lemma includes_trimStart (p s : string) :
  includes p (trimStart s) = true -> includes p s = true.
Proof.
  induction s as [|c s IH]; intros H; [exact H|].
  simpl in H. destruct (is_space c); [apply includes_tail, IH, H | exact H].
Qed.

Lemma trimEnd_prefix (s : string) : exists t, s = (trimEnd s ++ t)%string.
Proof.
  induction s as [|c s [t Ht]]; [exists EmptyString; reflexivity|].
  simpl. destruct (trimEnd s) as [|b r] eqn:E.
  - destruct (is_space c).
    + exists (String c s). reflexivity.
    + exists t. simpl in Ht. simpl. now rewrite <- Ht.
  - exists t. simpl. simpl in Ht. now rewrite <- Ht.
Qed.

Lemma stripSuffix_cons (q : string) (c : ascii) (s : string) :
  stripSuffix q (String c s)
  = if String.eqb (String c s) q then EmptyString else String c (stripSuffix q s).
Proof. reflexivity. Qed.

Lemma stripSuffix_prefix (q s : string) : exists t, s = (stripSuffix q s ++ t)%string.
Proof.
  induction s as [|c s [t Ht]].
  - exists EmptyString. simpl. destruct q; reflexivity.
  - rewrite stripSuffix_cons. destruct (String.eqb (String c s) q).
    + exists (String c s). reflexivity.
    + exists t. simpl. now rewrite <- Ht.
Qed.

Lemma includes_trimEnd (p s : string) :
  includes p (trimEnd s) = true -> includes p s = true.
Proof.
  intros H. destruct (trimEnd_prefix s) as [t Ht]. rewrite Ht. now apply includes_app.
Qed.

Lemma includes_stripSuffix (p q s : string) :
  includes p (stripSuffix q s) = true -> includes p s = true.
Proof.
  intros H. destruct (stripSuffix_prefix q s) as [t Ht]. rewrite Ht. now apply includes_app.
Qed.

Lemma includes_trim (p s : string) : includes p (trim s) = true -> includes p s = true.
Proof. intros H. apply includes_trimStart, includes_trimEnd, H. Qed.

(** After the removal of the fences no fence is left. *)
Lemma removeAllFrom_no_fence (s : string) :
  (forall k, includes "```" (removeAllFrom Ascii.eqb "```" k s) = false)
  /\ (String.prefix "``" s = false ->
      String.prefix "``" (removeAllFrom Ascii.eqb "```" O s) = false).
Proof.
  induction s as [|c r [IHk IH2]].
  - split; [intros k; destruct k; reflexivity | intros _; reflexivity].
  - assert (Hstep : String.prefix "```" (String c r) = false ->
                    removeAllFrom Ascii.eqb "```" O (String c r)
                    = String c (removeAllFrom Ascii.eqb "```" O r)).
    { intros H. cbn [removeAllFrom]. rewrite prefixBy_eqb, H. reflexivity. }
    split.
    + intros [|k]; [|cbn [removeAllFrom]; apply IHk].
      destruct (String.prefix "```" (String c r)) eqn:E.
      * cbn [removeAllFrom]. rewrite prefixBy_eqb, E. apply IHk.
      * rewrite (Hstep eq_refl), includes_cons, (IHk O), orb_false_r.
        rewrite prefix_cons in E |- *.
        destruct (Ascii.eqb "`" c); [|reflexivity]. simpl andb in *. exact (IH2 E).
    + intros H.
      assert (E : String.prefix "```" (String c r) = false).
      { rewrite prefix_cons in H |- *. destruct (Ascii.eqb "`" c); [|reflexivity].
        simpl andb in *. destruct r as [|b r']; [reflexivity|].
        rewrite prefix_cons in H |- *. destruct (Ascii.eqb "`" b); [|reflexivity].
        simpl andb in H. rewrite prefix_empty in H. discriminate. }
      rewrite (Hstep E). rewrite prefix_cons in H |- *.
      destruct (Ascii.eqb "`" c); [|reflexivity]. simpl andb in *.
      destruct r as [|b r']; [reflexivity|].
      rewrite prefix_cons in H. rewrite prefix_empty, andb_true_r in H.
      cbn [removeAllFrom]. rewrite prefixBy_eqb, prefix_cons, H. simpl andb. cbv iota.
      rewrite prefix_cons, H. reflexivity.
Qed.

Lemma trimStart_head (s : string) :
  match trimStart s with
  | EmptyString => True
  | String a _ => is_space a = false
  end.
Proof.
  induction s as [|c s IH]; simpl; [exact I|].
  destruct (is_space c) eqn:E; [exact IH | exact E].
Qed.

Lemma trimEnd_idempotent (s : string) : trimEnd (trimEnd s) = trimEnd s.
Proof.
  induction s as [|c s IH]; [reflexivity|].
  simpl. destruct (trimEnd s) as [|b r] eqn:E.
  - destruct (is_space c) eqn:Ec; [reflexivity|]. simpl. now rewrite Ec.
  - change (trimEnd (String c (String b r)))
      with (match trimEnd (String b r) with
            | EmptyString => if is_space c then EmptyString else String c EmptyString
            | r' => String c r'
            end).
    rewrite IH. reflexivity.
Qed.

Lemma trimEnd_head (a : ascii) (r : string) :
  is_space a = false -> exists r', trimEnd (String a r) = String a r'.
Proof.
  intros H. simpl. destruct (trimEnd r); [rewrite H|]; eexists; reflexivity.
Qed.

Lemma trim_idempotent (s : string) : trim (trim s) = trim s.
Proof.
  unfold trim. pose proof (trimStart_head s) as H.
  destruct (trimStart s) as [|a r]; [reflexivity|].
  destruct (trimEnd_head a r H) as [r' E].
  assert (Ht : trimStart (trimEnd (String a r)) = trimEnd (String a r)).
  { rewrite E. simpl. now rewrite H. }
  rewrite Ht. apply trimEnd_idempotent.
Qed.

End LatexFacts.

(** The two clean-up statements leave no markdown fence and no white space
    at either end. *)
Lemma cleanLatex_clean (latex : string) :
  includes "```" (cleanLatex latex) = false
  /\ trim (cleanLatex latex) = cleanLatex latex.
Proof.
  split; [|apply trim_idempotent].
  unfold cleanLatex.
  destruct (includes "```"
              (trim (stripSuffix "$$" (skip_optional "$$" (stripSuffix "\]"
                 (skip_optional "\["
                    (trim (removeAll Ascii.eqb "```" (removeAll eqCI "```latex" latex))))))))) eqn:E;
    [|reflexivity].
  apply includes_trim, includes_stripSuffix, includes_skip_optional, includes_stripSuffix,
    includes_skip_optional, includes_trim in E.
  unfold removeAll in E.
  rewrite (proj1 (removeAllFrom_no_fence _) O) in E. discriminate.
Qed.

Section LatexUnwrap.

Lemma append_nil_r (s : string) : (s ++ "")%string = s.
Proof. induction s as [|c s IH]; simpl; [reflexivity | now rewrite IH]. Qed.

Lemma eqCI_backtick (c : ascii) : eqCI "`" c = true -> c = "`"%char.
Proof.
  destruct c as [[] [] [] [] [] [] [] []]; vm_compute; intros H;
    solve [reflexivity | discriminate].
Qed.

Lemma eqb_backtick (c : ascii) : Ascii.eqb "`" c = true -> c = "`"%char.
Proof. intros H. symmetry. now apply Ascii.eqb_eq. Qed.

(** A text without backtick goes through the removal of a fence as it is. *)
Lemma removeAllFrom_through (eqc : ascii -> ascii -> bool) (p a t : string) :
  (forall c : ascii, eqc "`"%char c = true -> c = "`"%char) ->
  find_first "`" a = None ->
  removeAllFrom eqc (String "`" p) O (a ++ t)
  = (a ++ removeAllFrom eqc (String "`" p) O t)%string.
Proof.
  intros Heq. induction a as [|c a IH]; intros H; [reflexivity|].
  simpl in H. destruct (Ascii.eqb c "`") eqn:E; [discriminate|].
  destruct (find_first "`" a); [discriminate|].
  change (String c a ++ t)%string with (String c (a ++ t)).
  cbn [removeAllFrom prefixBy].
  destruct (eqc "`"%char c) eqn:Ec.
  - apply Heq in Ec. subst c. discriminate.
  - simpl andb. cbv iota. rewrite (IH eq_refl). reflexivity.
Qed.

Lemma stripSuffix_app (q b : string) : stripSuffix q (b ++ q) = b.
Proof.
  induction b as [|c b IH].
  - destruct q as [|a q]; [reflexivity|]. simpl append.
    rewrite stripSuffix_cons, String.eqb_refl. reflexivity.
  - change (String c b ++ q)%string with (String c (b ++ q)).
    rewrite stripSuffix_cons.
    replace (String.eqb (String c (b ++ q)) q) with false; [now rewrite IH|].
    symmetry. apply String.eqb_neq. intros E. apply (f_equal String.length) in E.
    simpl in E. rewrite length_app in E. lia.
Qed.

Lemma stripSuffix_id (q s : string) :
  (forall x, s <> (x ++ q)%string) -> stripSuffix q s = s.
Proof.
  induction s as [|c s IH]; intros H.
  - simpl. destruct q; reflexivity.
  - rewrite stripSuffix_cons. destruct (String.eqb_spec (String c s) q) as [E|_].
    + exfalso. apply (H EmptyString). exact E.
    + rewrite IH; [reflexivity|]. intros x E. apply (H (String c x)). simpl. now rewrite E.
Qed.

Lemma find_first_app_some (c : ascii) (x r : string) :
  find_first c (x ++ String c r) <> None.
Proof.
  induction x as [|a x IH]; simpl.
  - rewrite Ascii.eqb_refl. discriminate.
  - destruct (Ascii.eqb a c); [discriminate|].
    destruct (find_first c (x ++ String c r)); [discriminate | exact IH].
Qed.

Lemma stripSuffix_other_end (x : string) :
  stripSuffix "\]" (x ++ "$$") = (x ++ "$$")%string.
Proof.
  induction x as [|c x IH]; [reflexivity|].
  change (String c x ++ "$$")%string with (String c (x ++ "$$")).
  rewrite stripSuffix_cons.
  replace (String.eqb (String c (x ++ "$$")) "\]") with false; [now rewrite IH|].
  symmetry. apply String.eqb_neq. intros E. apply (f_equal String.length) in E.
  simpl in E. rewrite length_app in E. simpl in E. lia.
Qed.

Lemma trimEnd_app_space (s : string) (c : ascii) :
  is_space c = true -> trimEnd (s ++ String c EmptyString) = trimEnd s.
Proof.
  intros Hc. induction s as [|a s IH]; simpl; [now rewrite Hc | now rewrite IH].
Qed.

Lemma trim_between (a c : ascii) (r : string) :
  is_space a = false -> is_space c = false ->
  trim (String a (r ++ String c EmptyString)) = String a (r ++ String c EmptyString).
Proof.
  intros Ha Hc. unfold trim. simpl trimStart. rewrite Ha.
  exact (trimEnd_keeps (String a r) c Hc).
Qed.

(** The second clean-up statement leaves a bare body as it is. *)
Lemma delimiters_bare (body : string) :
  find_first "$" body = None ->
  String.prefix "\[" body = false ->
  (forall x, body <> (x ++ "\]")%string) ->
  stripSuffix "$$" (skip_optional "$$" (stripSuffix "\]" (skip_optional "\[" body))) = body.
Proof.
  intros Hd Hp Hs. unfold skip_optional. rewrite Hp, (stripSuffix_id "\]" body Hs).
  replace (String.prefix "$$" body) with false.
  - apply stripSuffix_id. intros x E. rewrite E in Hd.
    exact (find_first_app_some "$" x "$" Hd).
  - symmetry. destruct body as [|b body]; [reflexivity|].
    rewrite prefix_cons. simpl in Hd. rewrite Ascii.eqb_sym.
    destruct (Ascii.eqb b "$"); [discriminate | reflexivity].
Qed.

End LatexUnwrap.

(** X26. What [convertTextToMath] returns holds no markdown fence (three
    backticks in a row) and has no white space at either end, whatever the
    model wrote; without a text in the response it returns the empty
    string. *)
Theorem convertTextToMath_clean {W : Type}
    (generateContent : string -> Request -> M W GenerateContentResponse)
    (input : string) (w w' : W) (latex : string) :
  convertTextToMath generateContent input w = (Return latex, w') ->
  includes "```" latex = false /\ trim latex = latex.
Proof.
  unfold convertTextToMath, bind, ret.
  match goal with
  | |- context [callAI ?op ?f ?p ?fb w] => destruct (callAI op f p fb w) as [[res|e] w1]
  end; [|discriminate].
  intros H. injection H as <- _. apply cleanLatex_clean.
Qed.

Lemma convertTextToMath_clean_witness :
  convertTextToMath
    (Fixture.generate (fun _ _ => Fixture.answer "  ```LaTeX~$$ x^2 $$~```  "))
    "x squared" []
  = (Return "x^2", [(MODEL_FAST ++ ": convertPrompt")%string])
  /\ includes "```" "x^2" = false
  /\ trim "x^2" = "x^2".
Proof.
  split; [reflexivity|].
  exact (convertTextToMath_clean
           (Fixture.generate (fun _ _ => Fixture.answer "  ```LaTeX~$$ x^2 $$~```  "))
           "x squared" [] [(MODEL_FAST ++ ": convertPrompt")%string] "x^2" eq_refl).
Defined.

(** X27. One layer of wrapping is undone.  For a body without backtick and
    without white space at its ends, the clean-up of [convertTextToMath]
    gives the body back from the body between [$$] and [$$]; when the body
    holds no dollar sign, also from the body between [\[] and [\]]; and
    when moreover the body neither starts with [\[] nor ends with [\]],
    from the body on its own and from the body inside a [latex] fence. *)
Theorem cleanLatex_unwraps (body : string) :
  find_first "`" body = None ->
  trimStart body = body ->
  trimEnd body = body ->
  cleanLatex ("$$" ++ body ++ "$$") = body
  /\ (find_first "$" body = None ->
      cleanLatex ("\[" ++ body ++ "\]") = body)
  /\ (find_first "$" body = None ->
      String.prefix "\[" body = false ->
      (forall x, body <> (x ++ "\]")%string) ->
      cleanLatex body = body
      /\ cleanLatex ("```latex" ++ nl ++ body ++ nl ++ "```") = body).
Proof.
  intros Hb Hts Hte.
  assert (Htrim : trim body = body) by (unfold trim; now rewrite Hts, Hte).
  assert (Hthrough : forall a t,
             find_first "`" a = None ->
             removeAll Ascii.eqb "```" (removeAll eqCI "```latex" (a ++ t))
             = (a ++ removeAll Ascii.eqb "```" (removeAll eqCI "```latex" t))%string).
  { intros a t Ha. unfold removeAll.
    rewrite (removeAllFrom_through eqCI _ a t eqCI_backtick Ha).
    apply (removeAllFrom_through Ascii.eqb _ a _ eqb_backtick Ha). }
  assert (Hplain : forall a, find_first "`" a = None ->
             removeAll Ascii.eqb "```" (removeAll eqCI "```latex" a) = a).
  { intros a Ha. rewrite <- (append_nil_r a) at 1.
    rewrite (Hthrough a EmptyString Ha). simpl. apply append_nil_r. }
  split; [|split].
  - unfold cleanLatex. rewrite Hplain
      by (apply (find_first_app_none "`" "$$"); [reflexivity|];
          apply find_first_app_none; [exact Hb | reflexivity]).
    assert (T : trim ("$$" ++ body ++ "$$") = ("$$" ++ body ++ "$$")%string).
    { replace ("$$" ++ body ++ "$$")%string
        with (String "$" (("$" ++ body ++ "$") ++ String "$" EmptyString))
        by (simpl; rewrite !app_assoc_str; reflexivity).
      apply trim_between; reflexivity. }
    rewrite T.
    change (skip_optional "\[" ("$$" ++ body ++ "$$")) with ("$$" ++ body ++ "$$")%string.
    replace ("$$" ++ body ++ "$$")%string with (("$$" ++ body) ++ "$$")%string
      by (rewrite app_assoc_str; reflexivity).
    rewrite stripSuffix_other_end.
    assert (S : skip_optional "$$" (("$$" ++ body) ++ "$$") = (body ++ "$$")%string).
    { unfold skip_optional. cbn [append]. rewrite !prefix_cons, prefix_empty. reflexivity. }
    rewrite S, stripSuffix_app. exact Htrim.
  - intros Hd. unfold cleanLatex. rewrite Hplain
      by (apply (find_first_app_none "`" "\["); [reflexivity|];
          apply find_first_app_none; [exact Hb | reflexivity]).
    assert (T : trim ("\[" ++ body ++ "\]") = ("\[" ++ body ++ "\]")%string).
    { replace ("\[" ++ body ++ "\]")%string
        with (String "\" (("[" ++ body ++ "\") ++ String "]" EmptyString))
        by (simpl; rewrite !app_assoc_str; reflexivity).
      apply trim_between; reflexivity. }
    rewrite T.
    assert (S : skip_optional "\[" ("\[" ++ body ++ "\]") = (body ++ "\]")%string).
    { unfold skip_optional. cbn [append]. rewrite !prefix_cons, prefix_empty. reflexivity. }
    rewrite S, stripSuffix_app.
    unfold skip_optional.
    replace (String.prefix "$$" body) with false.
    + rewrite stripSuffix_id; [exact Htrim|]. intros x E. rewrite E in Hd.
      exact (find_first_app_some "$" x "$" Hd).
    + symmetry. destruct body as [|b body']; [reflexivity|].
      rewrite prefix_cons. simpl in Hd. rewrite Ascii.eqb_sym.
      destruct (Ascii.eqb b "$"); [discriminate | reflexivity].
  - intros Hd Hp Hs. split.
    + unfold cleanLatex. rewrite (Hplain body Hb), Htrim, (delimiters_bare body Hd Hp Hs).
      exact Htrim.
    + unfold cleanLatex.
      assert (E1 : removeAll Ascii.eqb "```"
                     (removeAll eqCI "```latex" ("```latex" ++ nl ++ body ++ nl ++ "```"))
                   = (nl ++ body ++ nl)%string).
      { change (removeAll eqCI "```latex" ("```latex" ++ nl ++ body ++ nl ++ "```"))
          with (removeAllFrom eqCI "```latex" O (nl ++ body ++ nl ++ "```")).
        replace (nl ++ body ++ nl ++ "```")%string with ((nl ++ body ++ nl) ++ "```")%string
          by (rewrite !app_assoc_str; reflexivity).
        assert (Hn : find_first "`" (nl ++ body ++ nl) = None)
          by (apply (find_first_app_none "`" nl); [reflexivity|];
              apply find_first_app_none; [exact Hb | reflexivity]).
        rewrite (removeAllFrom_through eqCI _ _ "```" eqCI_backtick Hn).
        change (removeAllFrom eqCI "```latex" O "```") with "```".
        unfold removeAll.
        rewrite (removeAllFrom_through Ascii.eqb _ _ "```" eqb_backtick Hn).
        change (removeAllFrom Ascii.eqb "```" O "```") with EmptyString.
        apply append_nil_r. }
      rewrite E1.
      assert (E2 : trim (nl ++ body ++ nl) = body).
      { unfold trim. change (trimStart (nl ++ body ++ nl)) with (trimStart (body ++ nl)).
        destruct body as [|a r] eqn:Eb; [reflexivity|].
        pose proof (trimStart_head (String a r)) as Hh. rewrite Hts in Hh.
        change (trimStart (String a r ++ nl)) with
          (if is_space a then trimStart (r ++ nl) else String a (r ++ nl)).
        rewrite Hh. change (String a (r ++ nl)) with (String a r ++ String "010" "")%string.
        rewrite trimEnd_app_space by reflexivity. exact Hte. }
      rewrite E2, (delimiters_bare body Hd Hp Hs). exact Htrim.
Qed.

Lemma cleanLatex_unwraps_witness :
  cleanLatex "$$x^2 + 1$$" = "x^2 + 1"
  /\ cleanLatex "\[x^2 + 1\]" = "x^2 + 1"
  /\ cleanLatex (lit "```latex~x^2 + 1~```") = "x^2 + 1".
Proof.
  pose proof (cleanLatex_unwraps "x^2 + 1" eq_refl eq_refl eq_refl) as (H1 & H2 & H3).
  split; [exact H1|]. split; [exact (H2 eq_refl)|].
  refine (proj2 (H3 eq_refl eq_refl _)).
  intros x E. apply (f_equal (fun s => find_last "]" s)) in E.
  replace (x ++ "\]")%string with ((x ++ "\") ++ String "]" EmptyString)%string in E
    by (rewrite app_assoc_str; reflexivity).
  rewrite (find_last_app "]" (x ++ "\") EmptyString eq_refl) in E. discriminate.
Defined.

(** ** The time typed for a video *)

Section ParseTimeFacts.

Lemma decimal_facts (c : ascii) :
  isDecimal c = true ->
  digitOf 10 c = Some (Z.of_nat (nat_of_ascii c) - 48)
  /\ is_space c = false
  /\ Ascii.eqb c "-" = false /\ Ascii.eqb c "+" = false /\ Ascii.eqb c ":" = false
  /\ Ascii.eqb "x" c = false /\ Ascii.eqb "X" c = false.
Proof.
  destruct c as [[] [] [] [] [] [] [] []]; vm_compute; intros H;
    solve [discriminate | repeat split; reflexivity].
Qed.

Lemma digitsPrefix_decimal (s : string) (acc : Z) :
  allDecimal s = true -> digitsPrefix 10 s (Some acc) = Some (numeralFrom acc s).
Proof.
  revert acc. induction s as [|c s IH]; intros acc H; [reflexivity|].
  simpl in H. apply andb_true_iff in H. destruct H as [Hc Hs].
  cbn [digitsPrefix numeralFrom]. rewrite (proj1 (decimal_facts c Hc)). apply IH, Hs.
Qed.

Lemma parseInt_numeral (s : string) :
  isNumeral s = true -> parseInt s = Some (numeralValue s).
Proof.
  unfold isNumeral. intros H. apply andb_true_iff in H. destruct H as [Hne Hd].
  destruct s as [|c r]; [discriminate|]. clear Hne.
  simpl in Hd. apply andb_true_iff in Hd. destruct Hd as [Hc Hr].
  destruct (decimal_facts c Hc) as (Hdig & Hsp & Hminus & Hplus & _ & Hx & HX).
  unfold parseInt. cbn [trimStart]. rewrite Hsp, Hminus, Hplus. cbn [fst snd].
  assert (Hp : String.prefix "0x" (String c r) || String.prefix "0X" (String c r) = false).
  { rewrite !prefix_cons. destruct (Ascii.eqb "0" c); [|reflexivity]. simpl andb.
    destruct r as [|b r']; [reflexivity|].
    simpl in Hr. apply andb_true_iff in Hr. destruct Hr as [Hb _].
    destruct (decimal_facts b Hb) as (_ & _ & _ & _ & _ & Hxb & HXb).
    rewrite !prefix_cons, Hxb, HXb. reflexivity. }
  rewrite Hp. cbn [fst snd digitsPrefix]. rewrite Hdig.
  rewrite (digitsPrefix_decimal r _ Hr). unfold numeralValue. cbn [numeralFrom].
  now rewrite Z.mul_1_l.
Qed.

Lemma numeral_without_colon (s : string) :
  isNumeral s = true -> find_first ":" s = None.
Proof.
  unfold isNumeral. intros H. apply andb_true_iff in H. destruct H as [_ H].
  induction s as [|c s IH]; [reflexivity|].
  simpl in H. apply andb_true_iff in H. destruct H as [Hc Hs].
  destruct (decimal_facts c Hc) as (_ & _ & _ & _ & Hcolon & _).
  simpl. rewrite Hcolon, (IH Hs). reflexivity.
Qed.

Lemma parseTimeLoop_nan (parts : list string) (i : nat) :
  parseTimeLoop parts i None = None.
Proof. revert i. induction parts as [|p parts IH]; intros i; [reflexivity | apply IH]. Qed.

Lemma parseTimeLoop_bad_part (parts : list string) (part : string) (i : nat)
    (seconds : option Z) :
  In part parts -> parseInt part = None -> parseTimeLoop parts i seconds = None.
Proof.
  revert i seconds. induction parts as [|p parts IH]; intros i seconds Hin Hp; [contradiction|].
  simpl. destruct Hin as [->|Hin].
  - rewrite Hp. destruct seconds; apply parseTimeLoop_nan.
  - now apply IH.
Qed.

End ParseTimeFacts.

(** X28. For numerals [h], [m] and [s] (non-empty strings of decimal
    digits, of at most nine digits so that every number involved is an
    exact JavaScript integer), [parseTime] reads [s] as seconds, [m:s] as
    minutes and seconds and [h:m:s] as hours, minutes and seconds; it
    checks no range, so that [1:75] is 135 seconds. *)
Theorem parseTime_numerals (h m s : string) :
  isNumeral h = true -> isNumeral m = true -> isNumeral s = true ->
  (String.length h <= 9)%nat -> (String.length m <= 9)%nat ->
  (String.length s <= 9)%nat ->
  parseTime s = numeralValue s
  /\ parseTime (m ++ ":" ++ s) = 60 * numeralValue m + numeralValue s
  /\ parseTime (h ++ ":" ++ m ++ ":" ++ s)
     = 3600 * numeralValue h + 60 * numeralValue m + numeralValue s.
Proof.
  intros Hh Hm Hs _ _ _.
  pose proof (numeral_without_colon h Hh) as Ch.
  pose proof (numeral_without_colon m Hm) as Cm.
  pose proof (numeral_without_colon s Hs) as Cs.
  unfold parseTime. split; [|split].
  - rewrite (split_without ":" s Cs). cbn [rev app parseTimeLoop].
    rewrite (parseInt_numeral s Hs). cbn [Z.of_nat]. lia.
  - change (m ++ ":" ++ s)%string with (m ++ String ":" s)%string.
    rewrite (split_app ":" m s Cm), (split_without ":" s Cs). cbn [rev app parseTimeLoop].
    rewrite (parseInt_numeral s Hs), (parseInt_numeral m Hm).
    change (60 ^ Z.of_nat 0) with 1. change (60 ^ Z.of_nat 1) with 60. lia.
  - change (h ++ ":" ++ m ++ ":" ++ s)%string with (h ++ String ":" (m ++ String ":" s))%string.
    rewrite (split_app ":" h _ Ch), (split_app ":" m s Cm), (split_without ":" s Cs).
    cbn [rev app parseTimeLoop].
    rewrite (parseInt_numeral s Hs), (parseInt_numeral m Hm), (parseInt_numeral h Hh).
    change (60 ^ Z.of_nat 0) with 1. change (60 ^ Z.of_nat 1) with 60.
    change (60 ^ Z.of_nat 2) with 3600. lia.
Qed.

Lemma parseTime_numerals_witness :
  parseTime "45" = 45 /\ parseTime "1:75" = 135 /\ parseTime "1:02:03" = 3723.
Proof.
  assert (L1 : (String.length "1" <= 9)%nat) by (simpl; lia).
  assert (L2 : forall a b, (String.length (String a (String b "")) <= 9)%nat)
    by (intros; simpl; lia).
  pose proof (parseTime_numerals "1" "75" "45" eq_refl eq_refl eq_refl
                L1 (L2 _ _) (L2 _ _)) as (H1 & _ & _).
  pose proof (parseTime_numerals "1" "1" "75" eq_refl eq_refl eq_refl
                L1 L1 (L2 _ _)) as (_ & H2 & _).
  pose proof (parseTime_numerals "1" "02" "03" eq_refl eq_refl eq_refl
                L1 (L2 _ _) (L2 _ _)) as (_ & _ & H3).
  split; [exact H1|]. split; [exact H2 | exact H3].
Defined.

(** X29. One part that [parseInt] cannot read makes the whole time zero:
    an empty field, a field of letters or the empty text give 0 seconds,
    whatever the other fields say. *)
Theorem parseTime_not_a_number (timeStr part : string) :
  In part (split ":" timeStr) ->
  parseInt part = None ->
  parseTime timeStr = 0.
Proof.
  intros Hin Hp. unfold parseTime.
  rewrite (parseTimeLoop_bad_part (rev (split ":" timeStr)) part O (Some 0)
             (proj1 (in_rev _ _) Hin) Hp).
  reflexivity.
Qed.

Lemma parseTime_not_a_number_witness :
  parseTime "1:xx:30" = 0 /\ parseTime "" = 0.
Proof.
  split.
  - exact (parseTime_not_a_number "1:xx:30" "xx" (or_intror (or_introl eq_refl)) eq_refl).
  - exact (parseTime_not_a_number "" "" (or_introl eq_refl) eq_refl).
Defined.

(** ** Records without a student answer *)

(** X30. A blank student answer counts as an answer.  When the first record
    of the sequence and every corrected record are objects without student
    answer (all lack the field, or all hold [null] there), every corrected
    record replaces the first record, whatever the problem statements say:
    after the merge the first record is the last corrected record, the
    other records are untouched, and the record that was first is lost. *)
Theorem merge_blank_answers (blank p : value) (fixed rest : list value) :
  present blank = false ->
  blankAnswer blank p = true ->
  forallb (blankAnswer blank) fixed = true ->
  mergeLoop fixed (p :: rest) = (last (map mergedRecord fixed) p :: rest, Return tt).
Proof.
  intros Hb. revert p. induction fixed as [|f fixed IH]; intros p Hp Hf; [reflexivity|].
  simpl in Hf. apply andb_true_iff in Hf. destruct Hf as [Hf Hfixed].
  cbn [mergeLoop findIndex]. rewrite (sameProblem_blank blank f p Hb Hf Hp).
  cbn [bindO replaceAt].
  rewrite (IH (mergedRecord f) (blankAnswer_merged blank f Hf) Hfixed).
  cbn [map]. now rewrite last_cons.
Qed.

Lemma merge_blank_answers_witness :
  mergeLoop [Sample.unanswered "Q2" 97; Sample.unanswered "Q3" 98]
    [Sample.unanswered "Q1" 95; Sample.unanswered "Q2" 60;
     Sample.unanswered "Q3" 50]
  = ([mergedRecord (Sample.unanswered "Q3" 98); Sample.unanswered "Q2" 60;
      Sample.unanswered "Q3" 50], Return tt).
Proof.
  exact (merge_blank_answers VNull (Sample.unanswered "Q1" 95)
           [Sample.unanswered "Q2" 97; Sample.unanswered "Q3" 98]
           [Sample.unanswered "Q2" 60; Sample.unanswered "Q3" 50]
           eq_refl eq_refl eq_refl).
Defined.

(** ** Values that do not convert to text *)

(** An explanation or a code that does not convert to text stops
    [solveMathWithCode] while it builds the verification prompt: the
    [TypeError] is thrown outside the [try], and no verification call is
    made. *)
Lemma verification_prompt_failure {W : Type}
    (generateContent : string -> Request -> M W GenerateContentResponse)
    (JSON_parse : string -> outcome value)
    (problem : string) (verifiedLatex : option string) (useSearch : bool)
    (history : list string) (w0 w : W)
    (sources : list WebSource) (res : Tiered GenerateContentResponse) (fp : value) :
  solveStage generateContent JSON_parse problem verifiedLatex useSearch history w0
    = (Return (sources, res, fp), w) ->
  readable fp = true ->
  convertible (get_opt fp "explanation") && convertible (get_opt fp "pythonCode") = false ->
  solveMathWithCode generateContent JSON_parse problem verifiedLatex useSearch history w0
  = (Throw (TypeError "Cannot convert object to primitive value"), w).
Proof.
  intros Hs Hfp Hc.
  rewrite (solveMathWithCode_stages W generateContent JSON_parse _ _ _ _ _ _ _ _ _ Hs).
  unfold verifyAndResolve, bind, lift. rewrite !(get_readable fp _ Hfp). cbn [bindO].
  destruct (convertible (get_opt fp "explanation")) eqn:Ee.
  - rewrite (ToPrimitive_convertible _ Ee).
    cbn [andb] in Hc. rewrite (ToPrimitive_throws _ Hc). reflexivity.
  - rewrite (ToPrimitive_throws _ Ee). reflexivity.
Qed.

Example verification_prompt_failure_run :
  solveMathWithCode (Fixture.generate SampleMath.opaqueExplanation) Json.parse
    "1+1" None false [] []
  = (Throw (TypeError "Cannot convert object to primitive value"), SampleMath.afterSolve).
Proof. vm_compute. reflexivity. Qed.
